(** * stock-app: the enrichment-and-scoring pipeline

    A shallow embedding of the Go backend of Jannin2/stock-app:

    - [Models]   : package [models]   (NullFloat64, NullTime, Stock and the
                                       JSON methods of NullFloat64);
    - [Api]      : package [api]      (the clients of the rating source, of
                                       Finnhub and of Alpha Vantage);
    - [Database] : package [database] (UpsertStocks and the read methods);
    - [Handlers] : package [handlers] (the three handlers of the read API);
    - [Enricher] : package [enricher] (CalculateRecommendationScore, the
                                       cycle fetchAndEnrichStocks and
                                       StartFetching).

    A Go [float64] is a primitive binary64 float of the kernel, so that the
    arithmetic and the comparisons of the source are the IEEE 754 ones.  A Go
    [string] and a [[]byte] are a [string] of the Standard Library, which is a
    list of 8-bit characters. *)

From Stdlib Require Import ZArith String Ascii List Bool Lia.
From Stdlib Require Import PrimFloat.
From Stdlib Require Import DecimalString.
Import ListNotations.

Local Open Scope string_scope.
Local Open Scope Z_scope.

(** ** Go basics *)

Module Go.

Definition float64 : Set := PrimFloat.float.

(** The comparisons of Go on [float64]: [a > b], [a != b]. *)
Definition gt (a b : float64) : bool := PrimFloat.ltb b a.
Definition neq (a b : float64) : bool := negb (PrimFloat.eqb a b).

(** Two's complement wrap-around of an [int64]. *)
Definition wrap64 (z : Z) : Z := (z + 2 ^ 63) mod 2 ^ 64 - 2 ^ 63.

(** [time.Time], as the standard library holds it: seconds since January 1,
    year 1 (an [int64]) and nanoseconds within the second.  The location is
    left out: nothing in the pipeline reads it. *)
Record Time : Set := mkTime { sec : Z; nsec : Z }.

(** The zero value of [time.Time]. *)
Definition zeroTime : Time := mkTime 0 0.

(** [t.IsZero()]. *)
Definition IsZero (t : Time) : bool := (sec t =? 0) && (nsec t =? 0).

(** [unixToInternal] of package [time]: the seconds from year 1 to 1970. *)
Definition unixToInternal : Z := 62135596800.

(** [time.Unix(s, 0)]. *)
Definition Unix (s : Z) : Time := mkTime (wrap64 (s + unixToInternal)) 0.

(** A Go [error] value is [option error]: [None] is [nil].  The messages
    that [fmt.Errorf] formats are kept as the kind of failure, with the
    wrapped error where the source wraps one. *)
#[warnings="-register-all"]
Inductive error : Set :=
| ErrMissingKey (variable : string)
| ErrRequest
| ErrReadBody
| ErrStatus (code : Z)
| ErrDecode
| ErrCombined (latest : error) (previous : option error)
| ErrProviderMessage (message : string)
| ErrProviderNote (note : string)
| ErrParseDate (text : string)
| ErrNoGlobalQuote
| ErrUnsupportedValue
| ErrSql (stage : string).

Definition isNil (e : option error) : bool :=
  match e with None => true | Some _ => false end.

End Go.

(** ** package models *)

Module Models.
Import Go.

(** [sql.NullFloat64] wrapped by [models.NullFloat64]. *)
Module NullFloat64.
Record t : Set := mk { Float64 : float64; Valid : bool }.
(** The zero value [NullFloat64{}], which is also
    [NullFloat64{sql.NullFloat64{Valid: false}}]. *)
Definition null : t := mk 0%float false.
End NullFloat64.

(** [NewNullFloat64]. *)
Definition NewNullFloat64 (f : float64) : NullFloat64.t :=
  NullFloat64.mk f true.

(** [sql.NullTime] wrapped by [models.NullTime]. *)
Module NullTime.
Record t : Set := mk { Time : Go.Time; Valid : bool }.
Definition null : t := mk zeroTime false.
End NullTime.

(** [NewNullTime]. *)
Definition NewNullTime (t : Go.Time) : NullTime.t := NullTime.mk t true.

(** [models.Stock].  [ID] is the 128-bit value of the [uuid.UUID]. *)
Record Stock : Set := mkStock {
  ID : N;
  Ticker : string;
  Company : string;
  Brokerage : string;
  Action : string;
  RatingFrom : string;
  RatingTo : string;
  TargetFrom : NullFloat64.t;
  TargetTo : NullFloat64.t;
  CurrentPrice : float64;
  PERatio : NullFloat64.t;
  DividendYield : NullFloat64.t;
  MarketCapitalization : NullFloat64.t;
  Alpha : NullFloat64.t;
  LatestTradingDay : NullTime.t;
  RecommendationScore : NullFloat64.t;
  CreatedAt : Go.Time;
  UpdatedAt : Go.Time
}.

(** The zero value [models.Stock{}]. *)
Definition zeroStock : Stock :=
  mkStock 0%N EmptyString EmptyString EmptyString EmptyString EmptyString
          EmptyString NullFloat64.null NullFloat64.null 0%float
          NullFloat64.null NullFloat64.null NullFloat64.null
          NullFloat64.null NullTime.null NullFloat64.null zeroTime zeroTime.

(** Assignments to one field of [stocksFromKarenai[i]]. *)
Definition set_PERatio (v : NullFloat64.t) (s : Stock) : Stock :=
  mkStock (ID s) (Ticker s) (Company s) (Brokerage s) (Action s)
          (RatingFrom s) (RatingTo s) (TargetFrom s) (TargetTo s)
          (CurrentPrice s) v (DividendYield s) (MarketCapitalization s)
          (Alpha s) (LatestTradingDay s) (RecommendationScore s)
          (CreatedAt s) (UpdatedAt s).
Definition set_DividendYield (v : NullFloat64.t) (s : Stock) : Stock :=
  mkStock (ID s) (Ticker s) (Company s) (Brokerage s) (Action s)
          (RatingFrom s) (RatingTo s) (TargetFrom s) (TargetTo s)
          (CurrentPrice s) (PERatio s) v (MarketCapitalization s)
          (Alpha s) (LatestTradingDay s) (RecommendationScore s)
          (CreatedAt s) (UpdatedAt s).
Definition set_MarketCapitalization (v : NullFloat64.t) (s : Stock) : Stock :=
  mkStock (ID s) (Ticker s) (Company s) (Brokerage s) (Action s)
          (RatingFrom s) (RatingTo s) (TargetFrom s) (TargetTo s)
          (CurrentPrice s) (PERatio s) (DividendYield s) v
          (Alpha s) (LatestTradingDay s) (RecommendationScore s)
          (CreatedAt s) (UpdatedAt s).
Definition set_CurrentPrice (v : float64) (s : Stock) : Stock :=
  mkStock (ID s) (Ticker s) (Company s) (Brokerage s) (Action s)
          (RatingFrom s) (RatingTo s) (TargetFrom s) (TargetTo s)
          v (PERatio s) (DividendYield s) (MarketCapitalization s)
          (Alpha s) (LatestTradingDay s) (RecommendationScore s)
          (CreatedAt s) (UpdatedAt s).
Definition set_LatestTradingDay (v : NullTime.t) (s : Stock) : Stock :=
  mkStock (ID s) (Ticker s) (Company s) (Brokerage s) (Action s)
          (RatingFrom s) (RatingTo s) (TargetFrom s) (TargetTo s)
          (CurrentPrice s) (PERatio s) (DividendYield s)
          (MarketCapitalization s) (Alpha s) v (RecommendationScore s)
          (CreatedAt s) (UpdatedAt s).
Definition set_Alpha (v : NullFloat64.t) (s : Stock) : Stock :=
  mkStock (ID s) (Ticker s) (Company s) (Brokerage s) (Action s)
          (RatingFrom s) (RatingTo s) (TargetFrom s) (TargetTo s)
          (CurrentPrice s) (PERatio s) (DividendYield s)
          (MarketCapitalization s) v (LatestTradingDay s)
          (RecommendationScore s) (CreatedAt s) (UpdatedAt s).
Definition set_RecommendationScore (v : NullFloat64.t) (s : Stock) : Stock :=
  mkStock (ID s) (Ticker s) (Company s) (Brokerage s) (Action s)
          (RatingFrom s) (RatingTo s) (TargetFrom s) (TargetTo s)
          (CurrentPrice s) (PERatio s) (DividendYield s)
          (MarketCapitalization s) (Alpha s) (LatestTradingDay s) v
          (CreatedAt s) (UpdatedAt s).
Definition set_UpdatedAt (v : Go.Time) (s : Stock) : Stock :=
  mkStock (ID s) (Ticker s) (Company s) (Brokerage s) (Action s)
          (RatingFrom s) (RatingTo s) (TargetFrom s) (TargetTo s)
          (CurrentPrice s) (PERatio s) (DividendYield s)
          (MarketCapitalization s) (Alpha s) (LatestTradingDay s)
          (RecommendationScore s) (CreatedAt s) v.

(** *** The JSON methods of NullFloat64 *)

(** [strings.TrimSpace] removes the leading and the trailing white space
    runes of a UTF-8 string: the six ASCII ones and U+0085, U+00A0, U+1680,
    U+2000..U+200A, U+2028, U+2029, U+202F, U+205F and U+3000. *)
Definition isAsciiSpace (c : ascii) : bool :=
  let n := N_of_ascii c in
  ((9 <=? n) && (n <=? 13) || (n =? 32))%N.

(** The string without its leading white space runes. *)
Fixpoint trimLeft (s : string) : string :=
  match s with
  | EmptyString => EmptyString
  | String c r =>
    if isAsciiSpace c then trimLeft r
    else
      match r with
      | String d r1 =>
        let c := N_of_ascii c in
        let d := N_of_ascii d in
        if ((c =? 194) && ((d =? 133) || (d =? 160)))%N then trimLeft r1
        else
          match r1 with
          | String e r2 =>
            let e := N_of_ascii e in
            if ((c =? 225) && (d =? 154) && (e =? 128)
                || (c =? 226) && (d =? 128)
                   && ((128 <=? e) && (e <=? 138)
                       || (e =? 168) || (e =? 169) || (e =? 175))
                || (c =? 226) && (d =? 129) && (e =? 159)
                || (c =? 227) && (d =? 128) && (e =? 128))%N
            then trimLeft r2
            else s
          | EmptyString => s
          end
      | EmptyString => s
      end
  end.

(** A byte that is neither ASCII white space nor the first byte of a
    white space rune of several bytes. *)
Definition plainByte (c : ascii) : bool :=
  negb (isAsciiSpace c) && (N_of_ascii c <? 128)%N.

Definition isEmpty (s : string) : bool :=
  match s with EmptyString => true | String _ _ => false end.

(** The string without its trailing white space runes: the longest suffix
    made of white space runes only is cut. *)
Fixpoint trimRight (s : string) : string :=
  match s with
  | EmptyString => EmptyString
  | String c r =>
    if isEmpty (trimLeft s) then EmptyString else String c (trimRight r)
  end.

Definition TrimSpace (s : string) : string := trimRight (trimLeft s).

(** [strings.ToLower] on the ASCII letters.  The source only compares its
    result with the ASCII literal ["n/a"] in quotes, and no rune outside
    ASCII has one of the characters of that literal as its lower case, so
    the comparison is decided by the ASCII letters alone. *)
Definition lowerAscii (c : ascii) : ascii :=
  let n := N_of_ascii c in
  if ((65 <=? n) && (n <=? 90))%N then ascii_of_N (n + 32) else c.

Fixpoint ToLower (s : string) : string :=
  match s with
  | EmptyString => EmptyString
  | String c r => String (lowerAscii c) (ToLower r)
  end.

Definition dquote : ascii := "034"%char.

(** The two-byte text of the empty JSON string, and ["n/a"] in quotes. *)
Definition quoted (body : string) : string :=
  String dquote (body ++ String dquote EmptyString).
Definition lit_empty : string := quoted EmptyString.
Definition lit_na : string := quoted "n/a".

(** Package [strconv], which [encoding/json] calls to print and to read the
    digits of a [float64], is outside the repository: its two functions are
    parameters of the model.  [ParseFloat] reads a JSON number, white space
    allowed after it, and is [None] when the text is not one or is out of
    range. *)
Module Strconv.
Record t : Type := mk {
  FormatFloat : float64 -> string;
  ParseFloat : string -> option float64
}.
End Strconv.


Definition isJsonSpace (c : ascii) : bool :=
  let n := N_of_ascii c in
  ((n =? 32) || (n =? 9) || (n =? 13) || (n =? 10))%N.

Fixpoint skipJsonSpace (s : string) : string :=
  match s with
  | EmptyString => EmptyString
  | String c r => if isJsonSpace c then skipJsonSpace r else s
  end.

Definition startsNumber (s : string) : bool :=
  match s with
  | EmptyString => false
  | String c _ =>
    let n := N_of_ascii c in ((n =? 45) || (48 <=? n) && (n <=? 57))%N
  end.

(** [json.Unmarshal(data, &f)] with [var f float64]: [Some v] when it returns
    nil and leaves [v] in [f].  A number is read by [strconv]; the literal
    [null] leaves the zero value; a string, a boolean, an array, an object or
    a text that is not JSON is an error. *)
Definition json_Unmarshal_float64 (lib : Strconv.t) (data : string)
  : option float64 :=
  let s := skipJsonSpace data in
  if startsNumber s then Strconv.ParseFloat lib s
  else
    match s with
    | String "n" (String "u" (String "l" (String "l" rest))) =>
      if isEmpty (skipJsonSpace rest) then Some 0%float else None
    | _ => None
    end.


(** The test of the first [if] of [UnmarshalJSON] on the trimmed text. *)
Definition isNullSpelling (s : string) : bool :=
  (s =? "null")%string || (s =? EmptyString)%string
  || (s =? lit_empty)%string || (ToLower s =? lit_na)%string.

(** [func (nf *NullFloat64) UnmarshalJSON(data []byte) error]: the receiver
    after the call and the error returned. *)
Definition UnmarshalJSON (lib : Strconv.t) (nf : NullFloat64.t)
           (data : string) : NullFloat64.t * option error :=
  let s := TrimSpace data in
  if isNullSpelling s then
    (NullFloat64.mk (NullFloat64.Float64 nf) false, None)
  else
    match json_Unmarshal_float64 lib data with
    | None => (NullFloat64.mk (NullFloat64.Float64 nf) false, Some ErrDecode)
    | Some f => (NullFloat64.mk f true, None)
    end.



(** *** The JSON methods of NullTime *)

(** What the methods of NullTime use of packages [time] and
    [encoding/json], which are outside the repository: [Format] is
    [t.Format(time.RFC3339)], [ParseRFC3339] and [ParseDate] are [time.Parse]
    with the layouts [time.RFC3339] and [2006-01-02], [None] when it returns
    an error, and [Quote] is [json.Marshal] of a Go string. *)
Module TimePkg.
Record t : Type := mk {
  Format : Go.Time -> string;
  ParseRFC3339 : string -> option Go.Time;
  ParseDate : string -> option Go.Time;
  Quote : string -> string
}.
End TimePkg.

(** [func (nt NullTime) MarshalJSON() ([]byte, error)]. *)
Definition NullTime_MarshalJSON (lib : TimePkg.t) (nt : NullTime.t)
  : string + error :=
  if negb (NullTime.Valid nt) then inl "null"
  else inl (TimePkg.Quote lib (TimePkg.Format lib (NullTime.Time nt))).

(** [s[len(s)-1]] and [s[:len(s)-1]] of a string that is not empty. *)
Fixpoint lastByte (s : string) : option ascii :=
  match s with
  | EmptyString => None
  | String c EmptyString => Some c
  | String _ r => lastByte r
  end.

Fixpoint dropLast (s : string) : string :=
  match s with
  | EmptyString => EmptyString
  | String _ EmptyString => EmptyString
  | String c r => String c (dropLast r)
  end.

Definition isQuote (c : option ascii) : bool :=
  match c with Some c => Ascii.eqb c dquote | None => false end.

(** "Remove quotes if present": [s[1 : len(s)-1]] when [s] is longer than
    one byte and both its first and its last byte are a quote. *)
Definition stripQuotes (s : string) : string :=
  match s with
  | EmptyString => s
  | String c r =>
    if (1 <? String.length s)%nat && Ascii.eqb c dquote && isQuote (lastByte s)
    then dropLast r else s
  end.

(** [func (nt *NullTime) UnmarshalJSON(data []byte) error]: the receiver
    after the call and the error returned. *)
Definition NullTime_UnmarshalJSON (lib : TimePkg.t) (nt : NullTime.t)
           (data : string) : NullTime.t * option error :=
  let s := TrimSpace data in
  if (s =? "null")%string || (s =? EmptyString)%string
     || (s =? lit_empty)%string
  then (NullTime.mk (NullTime.Time nt) false, None)
  else
    let s := stripQuotes s in
    match TimePkg.ParseRFC3339 lib s with
    | Some t => (NullTime.mk t true, None)
    | None =>
      match TimePkg.ParseDate lib s with
      | Some t => (NullTime.mk t true, None)
      | None =>
        (NullTime.mk (NullTime.Time nt) false, Some (ErrParseDate s))
      end
    end.

(** A stand-in for the two packages that knows one day in each layout. *)
Definition oneLayoutEach : TimePkg.t :=
  TimePkg.mk
    (fun _ => "2024-01-02T00:00:00Z")
    (fun s => if (s =? "2024-01-02T00:00:00Z")%string
              then Some (Unix 1704153600) else None)
    (fun s => if (s =? "2024-01-02")%string
              then Some (Unix 1704153600) else None)
    quoted.

End Models.

(** ** package api: the three source clients *)

Module Api.
Import Go Models.

Definition KARENAI_API_URL : string :=
  "https://api.karenai.click/swechallenge/list".
Definition FINNHUB_BASE_URL : string := "https://finnhub.io/api/v1".
Definition ALPHA_VANTAGE_BASE_URL : string :=
  "https://www.alphavantage.co/query".

(** The three variables that the clients read from the process environment:
    [None] is a variable that is not set. *)
Record Env : Set := mkEnv {
  KARENAI_API_KEY : option string;
  FINNHUB_API_KEY : option string;
  ALPHA_VANTAGE_API_KEY : option string
}.

(** [os.Getenv]: the empty string for a variable that is not set. *)
Definition Getenv (v : option string) : string :=
  match v with Some x => x | None => EmptyString end.

(** What one call of [http.Get] (for the rating source, of [client.Do])
    meets.  [GetFailed]: the call returns an error, be it that the URL is
    refused before anything is sent or that the request fails on the way.
    [ReadFailed]: a response arrives and [io.ReadAll] of its body returns an
    error.  [Response]: a response arrives with a status code and a body, of
    which [payload] is what [json.Unmarshal] makes, [None] when it returns an
    error. *)
Inductive HttpResult (P : Type) : Type :=
| GetFailed
| ReadFailed (status : Z)
| Response (status : Z) (payload : option P).
Arguments GetFailed {P}.
Arguments ReadFailed {P} status.
Arguments Response {P} status payload.

Definition StatusOK : Z := 200.

(** The answers on which a client sets an error: everything but a 200 whose
    body decodes. *)
Definition failed {P : Type} (r : HttpResult P) : bool :=
  match r with
  | Response status (Some _) => negb (status =? StatusOK)
  | _ => true
  end.

(** What a client does besides computing its result.  [HttpGet url] is the
    call [http.Get(url)] (for the rating source, [client.Do] of the request
    made for [url]) and [Sleep n] the call [time.Sleep(n * time.Second)].
    [HttpGet] records that the call is made, not that a request leaves the
    process: [http.Get] parses its URL first, and for a URL that [net/url]
    refuses, one that holds an ASCII control byte for instance, it returns
    an error and sends nothing.  That case is [GetFailed] among the answers. *)
Inductive Effect : Set :=
| HttpGet (url : string)
| Sleep (seconds : Z).

(** *** Rating source *)

Record karenaiResponse : Set := mkKarenaiResponse {
  Items : list Stock;
  NextPage : string
}.

(** [GetRecommendationsFromKarenai].  [http.NewRequest] is called with the
    method GET and the constant URL, for which it returns no error. *)
Definition GetRecommendationsFromKarenai
           (env : Env) (resp : HttpResult karenaiResponse)
  : (list Stock * option error) * list Effect :=
  let karenaiAPIKey := Getenv (KARENAI_API_KEY env) in
  if (karenaiAPIKey =? EmptyString)%string then
    (([], Some (ErrMissingKey "KARENAI_API_KEY")), [])
  else
    let effects := [HttpGet KARENAI_API_URL] in
    match resp with
    | GetFailed => (([], Some ErrRequest), effects)
    | ReadFailed _ => (([], Some ErrReadBody), effects)
    | Response status payload =>
      if negb (status =? StatusOK) then (([], Some (ErrStatus status)), effects)
      else
        match payload with
        | None => (([], Some ErrDecode), effects)
        | Some karenaiResp => ((Items karenaiResp, None), effects)
        end
    end.

(** *** Finnhub *)

Record FinnhubMetric : Set := mkFinnhubMetric {
  PeExclExtraTTM : float64;
  PeRatio : float64;
  DividendYieldAnnually : float64; (* field DividendYield of the source *)
  DividendYieldAlt : float64;
  MarketCap : float64
}.

Record FinnhubMetricResponse : Set := mkFinnhubMetricResponse {
  Metric : FinnhubMetric
}.

Record FinnhubQuoteResponse : Set := mkFinnhubQuoteResponse {
  QuoteCurrentPrice : float64; (* field CurrentPrice, JSON "c" *)
  Timestamp : Z                (* JSON "t", an int64 *)
}.

Record FinnhubData : Set := mkFinnhubData {
  PE_Ratio : float64;
  DividendYield : float64;
  MarketCapitalization : float64;
  CurrentPrice : float64;
  LatestTradingDay : Time;
  Error : option error
}.

(** The zero value [FinnhubData{}] of [var finnhubData FinnhubData]. *)
Definition zeroFinnhubData : FinnhubData :=
  mkFinnhubData 0%float 0%float 0%float 0%float zeroTime None.

Definition set_Error (e : option error) (d : FinnhubData) : FinnhubData :=
  mkFinnhubData (PE_Ratio d) (DividendYield d) (MarketCapitalization d)
                (CurrentPrice d) (LatestTradingDay d) e.

(** Part 1 of [GetFinnhubMetricsAndQuote]: the metrics endpoint. *)
Definition fetchMetrics (finnhubData : FinnhubData)
           (respMetrics : HttpResult FinnhubMetricResponse) : FinnhubData :=
  match respMetrics with
  | GetFailed => set_Error (Some ErrRequest) finnhubData
  | ReadFailed _ => set_Error (Some ErrReadBody) finnhubData
  | Response status payload =>
    if negb (status =? StatusOK) then
      set_Error (Some (ErrStatus status)) finnhubData
    else
      match payload with
      | None => set_Error (Some ErrDecode) finnhubData
      | Some metricData =>
        let m := Metric metricData in
        mkFinnhubData
          (if neq (PeExclExtraTTM m) 0%float
           then PeExclExtraTTM m else PeRatio m)
          (if neq (DividendYieldAnnually m) 0%float
           then DividendYieldAnnually m else DividendYieldAlt m)
          (MarketCap m)
          (CurrentPrice finnhubData) (LatestTradingDay finnhubData)
          (Error finnhubData)
      end
  end.

(** Part 2: the quote endpoint.  A failure here is combined with the error
    that part 1 left, if any. *)
Definition fetchQuote (finnhubData : FinnhubData)
           (respQuote : HttpResult FinnhubQuoteResponse) : FinnhubData :=
  let combine e := Some (ErrCombined e (Error finnhubData)) in
  match respQuote with
  | GetFailed => set_Error (combine ErrRequest) finnhubData
  | ReadFailed _ => set_Error (combine ErrReadBody) finnhubData
  | Response status payload =>
    if negb (status =? StatusOK) then
      set_Error (combine (ErrStatus status)) finnhubData
    else
      match payload with
      | None => set_Error (combine ErrDecode) finnhubData
      | Some quoteData =>
        mkFinnhubData
          (PE_Ratio finnhubData) (DividendYield finnhubData)
          (MarketCapitalization finnhubData)
          (QuoteCurrentPrice quoteData)
          (if negb (Timestamp quoteData =? 0)
           then Unix (Timestamp quoteData)
           else LatestTradingDay finnhubData)
          (Error finnhubData)
      end
  end.

Definition metricURL (ticker finnhubAPIKey : string) : string :=
  FINNHUB_BASE_URL ++ "/stock/metric?symbol=" ++ ticker
                   ++ "&metricType=all&token=" ++ finnhubAPIKey.

Definition quoteURL (ticker finnhubAPIKey : string) : string :=
  FINNHUB_BASE_URL ++ "/quote?symbol=" ++ ticker ++ "&token=" ++ finnhubAPIKey.

(** [GetFinnhubMetricsAndQuote].  With the key set, [http.Get] is called
    for the metrics and then for the quote, whatever the first call met. *)
Definition GetFinnhubMetricsAndQuote
           (env : Env) (ticker : string)
           (respMetrics : HttpResult FinnhubMetricResponse)
           (respQuote : HttpResult FinnhubQuoteResponse)
  : (FinnhubData * option error) * list Effect :=
  let finnhubAPIKey := Getenv (FINNHUB_API_KEY env) in
  if (finnhubAPIKey =? EmptyString)%string then
    let e := Some (ErrMissingKey "FINNHUB_API_KEY") in
    ((set_Error e zeroFinnhubData, e), [])
  else
    let finnhubData := zeroFinnhubData in
    let finnhubData := fetchMetrics finnhubData respMetrics in
    let finnhubData := fetchQuote finnhubData respQuote in
    ((finnhubData, Error finnhubData),
     [HttpGet (metricURL ticker finnhubAPIKey);
      HttpGet (quoteURL ticker finnhubAPIKey)]).

(** *** Alpha Vantage *)

(** A value decoded by [encoding/json] into an [interface{}]. *)
#[warnings="-register-all"]
Inductive JSON : Set :=
| JNull
| JBool (b : bool)
| JNumber (f : float64)
| JString (s : string)
| JArray (items : list JSON)
| JObject (fields : list (string * JSON)).

(** [m[key]] on a [map[string]interface{}], the map being the list of its
    entries: [None] is the nil interface of a missing key. *)
Fixpoint index (m : list (string * JSON)) (key : string) : option JSON :=
  match m with
  | [] => None
  | (k, v) :: rest => if (k =? key)%string then Some v else index rest key
  end.

(** The type assertions [v.(string)] and [v.(map[string]interface{})]. *)
Definition asString (v : option JSON) : option string :=
  match v with Some (JString s) => Some s | _ => None end.

Definition asMap (v : option JSON) : option (list (string * JSON)) :=
  match v with Some (JObject m) => Some m | _ => None end.

Record AlphaVantageData : Set := mkAlphaVantageData {
  AVAlpha : float64;            (* field Alpha *)
  AVLatestTradingDay : Time;    (* field LatestTradingDay *)
  AVError : option error        (* field Error *)
}.

(** The zero value of [var avData AlphaVantageData]. *)
Definition zeroAlphaVantageData : AlphaVantageData :=
  mkAlphaVantageData 0%float zeroTime None.

Definition av_set_Error (e : option error) (d : AlphaVantageData)
  : AlphaVantageData :=
  mkAlphaVantageData (AVAlpha d) (AVLatestTradingDay d) e.

Definition av_set_LatestTradingDay (t : Time) (d : AlphaVantageData)
  : AlphaVantageData :=
  mkAlphaVantageData (AVAlpha d) t (AVError d).

Definition alphaURL (ticker alphaVantageAPIKey : string) : string :=
  ALPHA_VANTAGE_BASE_URL ++ "?function=GLOBAL_QUOTE&symbol=" ++ ticker
                         ++ "&apikey=" ++ alphaVantageAPIKey.

(** The body of [GetAlphaAndLatestTradingDayFromAlphaVantage] once the
    response is decoded into [avResponse].  [time_Parse] is
    [time.Parse("2006-01-02", _)], [None] when it returns an error. *)
Definition readGlobalQuote (time_Parse : string -> option Time)
           (avData : AlphaVantageData) (avResponse : list (string * JSON))
  : AlphaVantageData :=
  match asString (index avResponse "Error Message") with
  | Some errorMessage =>
    av_set_Error (Some (ErrProviderMessage errorMessage)) avData
  | None =>
    match asString (index avResponse "Note") with
    | Some note => av_set_Error (Some (ErrProviderNote note)) avData
    | None =>
      match asMap (index avResponse "Global Quote") with
      | Some globalQuote =>
        match asString (index globalQuote "07. latest trading day") with
        | Some ltDayStr =>
          if negb (ltDayStr =? EmptyString)%string then
            match time_Parse ltDayStr with
            | None => av_set_Error (Some (ErrParseDate ltDayStr)) avData
            | Some parsedTime => av_set_LatestTradingDay parsedTime avData
            end
          else avData
        | None => avData
        end
      | None => av_set_Error (Some ErrNoGlobalQuote) avData
      end
    end
  end.

(** [GetAlphaAndLatestTradingDayFromAlphaVantage].  With the key set, it
    sleeps and then calls [http.Get] once. *)
Definition GetAlphaAndLatestTradingDayFromAlphaVantage
           (time_Parse : string -> option Time)
           (env : Env) (ticker : string)
           (resp : HttpResult (list (string * JSON)))
  : (AlphaVantageData * option error) * list Effect :=
  let alphaVantageAPIKey := Getenv (ALPHA_VANTAGE_API_KEY env) in
  if (alphaVantageAPIKey =? EmptyString)%string then
    let e := Some (ErrMissingKey "ALPHA_VANTAGE_API_KEY") in
    ((av_set_Error e zeroAlphaVantageData, e), [])
  else
    let effects := [Sleep 15; HttpGet (alphaURL ticker alphaVantageAPIKey)] in
    let avData := zeroAlphaVantageData in
    let avData :=
      match resp with
      | GetFailed => av_set_Error (Some ErrRequest) avData
      | ReadFailed _ => av_set_Error (Some ErrReadBody) avData
      | Response status payload =>
        if negb (status =? StatusOK) then
          av_set_Error (Some (ErrStatus status)) avData
        else
          match payload with
          | None => av_set_Error (Some ErrDecode) avData
          | Some avResponse => readGlobalQuote time_Parse avData avResponse
          end
      end in
    ((avData, AVError avData), effects).

End Api.

(** ** package database: UpsertStocks *)

Module Database.
Import Go Models.

(** The database server is outside the repository.  Of it the model keeps
    the contents of the table [stocks] and what one execution of the
    prepared INSERT ... ON CONFLICT (ticker) DO UPDATE statement does to
    them inside a transaction: [None] when the statement returns an error. *)
Record Server : Type := mkServer {
  Table : Type;
  execUpsert : Table -> Stock -> option Table
}.

(** The connection [c.db]: the committed contents, and the contents that the
    open transaction sees, if one is open. *)
Record Conn (S : Server) : Type := mkConn {
  committed : Table S;
  pending : option (Table S)
}.
Arguments mkConn {S} committed pending.
Arguments committed {S} c.
Arguments pending {S} c.

(** The failures of the driver that do not depend on a record. *)
Record Faults : Set := mkFaults {
  begin_fails : bool;
  prepare_fails : bool;
  commit_fails : bool
}.

(** The calls that [UpsertStocks] makes on [database/sql]. *)
Inductive DbOp : Set :=
| OpBeginTx
| OpPrepare
| OpExec (s : Stock)
| OpCommit
| OpStmtClose
| OpRollback.

Section Upsert.
Context {S : Server}.

(** [c.db.BeginTx]: the transaction starts from the committed contents. *)
Definition BeginTx (c : Conn S) : Conn S :=
  mkConn (committed c) (Some (committed c)).

(** [tx.Commit] that succeeds: what the transaction wrote is published;
    without an open transaction nothing changes. *)
Definition Commit (c : Conn S) : Conn S :=
  match pending c with
  | Some t => mkConn t None
  | None => c
  end.

(** [tx.Rollback], also what is left of the transaction when [tx.Commit]
    fails: what the transaction wrote is dropped.  After a commit it finds
    no open transaction and changes nothing. *)
Definition Rollback (c : Conn S) : Conn S := mkConn (committed c) None.

(** [stmt.ExecContext] for one record, inside the open transaction. *)
Definition ExecContext (c : Conn S) (s : Stock) : option (Conn S) :=
  match pending c with
  | Some t =>
    match execUpsert S t s with
    | Some t' => Some (mkConn (committed c) (Some t'))
    | None => None
    end
  | None => None
  end.

(** The [for _, s := range stocks] loop: it returns at the first record
    whose statement fails. *)
Fixpoint execAll (c : Conn S) (stocks : list Stock)
  : (Conn S * option error) * list DbOp :=
  match stocks with
  | [] => ((c, None), [])
  | s :: rest =>
    match ExecContext c s with
    | None => ((c, Some (ErrSql "exec")), [OpExec s])
    | Some c' =>
      let '(r, ops) := execAll c' rest in (r, OpExec s :: ops)
    end
  end.

(** [func (c *cockroachDB) UpsertStocks(stocks []models.Stock) error]: the
    connection after the call, the error returned and the calls made.  The
    two deferred calls, [stmt.Close] and [tx.Rollback], run in that order
    at every return that follows their [defer]. *)
Definition UpsertStocks (f : Faults) (c : Conn S) (stocks : list Stock)
  : (Conn S * option error) * list DbOp :=
  match stocks with
  | [] => ((c, None), [])
  | _ :: _ =>
    if begin_fails f then ((c, Some (ErrSql "begin")), [OpBeginTx])
    else
      let c := BeginTx c in
      if prepare_fails f then
        ((Rollback c, Some (ErrSql "prepare")),
         [OpBeginTx; OpPrepare; OpRollback])
      else
        let '((c, err), ops) := execAll c stocks in
        match err with
        | Some e =>
          ((Rollback c, Some e),
           ([OpBeginTx; OpPrepare] ++ ops ++ [OpStmtClose; OpRollback])%list)
        | None =>
          if commit_fails f then
            ((Rollback (Rollback c), Some (ErrSql "commit")),
             ([OpBeginTx; OpPrepare] ++ ops
              ++ [OpCommit; OpStmtClose; OpRollback])%list)
          else
            ((Rollback (Commit c), None),
             ([OpBeginTx; OpPrepare] ++ ops
              ++ [OpCommit; OpStmtClose; OpRollback])%list)
        end
  end.

(** All the statements of a batch in turn, from given contents: [None] as
    soon as one fails. *)
Fixpoint upsertAll (t : Table S) (stocks : list Stock) : option (Table S) :=
  match stocks with
  | [] => Some t
  | s :: rest =>
    match execUpsert S t s with
    | Some t' => upsertAll t' rest
    | None => None
    end
  end.

End Upsert.

(** A server to run the model on.  The table is the list of its rows; the
    statement fails on a ticker longer than the VARCHAR(10) of the schema,
    updates the row of the ticker when there is one (its [id] and
    [created_at] are kept) and appends a row otherwise.  Times and fresh
    identifiers are left at their zero values. *)
Fixpoint upsertRow (t : list Stock) (s : Stock) : list Stock :=
  match t with
  | [] => [mkStock 0%N (Ticker s) (Company s) (Brokerage s) (Action s)
                   (RatingFrom s) (RatingTo s) (TargetFrom s) (TargetTo s)
                   (CurrentPrice s) (PERatio s) (DividendYield s)
                   (MarketCapitalization s) (Alpha s) (LatestTradingDay s)
                   (RecommendationScore s) zeroTime zeroTime]
  | row :: rest =>
    if (Ticker row =? Ticker s)%string then
      mkStock (ID row) (Ticker row) (Company s) (Brokerage s) (Action s)
              (RatingFrom s) (RatingTo s) (TargetFrom s) (TargetTo s)
              (CurrentPrice s) (PERatio s) (DividendYield s)
              (MarketCapitalization s) (Alpha s) (LatestTradingDay s)
              (RecommendationScore s) (CreatedAt row) zeroTime :: rest
    else row :: upsertRow rest s
  end.

Definition listServer : Server :=
  mkServer (list Stock)
           (fun t s => if (10 <? String.length (Ticker s))%nat then None
                       else Some (upsertRow t s)).

Definition noFaults : Faults := mkFaults false false false.

(** *** The statement, as the server runs it *)

(** The row that the statement stores for a record: its fifteen arguments,
    under a given identifier and creation time, with [updated_at] at the
    [now()] of the transaction. *)
Definition storedRow (now : Time) (id : N) (created : Time) (s : Stock)
  : Stock :=
  mkStock id (Ticker s) (Company s) (Brokerage s) (Action s)
          (RatingFrom s) (RatingTo s) (TargetFrom s) (TargetTo s)
          (CurrentPrice s) (PERatio s) (DividendYield s)
          (MarketCapitalization s) (Alpha s) (LatestTradingDay s)
          (RecommendationScore s) created now.

(** INSERT ... ON CONFLICT (ticker) DO UPDATE SET ..., updated_at = now():
    the row of the ticker, when there is one, takes the arguments and the
    time and keeps its [id] and its [created_at]; otherwise a row is added
    under a new identifier, created at [now()]. *)
Fixpoint upsertAt (now : Time) (id : N) (t : list Stock) (s : Stock)
  : list Stock :=
  match t with
  | [] => [storedRow now id now s]
  | row :: rest =>
    if (Ticker row =? Ticker s)%string
    then storedRow now (ID row) (CreatedAt row) s :: rest
    else row :: upsertAt now id rest s
  end.

(** A server that runs the statement so, in a transaction at the time [now]:
    [newID] is what [gen_random_uuid()] gives for a new row of a table,
    [rejects] tells the records whose statement the server fails on a table
    (a value that does not fit its column, a lost connection), and
    [asColumns] gives the arguments as the columns hold them (a DECIMAL column
    rounds to its scale). *)
Definition sqlServer (now : Time) (newID : list Stock -> N)
           (rejects : list Stock -> Stock -> bool)
           (asColumns : Stock -> Stock) : Server :=
  mkServer (list Stock)
           (fun t s => if rejects t s then None
                       else Some (upsertAt now (newID t) t (asColumns s))).

(** The row of a ticker. *)
Definition findRow (ticker : string) (t : list Stock) : option Stock :=
  find (fun row => (Ticker row =? ticker)%string) t.

(** A connection to such a server, its table holding one row, for AAA,
    stored at the time 5 under the identifier 7; new rows are numbered from
    100, the transaction is at the time 1704200000. *)
Definition tableWithAAA
  : Conn (sqlServer (Unix 1704200000)
                    (fun t => N.of_nat (length t) + 100)%N
                    (fun _ _ => false) (fun s => s)) :=
  mkConn (S := sqlServer (Unix 1704200000)
                         (fun t => N.of_nat (length t) + 100)%N
                         (fun _ _ => false) (fun s => s))
         [storedRow (Unix 5) 7%N (Unix 5)
                    (mkStock 0%N "AAA" EmptyString EmptyString "Hold"
                             EmptyString EmptyString NullFloat64.null
                             NullFloat64.null 0%float NullFloat64.null
                             NullFloat64.null NullFloat64.null
                             NullFloat64.null NullTime.null NullFloat64.null
                             zeroTime zeroTime)]
         None.

(** *** The read methods *)

(** An argument of a statement: a text or an [int]. *)
Inductive SqlArg : Set :=
| ArgText (s : string)
| ArgInt (n : Z).

(** A statement as [database/sql] gets it: its text and its arguments. *)
Definition Statement : Set := (string * list SqlArg)%type.

(** What [QueryContext] and the iteration over its rows meet: the query
    fails, or it gives rows, each of which [rows.Scan] reads into a record or
    fails on ([None]), and after which [rows.Err] may report an error. *)
Inductive RowsResult : Set :=
| QueryFailed
| Rows (scanned : list (option Stock)) (iterationFailed : bool).

(** What [QueryRowContext(...).Scan] meets: [sql.ErrNoRows], another error,
    or a row read into a record. *)
Inductive RowResult : Set :=
| NoRows
| RowFailed
| Row (s : Stock).

(** The answers of the server to the statements of one request, by the
    position of the statement in the request. *)
Record Reader : Type := mkReader {
  countRows : nat -> Statement -> option Z;
  selectRows : nat -> Statement -> RowsResult;
  selectRow : nat -> Statement -> RowResult
}.

(** [StockQueryOptions]. *)
Record StockQueryOptions : Set := mkOptions {
  Search : string;
  SortBy : string;
  Order : string;
  Limit : Z;
  Offset : Z
}.

(** A [[]models.Stock] of the read methods: [None] is the nil slice, which
    [var stocks []models.Stock] declares and [encoding/json] writes as
    [null]. *)
Definition Slice : Set := option (list Stock).

(** [append(stocks, s)]. *)
Definition append (stocks : Slice) (s : Stock) : Slice :=
  match stocks with
  | None => Some [s]
  | Some l => Some (l ++ [s])%list
  end.

(** [strconv.Itoa], also the verb [%d] of [fmt.Sprintf]. *)
Definition Itoa (n : Z) : string := NilZero.string_of_int (Z.to_int n).

Definition likePattern (search : string) : string := "%" ++ search ++ "%".

(** [func (c *cockroachDB) GetStockCount(searchQuery string) (int, error)],
    its statement being the [k]-th of the request. *)
Definition GetStockCount (rd : Reader) (k : nat) (searchQuery : string)
  : (Z * option error) * list Statement :=
  let query := "SELECT COUNT(*) FROM stocks" in
  let args : list SqlArg := [] in
  let '(query, args) :=
    if negb (searchQuery =? EmptyString)%string
    then (query ++ " WHERE ticker ILIKE $1 OR company ILIKE $2",
          (args ++ [ArgText (likePattern searchQuery);
                    ArgText (likePattern searchQuery)])%list)
    else (query, args) in
  match countRows rd k (query, args) with
  | None => ((0, Some (ErrSql "count")), [(query, args)])
  | Some count => ((count, None), [(query, args)])
  end.

(** The statement that [GetStockCount] sends, written out. *)
Definition countStatement (searchQuery : string) : Statement :=
  if negb (searchQuery =? EmptyString)%string
  then ("SELECT COUNT(*) FROM stocks WHERE ticker ILIKE $1 OR company ILIKE $2",
        [ArgText ("%" ++ searchQuery ++ "%");
         ArgText ("%" ++ searchQuery ++ "%")])
  else ("SELECT COUNT(*) FROM stocks", []).

(** What a read method returns for rows that all scan: the nil slice when
    there is none. *)
Definition sliceOf (stocks : list Stock) : Slice :=
  match stocks with [] => None | _ :: _ => Some stocks end.

Definition selectColumns : string :=
  "SELECT id, ticker, company, brokerage, action, rating_from, rating_to, target_from, target_to, current_price, pe_ratio, dividend_yield, market_capitalization, alpha, latest_trading_day, recommendation_score, created_at, updated_at FROM stocks".

Definition validSortColumns : list string :=
  ["ticker"; "company"; "current_price"; "action"; "recommendation_score";
   "pe_ratio"; "dividend_yield"; "market_capitalization"; "alpha"].

(** [validSortColumns[key]] of the source, a [map[string]bool]. *)
Definition isValidSortColumn (key : string) : bool :=
  existsb (String.eqb key) validSortColumns.

(** The loop [for rows.Next()]: [None] when a [rows.Scan] fails. *)
Fixpoint scanRows (stocks : Slice) (rows : list (option Stock))
  : option Slice :=
  match rows with
  | [] => Some stocks
  | None :: _ => None
  | Some s :: rest => scanRows (append stocks s) rest
  end.

(** From [QueryContext] to the return, shared by [GetAllStocks] and
    [GetRecommendedStocks]. *)
Definition readRows (result : RowsResult) : Slice * option error :=
  match result with
  | QueryFailed => (None, Some (ErrSql "query"))
  | Rows rows iterationFailed =>
    match scanRows None rows with
    | None => (None, Some (ErrSql "scan"))
    | Some stocks =>
      if iterationFailed then (None, Some (ErrSql "rows"))
      else (stocks, None)
    end
  end.

(** The statement that [GetAllStocks] builds from its options. *)
Definition allStocksStatement (opts : StockQueryOptions) : Statement :=
  let query := selectColumns in
  let args : list SqlArg := [] in
  let argCounter := 1 in
  let '(query, args, argCounter) :=
    if negb (Search opts =? EmptyString)%string
    then (query ++ " WHERE ticker ILIKE $" ++ Itoa argCounter
                ++ " OR company ILIKE $" ++ Itoa (argCounter + 1),
          (args ++ [ArgText (likePattern (Search opts));
                    ArgText (likePattern (Search opts))])%list,
          argCounter + 2)
    else (query, args, argCounter) in
  let query :=
    if negb (SortBy opts =? EmptyString)%string then
      let sortBy :=
        if negb (isValidSortColumn (SortBy opts)) then "ticker"
        else SortBy opts in
      let order := if (Order opts =? "desc")%string then "DESC" else "ASC" in
      query ++ " ORDER BY " ++ sortBy ++ " " ++ order
    else query ++ " ORDER BY ticker ASC" in
  let query :=
    query ++ " LIMIT $" ++ Itoa argCounter
          ++ " OFFSET $" ++ Itoa (argCounter + 1) in
  (query, (args ++ [ArgInt (Limit opts); ArgInt (Offset opts)])%list).

(** [func (c *cockroachDB) GetAllStocks(opts StockQueryOptions)
    ([]models.Stock, error)]: the count comes first and its error is only
    logged. *)
Definition GetAllStocks (rd : Reader) (k : nat) (opts : StockQueryOptions)
  : (Slice * option error) * list Statement :=
  let '(_, counted) := GetStockCount rd k (Search opts) in
  let stmt := allStocksStatement opts in
  (readRows (selectRows rd (k + length counted) stmt),
   (counted ++ [stmt])%list).

Definition byIDQuery : string := selectColumns ++ " WHERE id = $1".

(** [func (c *cockroachDB) GetStockByID(id string) (models.Stock, error)]. *)
Definition GetStockByID (rd : Reader) (k : nat) (id : string)
  : (Stock * option error) * list Statement :=
  let stmt := (byIDQuery, [ArgText id]) in
  match selectRow rd k stmt with
  | NoRows => ((zeroStock, Some (ErrSql "not found")), [stmt])
  | RowFailed => ((zeroStock, Some (ErrSql "get by id")), [stmt])
  | Row s => ((s, None), [stmt])
  end.

Definition recommendedQuery : string :=
  selectColumns
    ++ " ORDER BY recommendation_score DESC NULLS LAST LIMIT $1".

(** [func (c *cockroachDB) GetRecommendedStocks(limit int)
    ([]models.Stock, error)]. *)
Definition GetRecommendedStocks (rd : Reader) (k : nat) (limit : Z)
  : (Slice * option error) * list Statement :=
  let stmt := (recommendedQuery, [ArgInt limit]) in
  (readRows (selectRows rd k stmt), [stmt]).

(** A server that answers every statement with the same two rows. *)
Definition twoRows : Reader :=
  mkReader (fun _ _ => Some 2)
           (fun _ _ => Rows [Some zeroStock; Some zeroStock] false)
           (fun _ _ => Row zeroStock).

End Database.

(** ** package handlers *)

Module Handlers.
Import Go Models.

(** The value of a decimal digit. *)
Definition digit (c : ascii) : option Z :=
  let n := Z.of_N (N_of_ascii c) in
  if (48 <=? n) && (n <=? 57) then Some (n - 48) else None.

Fixpoint digitsValue (acc : Z) (s : string) : option Z :=
  match s with
  | EmptyString => Some acc
  | String c r =>
    match digit c with
    | Some d => digitsValue (acc * 10 + d) r
    | None => None
    end
  end.

(** [strconv.Atoi] where [int] has 64 bits: an optional sign, then decimal
    digits, at least one, of a value that fits; [None] is an error. *)
Definition Atoi (s : string) : option Z :=
  match s with
  | EmptyString => None
  | String c r =>
    let neg := Ascii.eqb c "-" in
    let body := if neg || Ascii.eqb c "+" then r else s in
    if isEmpty body then None
    else
      match digitsValue 0 body with
      | None => None
      | Some v =>
        let n := if neg then - v else v in
        if (- 2 ^ 63 <=? n) && (n <=? 2 ^ 63 - 1) then Some n else None
      end
  end.

(** The parameters of a request that the handlers read: [r.URL.Query().Get]
    of each name, the empty string when the parameter is not there, and the
    [id] of the route. *)
Record Request : Set := mkRequest {
  limitStr : string;
  offsetStr : string;
  searchQuery : string;
  sortBy : string;
  order : string;
  id : string
}.

(** What a handler writes: the text of [http.Error], up to the error that
    [fmt.Sprintf] appends to it, or the value it hands to the JSON encoder. *)
Inductive Body : Set :=
| ErrorText (message : string)
| EncodedStocks (stocks : Database.Slice)
| EncodedStock (stock : Stock).

Record Response : Set := mkResponse {
  Status : Z;
  ContentType : string;
  TotalCount : option string;
  Written : Body
}.

(** [http.Error(w, message, code)]. *)
Definition httpError (message : string) (code : Z) : Response :=
  mkResponse code "text/plain; charset=utf-8" None (ErrorText message).

Definition StatusOK : Z := 200.
Definition StatusBadRequest : Z := 400.
Definition StatusNotFound : Z := 404.
Definition StatusInternalServerError : Z := 500.

(** No byte of the string is 128 or more. *)
Fixpoint isASCII (s : string) : bool :=
  match s with
  | EmptyString => true
  | String c r => (N_of_ascii c <? 128)%N && isASCII r
  end.

(** [strings.ToLower].  On a string of ASCII bytes it lowers the letters A to
    Z.  On any other string it is [strings.Map(unicode.ToLower, s)], which
    maps every rune by the tables of package [unicode] and writes U+FFFD for
    a byte that is not UTF-8: that function is outside the repository and is
    the parameter [mapLower]. *)
Definition strings_ToLower (mapLower : string -> string) (s : string)
  : string :=
  if isASCII s then ToLower s else mapLower s.

(** The options that [GetStocks] makes of a request. *)
Definition optionsOf (mapLower : string -> string) (r : Request)
  : Database.StockQueryOptions :=
  let limit :=
    match Atoi (limitStr r) with
    | Some limit => if limit <=? 0 then 10 else limit
    | None => 10
    end in
  let offset :=
    match Atoi (offsetStr r) with
    | Some offset => if offset <? 0 then 0 else offset
    | None => 0
    end in
  Database.mkOptions (searchQuery r) (sortBy r)
                     (strings_ToLower mapLower (order r)) limit offset.

(** [func (h *StockHandlers) GetStocks(w, r)]: the response and the
    statements sent to the database. *)
Definition GetStocks (mapLower : string -> string) (rd : Database.Reader)
           (r : Request) : Response * list Database.Statement :=
  let opts := optionsOf mapLower r in
  let '((stocks, err), sent) := Database.GetAllStocks rd 0 opts in
  match err with
  | Some _ =>
    (httpError "Error al obtener stocks" StatusInternalServerError, sent)
  | None =>
    let '((totalCount, err), sent') :=
      Database.GetStockCount rd (length sent) (searchQuery r) in
    match err with
    | Some _ =>
      (httpError "Error al obtener el conteo de stocks"
                 StatusInternalServerError, (sent ++ sent')%list)
    | None =>
      (mkResponse StatusOK "application/json"
                  (Some (Database.Itoa totalCount)) (EncodedStocks stocks),
       (sent ++ sent')%list)
    end
  end.

(** [func (h *StockHandlers) GetStockByID(w, r)]. *)
Definition GetStockByID (rd : Database.Reader) (r : Request)
  : Response * list Database.Statement :=
  if (id r =? EmptyString)%string then
    (httpError "Se requiere el ID del stock" StatusBadRequest, [])
  else
    let '((stock, err), sent) := Database.GetStockByID rd 0 (id r) in
    match err with
    | Some _ => (httpError "Stock no encontrado" StatusNotFound, sent)
    | None =>
      (mkResponse StatusOK "application/json" None (EncodedStock stock), sent)
    end.

(** [func (h *StockHandlers) GetRecommendedStocks(w, r)]. *)
Definition recommendedLimit (r : Request) : Z :=
  match Atoi (limitStr r) with
  | Some limit => if limit <=? 0 then 5 else limit
  | None => 5
  end.

Definition GetRecommendedStocks (rd : Database.Reader) (r : Request)
  : Response * list Database.Statement :=
  let limit := recommendedLimit r in
  let '((stocks, err), sent) := Database.GetRecommendedStocks rd 0 limit in
  match err with
  | Some _ =>
    (httpError "Error al obtener stocks recomendados"
               StatusInternalServerError, sent)
  | None =>
    (mkResponse StatusOK "application/json" None (EncodedStocks stocks), sent)
  end.

End Handlers.

(** ** package enricher *)

Module Enricher.
Import Go Models.

(** The untyped constant [1.1] of the source, converted to [float64]. *)
Definition c_1_1 : float64 := 0x1.199999999999ap+0%float.

(** [CalculateRecommendationScore]: [scoreVal] starts at [0.0] and each of
    the two [if] statements adds to it. *)
Definition CalculateRecommendationScore (stock : Stock) : float64 :=
  let scoreVal := 0%float in
  let scoreVal :=
    if (Action stock =? "Buy")%string || (Action stock =? "Strong Buy")%string
    then (scoreVal + 5)%float else scoreVal in
  let scoreVal :=
    if gt (CurrentPrice stock) 0%float
       && NullFloat64.Valid (TargetTo stock)
       && gt (NullFloat64.Float64 (TargetTo stock))
             (CurrentPrice stock * c_1_1)%float
    then (scoreVal + 3)%float else scoreVal in
  scoreVal.

(** The score as the specification words it: a sum of two contributions. *)
Definition action_is_buy (stock : Stock) : bool :=
  (Action stock =? "Buy")%string || (Action stock =? "Strong Buy")%string.

Definition target_beats_price (stock : Stock) : bool :=
  PrimFloat.ltb 0%float (CurrentPrice stock)
  && NullFloat64.Valid (TargetTo stock)
  && PrimFloat.ltb (CurrentPrice stock * c_1_1)%float
                   (NullFloat64.Float64 (TargetTo stock)).

Definition score_spec (stock : Stock) : float64 :=
  ((if action_is_buy stock then 5 else 0)
   + (if target_beats_price stock then 3 else 0))%float.

(** The records of the worked examples: only the three fields that the
    score reads are set, as in the table of [TestCalculateRecommendationScore]. *)
Definition example_stock (action : string) (price : float64)
           (target : NullFloat64.t) : Stock :=
  mkStock 0%N EmptyString EmptyString EmptyString action EmptyString
          EmptyString NullFloat64.null target price
          NullFloat64.null NullFloat64.null NullFloat64.null
          NullFloat64.null NullTime.null NullFloat64.null zeroTime zeroTime.

(** *** The cycle *)

(** What one cycle meets outside the repository's code: the process
    environment, the answer of the rating source, the answers that the
    calls of the [i]-th turn of the loop get from Finnhub and from Alpha
    Vantage, [time.Parse], the clock read in the [i]-th turn, and the faults
    of the database driver. *)
Record World : Type := mkWorld {
  env : Api.Env;
  karenai : Api.HttpResult Api.karenaiResponse;
  finnhubMetrics : nat -> Api.HttpResult Api.FinnhubMetricResponse;
  finnhubQuote : nat -> Api.HttpResult Api.FinnhubQuoteResponse;
  alphaVantage : nat -> Api.HttpResult (list (string * Api.JSON));
  time_Parse : string -> option Time;
  now : nat -> Time;
  faults : Database.Faults
}.

(** The world in which the Alpha Vantage request of turn [x] gets [r]. *)
Definition withAlphaVantage (x : nat)
           (r : Api.HttpResult (list (string * Api.JSON))) (w : World)
  : World :=
  mkWorld (env w) (karenai w) (finnhubMetrics w) (finnhubQuote w)
          (fun i => if Nat.eqb i x then r else alphaVantage w i)
          (time_Parse w) (now w) (faults w).

(** What a cycle does, in order: the calls of the three clients and of the
    storage port, with what each of them does in turn. *)
Inductive Event : Set :=
| CallKarenai
| CallFinnhub (ticker : string)
| CallAlphaVantage (ticker : string)
| CallUpsertStocks (batch : list Stock)
| Did (e : Api.Effect)
| Db (op : Database.DbOp).

Definition isClientACall (e : Event) : bool :=
  match e with CallFinnhub _ => true | _ => false end.
Definition isClientBCall (e : Event) : bool :=
  match e with CallAlphaVantage _ => true | _ => false end.
Definition isUpsertCall (e : Event) : bool :=
  match e with CallUpsertStocks _ => true | _ => false end.
Definition isDbOp (e : Event) : bool :=
  match e with Db _ => true | _ => false end.

(** The batches handed to [UpsertStocks], in order. *)
Fixpoint upsertCalls (evs : list Event) : list (list Stock) :=
  match evs with
  | [] => []
  | CallUpsertStocks batch :: rest => batch :: upsertCalls rest
  | _ :: rest => upsertCalls rest
  end.

(** "Get Current Price and Finnhub Metrics": the two branches on [err]. *)
Definition applyFinnhub (stock : Stock) (finnhubMetrics : Api.FinnhubData)
           (err : option error) : Stock :=
  match err with
  | Some _ =>
    let stock := set_PERatio NullFloat64.null stock in
    let stock := set_DividendYield NullFloat64.null stock in
    let stock := set_MarketCapitalization NullFloat64.null stock in
    let stock := set_CurrentPrice 0%float stock in
    set_LatestTradingDay NullTime.null stock
  | None =>
    let stock :=
      set_PERatio (NullFloat64.mk (Api.PE_Ratio finnhubMetrics) true) stock in
    let stock :=
      set_DividendYield
        (NullFloat64.mk (Api.DividendYield finnhubMetrics) true) stock in
    let stock :=
      set_MarketCapitalization
        (NullFloat64.mk (Api.MarketCapitalization finnhubMetrics) true)
        stock in
    let stock := set_CurrentPrice (Api.CurrentPrice finnhubMetrics) stock in
    if negb (IsZero (Api.LatestTradingDay finnhubMetrics)) then
      set_LatestTradingDay
        (NullTime.mk (Api.LatestTradingDay finnhubMetrics) true) stock
    else set_LatestTradingDay NullTime.null stock
  end.

(** "Alpha Vantage Alpha": the two branches on [err]. *)
Definition applyAlphaVantage (stock : Stock)
           (alphaVantageData : Api.AlphaVantageData) (err : option error)
  : Stock :=
  match err with
  | Some _ => set_Alpha NullFloat64.null stock
  | None =>
    set_Alpha (NullFloat64.mk (Api.AVAlpha alphaVantageData) true) stock
  end.

(** "Calculate Recommendation Score" and the time stamp. *)
Definition applyScore (t : Time) (stock : Stock) : Stock :=
  let scoreVal := CalculateRecommendationScore stock in
  let stock := set_RecommendationScore (NullFloat64.mk scoreVal true) stock in
  set_UpdatedAt t stock.

(** The calls of the two fundamentals clients in turn [i]. *)
Definition callFinnhub (w : World) (i : nat) (ticker : string)
  : (Api.FinnhubData * option error) * list Api.Effect :=
  Api.GetFinnhubMetricsAndQuote (env w) ticker
                                (finnhubMetrics w i) (finnhubQuote w i).

Definition callAlphaVantage (w : World) (i : nat) (ticker : string)
  : (Api.AlphaVantageData * option error) * list Api.Effect :=
  Api.GetAlphaAndLatestTradingDayFromAlphaVantage
    (time_Parse w) (env w) ticker (alphaVantage w i).

(** The body of the loop of [fetchAndEnrichStocks] for
    [stocksFromKarenai[i]]: the element after the turn, and what was done. *)
Definition enrichStock (w : World) (i : nat) (stock : Stock)
  : Stock * list Event :=
  let ticker := Ticker stock in
  let '((finnhubMetrics, err), fxA) := callFinnhub w i ticker in
  let stock := applyFinnhub stock finnhubMetrics err in
  let '((alphaVantageData, err), fxB) := callAlphaVantage w i ticker in
  let stock := applyAlphaVantage stock alphaVantageData err in
  let stock := applyScore (now w i) stock in
  (stock,
   (CallFinnhub ticker :: map Did fxA
    ++ CallAlphaVantage ticker :: map Did fxB)%list).

(** [for i := range stocksFromKarenai], from turn [i] on. *)
Fixpoint enrichLoop (w : World) (i : nat) (stocks : list Stock)
  : list Stock * list Event :=
  match stocks with
  | [] => ([], [])
  | stock :: rest =>
    let '(stock', evs) := enrichStock w i stock in
    let '(rest', evs') := enrichLoop w (S i) rest in
    (stock' :: rest', (evs ++ evs')%list)
  end.

(** [func (e *Enricher) fetchAndEnrichStocks()]: the connection of
    [e.dbClient] after the cycle, and what the cycle did. *)
Definition fetchAndEnrichStocks {S : Database.Server}
           (w : World) (c : Database.Conn S)
  : Database.Conn S * list Event :=
  let '((stocksFromKarenai, err), fx) :=
    Api.GetRecommendationsFromKarenai (env w) (karenai w) in
  match err with
  | Some _ => (c, CallKarenai :: map Did fx)
  | None =>
    let '(batch, evs) := enrichLoop w 0 stocksFromKarenai in
    let '((c', _), ops) := Database.UpsertStocks (faults w) c batch in
    (c',
     (CallKarenai :: map Did fx ++ evs
      ++ CallUpsertStocks batch :: map Db ops)%list)
  end.

(** A record as the failure branch of the Finnhub step leaves it. *)
Definition blanked (stock : Stock) : Prop :=
  PERatio stock = NullFloat64.null
  /\ DividendYield stock = NullFloat64.null
  /\ MarketCapitalization stock = NullFloat64.null
  /\ LatestTradingDay stock = NullTime.null
  /\ CurrentPrice stock = 0%float.

(** *** Data to run the model on *)

Definition keys : Api.Env :=
  Api.mkEnv (Some "k1") (Some "k2") (Some "k3").

Definition stockOf (ticker action : string) : Stock :=
  mkStock 0%N ticker EmptyString EmptyString action EmptyString EmptyString
          NullFloat64.null (NewNullFloat64 120%float) 0%float
          NullFloat64.null NullFloat64.null NullFloat64.null
          NullFloat64.null NullTime.null NullFloat64.null zeroTime zeroTime.

Definition twoItems : list Stock := [stockOf "AAA" "Buy"; stockOf "BBB" "Hold"].

Definition metricsOK : Api.HttpResult Api.FinnhubMetricResponse :=
  Api.Response 200
    (Some (Api.mkFinnhubMetricResponse
             (Api.mkFinnhubMetric 15%float 14%float 0%float 2%float 900%float))).

Definition quoteOK : Api.HttpResult Api.FinnhubQuoteResponse :=
  Api.Response 200 (Some (Api.mkFinnhubQuoteResponse 100%float 1700000000)).

(** A Global Quote answer with a trading day, and one without the field. *)
Definition alphaOK : Api.HttpResult (list (string * Api.JSON)) :=
  Api.Response 200
    (Some [("Global Quote",
            Api.JObject [("01. symbol", Api.JString "AAA");
                         ("05. price", Api.JString "100.00");
                         ("07. latest trading day",
                          Api.JString "2024-01-02")])]).

Definition alphaNote : Api.HttpResult (list (string * Api.JSON)) :=
  Api.Response 200 (Some [("Note", Api.JString "rate limit")]).

(** A parser of dates that accepts every text as one fixed day. *)
Definition oneDay : string -> option Time := fun _ => Some (Unix 1704153600).

Definition calmWorld : World :=
  mkWorld keys
          (Api.Response 200 (Some (Api.mkKarenaiResponse twoItems "page2")))
          (fun _ => metricsOK) (fun _ => quoteOK) (fun _ => alphaOK)
          oneDay (fun i => Unix (1704200000 + Z.of_nat i))
          Database.noFaults.

(** The same world with the rating source answering 503. *)
Definition ratingDownWorld : World :=
  mkWorld keys (Api.Response 503 None)
          (fun _ => metricsOK) (fun _ => quoteOK) (fun _ => alphaOK)
          oneDay (fun i => Unix (1704200000 + Z.of_nat i))
          Database.noFaults.

(** The world in which the quote endpoint of Finnhub cannot be reached. *)
Definition quoteDownWorld : World :=
  mkWorld keys (karenai calmWorld)
          (fun _ => metricsOK) (fun _ => Api.GetFailed) (fun _ => alphaOK)
          oneDay (now calmWorld) Database.noFaults.

(** The world in which Finnhub reports no trading time (a zero time stamp)
    and Alpha Vantage reports a trading day. *)
Definition noFinnhubDayWorld : World :=
  mkWorld keys (karenai calmWorld)
          (fun _ => metricsOK)
          (fun _ => Api.Response 200
                      (Some (Api.mkFinnhubQuoteResponse 100%float 0)))
          (fun _ => alphaOK)
          oneDay (now calmWorld) Database.noFaults.

Definition emptyConn : Database.Conn Database.listServer :=
  Database.mkConn (S := Database.listServer) [] None.

(** *** Reading a trace *)

(** The tickers that Client A, and Client B, were called for, in order. *)
Fixpoint clientATickers (evs : list Event) : list string :=
  match evs with
  | [] => []
  | CallFinnhub ticker :: rest => ticker :: clientATickers rest
  | _ :: rest => clientATickers rest
  end.

Fixpoint clientBTickers (evs : list Event) : list string :=
  match evs with
  | [] => []
  | CallAlphaVantage ticker :: rest => ticker :: clientBTickers rest
  | _ :: rest => clientBTickers rest
  end.

(** The seconds slept, and the URLs of the calls of [http.Get] and of
    [client.Do], in order. *)
Fixpoint sleptSeconds (evs : list Event) : Z :=
  match evs with
  | [] => 0
  | Did (Api.Sleep seconds) :: rest => seconds + sleptSeconds rest
  | _ :: rest => sleptSeconds rest
  end.

Fixpoint httpCalls (evs : list Event) : list string :=
  match evs with
  | [] => []
  | Did (Api.HttpGet url) :: rest => url :: httpCalls rest
  | _ :: rest => httpCalls rest
  end.

(** *** The periodic job *)



End Enricher.

(** * Theorems *)

Import Go Models Enricher.

(** Distinct float constants are distinct values. *)
Lemma float_neq_by_eqb (a b : float64) :
  PrimFloat.eqb a a = true -> PrimFloat.eqb a b = false -> a <> b.
Proof. intros Ha Hb E. rewrite <- E in Hb. congruence. Qed.

(** C1: for every stock record the score is the sum of two contributions,
    5.0 exactly when the action is "Buy" or "Strong Buy" (compared byte for
    byte) and 3.0 exactly when currentPrice > 0, targetTo is present and
    targetTo > currentPrice * 1.1; the six listed records score 8, 3, 5, 5, 5
    and 3. *)
Theorem C1_score_is_sum_of_two_contributions :
  (forall stock, CalculateRecommendationScore stock = score_spec stock)
  /\ (forall stock,
        (CalculateRecommendationScore stock = 5%float
         \/ CalculateRecommendationScore stock = 8%float)
        <-> (Action stock = "Buy" \/ Action stock = "Strong Buy"))
  /\ (forall stock,
        (CalculateRecommendationScore stock = 3%float
         \/ CalculateRecommendationScore stock = 8%float)
        <-> (PrimFloat.ltb 0%float (CurrentPrice stock) = true
             /\ NullFloat64.Valid (TargetTo stock) = true
             /\ PrimFloat.ltb (CurrentPrice stock * c_1_1)%float
                              (NullFloat64.Float64 (TargetTo stock)) = true))
  /\ CalculateRecommendationScore
       (example_stock "Buy" 100%float (NewNullFloat64 120%float)) = 8%float
  /\ CalculateRecommendationScore
       (example_stock "Strong Buy" 50%float (NewNullFloat64 60%float)) = 8%float
  /\ CalculateRecommendationScore
       (example_stock "Hold" 100%float (NewNullFloat64 120%float)) = 3%float
  /\ CalculateRecommendationScore
       (example_stock "Buy" 100%float (NewNullFloat64 105%float)) = 5%float
  /\ CalculateRecommendationScore
       (example_stock "Buy" 100%float NullFloat64.null) = 5%float
  /\ CalculateRecommendationScore
       (example_stock "Buy" 0%float (NewNullFloat64 10%float)) = 5%float
  /\ CalculateRecommendationScore
       (example_stock "Sell" 100%float (NewNullFloat64 120%float)) = 3%float
  /\ CalculateRecommendationScore
       (example_stock "buy" 100%float (NewNullFloat64 105%float)) = 0%float.
Proof.
  assert (Hcases : forall stock,
            CalculateRecommendationScore stock
            = match action_is_buy stock, target_beats_price stock with
              | true, true => 8%float
              | true, false => 5%float
              | false, true => 3%float
              | false, false => 0%float
              end).
  { intros stock.
    unfold CalculateRecommendationScore, action_is_buy, target_beats_price, gt.
    destruct ((Action stock =? "Buy")%string || (Action stock =? "Strong Buy")%string);
      destruct (PrimFloat.ltb 0 (CurrentPrice stock)
                && NullFloat64.Valid (TargetTo stock)
                && PrimFloat.ltb (CurrentPrice stock * c_1_1)
                                 (NullFloat64.Float64 (TargetTo stock)));
      reflexivity. }
  assert (Hbuy : forall stock,
            action_is_buy stock = true
            <-> (Action stock = "Buy" \/ Action stock = "Strong Buy")).
  { intros stock. unfold action_is_buy.
    rewrite orb_true_iff, !String.eqb_eq. reflexivity. }
  assert (Htgt : forall stock,
            target_beats_price stock = true
            <-> (PrimFloat.ltb 0%float (CurrentPrice stock) = true
                 /\ NullFloat64.Valid (TargetTo stock) = true
                 /\ PrimFloat.ltb (CurrentPrice stock * c_1_1)%float
                                  (NullFloat64.Float64 (TargetTo stock)) = true)).
  { intros stock. unfold target_beats_price.
    rewrite !andb_true_iff. tauto. }
  assert (N05 : 0%float <> 5%float) by (apply float_neq_by_eqb; reflexivity).
  assert (N08 : 0%float <> 8%float) by (apply float_neq_by_eqb; reflexivity).
  assert (N03 : 0%float <> 3%float) by (apply float_neq_by_eqb; reflexivity).
  assert (N35 : 3%float <> 5%float) by (apply float_neq_by_eqb; reflexivity).
  assert (N38 : 3%float <> 8%float) by (apply float_neq_by_eqb; reflexivity).
  assert (N58 : 5%float <> 8%float) by (apply float_neq_by_eqb; reflexivity).
  split; [| split; [| split]].
  - intros stock. rewrite Hcases. unfold score_spec.
    destruct (action_is_buy stock), (target_beats_price stock); reflexivity.
  - intros stock. rewrite <- Hbuy, Hcases.
    destruct (action_is_buy stock), (target_beats_price stock);
      split; intros H; try tauto; try discriminate;
      destruct H as [H | H]; congruence.
  - intros stock. rewrite <- Htgt, Hcases.
    destruct (action_is_buy stock), (target_beats_price stock);
      split; intros H; try tauto; try discriminate;
      destruct H as [H | H]; congruence.
  - repeat split; reflexivity.
Qed.

(** ** NullFloat64 and JSON *)

Lemma trimLeft_plain (c : ascii) (r : string) :
  plainByte c = true -> trimLeft (String c r) = String c r.
Proof.
  unfold plainByte. intros H.
  apply andb_true_iff in H. destruct H as [Hs Hn].
  apply negb_true_iff in Hs. apply N.ltb_lt in Hn.
  cbn [trimLeft]. rewrite Hs.
  assert (E194 : (N_of_ascii c =? 194)%N = false) by (apply N.eqb_neq; lia).
  assert (E225 : (N_of_ascii c =? 225)%N = false) by (apply N.eqb_neq; lia).
  assert (E226 : (N_of_ascii c =? 226)%N = false) by (apply N.eqb_neq; lia).
  assert (E227 : (N_of_ascii c =? 227)%N = false) by (apply N.eqb_neq; lia).
  destruct r as [| d r1]; [reflexivity |].
  cbv zeta. rewrite E194. cbn [andb].
  destruct r1 as [| e r2]; [reflexivity |].
  rewrite E225, E226, E227. reflexivity.
Qed.
















(** ** The rating source client *)

(** C6 (amended): the rating source client returns an error exactly when the
    credential is unset or empty, the request fails, the body cannot be read,
    the status is not 200, or the payload does not decode; when it returns no
    error it returns the items of the one response it got; and whatever the
    next-page token of that response is, it makes the single request to the
    fixed URL. *)
Theorem C6_rating_source_error_iff
        (env : Api.Env) (resp : Api.HttpResult Api.karenaiResponse) :
  (isNil (snd (fst (Api.GetRecommendationsFromKarenai env resp))) = false
   <-> (Api.Getenv (Api.KARENAI_API_KEY env) = EmptyString
        \/ resp = Api.GetFailed
        \/ (exists status, resp = Api.ReadFailed status)
        \/ (exists status payload,
              resp = Api.Response status payload /\ status <> 200)
        \/ (exists status, resp = Api.Response status None)))
  /\ (forall items fx,
        Api.GetRecommendationsFromKarenai env resp = ((items, None), fx) ->
        exists page,
          resp = Api.Response 200 (Some page) /\ items = Api.Items page
          /\ fx = [Api.HttpGet Api.KARENAI_API_URL])
  /\ (forall items next,
        Api.Getenv (Api.KARENAI_API_KEY env) <> EmptyString ->
        Api.GetRecommendationsFromKarenai
          env (Api.Response 200 (Some (Api.mkKarenaiResponse items next)))
        = ((items, None), [Api.HttpGet Api.KARENAI_API_URL])).
Proof.
  unfold Api.GetRecommendationsFromKarenai, Api.StatusOK.
  destruct (Api.Getenv (Api.KARENAI_API_KEY env) =? EmptyString)%string eqn:Ek.
  - apply String.eqb_eq in Ek. split; [| split].
    + cbn. split; [intros _; left; exact Ek | reflexivity].
    + intros items fx H. discriminate H.
    + intros items next H. contradiction.
  - apply String.eqb_neq in Ek. split; [| split].
    + destruct resp as [| status | status payload]; cbn.
      * split; [intros _; right; left; reflexivity | reflexivity].
      * split; [intros _; right; right; left; eexists; reflexivity
               | reflexivity].
      * destruct (status =? 200) eqn:Es; cbn.
        -- apply Z.eqb_eq in Es. subst status.
           destruct payload as [page |]; cbn.
           ++ split; [discriminate |].
              intros [H | [H | [[st H] | [(st & pl & H & Hne) | [st H]]]]];
                try contradiction; try discriminate.
              injection H as <- _. contradiction.
           ++ split; [| reflexivity].
              intros _. do 4 right. eexists; reflexivity.
        -- apply Z.eqb_neq in Es. split; [| reflexivity].
           intros _. do 3 right. left. exists status, payload. auto.
    + intros items fx H.
      destruct resp as [| status | status payload]; try discriminate H.
      destruct (status =? 200) eqn:Es; cbn in H; [| discriminate H].
      apply Z.eqb_eq in Es. subst status.
      destruct payload as [page |]; [| discriminate H].
      injection H as <- <-. exists page. auto.
    + intros items next _. reflexivity.
Qed.

(** The amended C6 on a response of two items with a next-page token, and on
    a 503. *)
Lemma C6_rating_source_error_iff_witness :
  Api.GetRecommendationsFromKarenai keys (karenai calmWorld)
  = ((twoItems, None), [Api.HttpGet Api.KARENAI_API_URL])
  /\ isNil (snd (fst (Api.GetRecommendationsFromKarenai
                        keys (karenai ratingDownWorld)))) = false.
Proof.
  split.
  - apply (proj2 (proj2 (C6_rating_source_error_iff keys Api.GetFailed))).
    discriminate.
  - apply (proj1 (C6_rating_source_error_iff keys (karenai ratingDownWorld))).
    do 3 right. left. exists 503, None. split; [reflexivity | discriminate].
Defined.

(** C6 as stated fails on a 2xx status other than 200: with the credential
    set, the request answered 201 and a payload that decodes, the client
    returns an error. *)
Lemma C6_status_201_is_an_error :
  Api.GetRecommendationsFromKarenai
    keys (Api.Response 201 (Some (Api.mkKarenaiResponse twoItems EmptyString)))
  = (([], Some (ErrStatus 201)), [Api.HttpGet Api.KARENAI_API_URL]).
Proof. reflexivity. Qed.

(** ** The merge step *)

Lemma enrichStock_fst (w : World) (i : nat) (stock : Stock) :
  fst (enrichStock w i stock)
  = applyScore (now w i)
      (applyAlphaVantage
         (applyFinnhub stock
            (fst (fst (callFinnhub w i (Ticker stock))))
            (snd (fst (callFinnhub w i (Ticker stock)))))
         (fst (fst (callAlphaVantage w i (Ticker stock))))
         (snd (fst (callAlphaVantage w i (Ticker stock))))).
Proof.
  unfold enrichStock.
  destruct (callFinnhub w i (Ticker stock)) as [[d e] fxA].
  destruct (callAlphaVantage w i (Ticker stock)) as [[d' e'] fxB].
  reflexivity.
Qed.

Lemma enrichStock_snd (w : World) (i : nat) (stock : Stock) :
  snd (enrichStock w i stock)
  = CallFinnhub (Ticker stock)
    :: map Did (snd (callFinnhub w i (Ticker stock)))
    ++ CallAlphaVantage (Ticker stock)
    :: map Did (snd (callAlphaVantage w i (Ticker stock))).
Proof.
  unfold enrichStock.
  destruct (callFinnhub w i (Ticker stock)) as [[d e] fxA].
  destruct (callAlphaVantage w i (Ticker stock)) as [[d' e'] fxB].
  reflexivity.
Qed.

(** C2: when the Client A fetch of a ticker returns an error, the merge step
    leaves the record with peRatio, dividendYield, marketCapitalization and
    latestTradingDay absent and currentPrice exactly 0, the other fields of the
    record as they were; and the failure branch for Client B writes an absent
    alpha: currentPrice is the one field a failure branch sets to the number
    0.  The same holds of the record the whole turn of the loop produces. *)
Theorem C2_client_a_failure_blanks_fields
        (w : World) (i : nat) (stock : Stock) (e : error)
        (Hfails : snd (fst (callFinnhub w i (Ticker stock))) = Some e) :
  (forall d,
      applyFinnhub stock d (Some e)
      = mkStock (ID stock) (Ticker stock) (Company stock) (Brokerage stock)
                (Action stock) (RatingFrom stock) (RatingTo stock)
                (TargetFrom stock) (TargetTo stock)
                0%float NullFloat64.null NullFloat64.null NullFloat64.null
                (Alpha stock) NullTime.null (RecommendationScore stock)
                (CreatedAt stock) (UpdatedAt stock))
  /\ (forall d e', applyAlphaVantage stock d (Some e')
                   = set_Alpha NullFloat64.null stock)
  /\ NullFloat64.Valid (PERatio (fst (enrichStock w i stock))) = false
  /\ NullFloat64.Valid (DividendYield (fst (enrichStock w i stock))) = false
  /\ NullFloat64.Valid (MarketCapitalization (fst (enrichStock w i stock)))
     = false
  /\ NullTime.Valid (LatestTradingDay (fst (enrichStock w i stock))) = false
  /\ CurrentPrice (fst (enrichStock w i stock)) = 0%float.
Proof.
  split; [intros d; reflexivity |].
  split; [intros d e'; reflexivity |].
  rewrite enrichStock_fst, Hfails.
  destruct (snd (fst (callAlphaVantage w i (Ticker stock))));
    repeat split; reflexivity.
Qed.

(** C2 in the world where Finnhub answers 500 to the metrics request. *)
Lemma C2_client_a_failure_blanks_fields_witness :
  CurrentPrice
    (fst (enrichStock
            (mkWorld keys (karenai calmWorld)
                     (fun _ => Api.Response 500 None) (fun _ => quoteOK)
                     (fun _ => alphaOK) oneDay (now calmWorld)
                     Database.noFaults)
            0 (stockOf "AAA" "Buy"))) = 0%float.
Proof.
  apply (C2_client_a_failure_blanks_fields
           (mkWorld keys (karenai calmWorld)
                    (fun _ => Api.Response 500 None) (fun _ => quoteOK)
                    (fun _ => alphaOK) oneDay (now calmWorld)
                    Database.noFaults)
           0%nat (stockOf "AAA" "Buy") (ErrStatus 500) eq_refl).
Defined.

(** C3 (amended): when one of the two sub-fetches of Client A fails and the
    other succeeds, the client still makes both requests and returns the
    fields of the one that succeeded, together with a non-nil error; the merge
    step, which tests that error only, then makes peRatio, dividendYield,
    marketCapitalization and latestTradingDay absent and currentPrice 0. *)
Theorem C3_partial_data_returned_then_blanked
        (env : Api.Env) (ticker : string) (stock : Stock)
        (Hkey : Api.Getenv (Api.FINNHUB_API_KEY env) <> EmptyString) :
  (forall m rq,
      Api.failed rq = true ->
      exists d e,
        Api.GetFinnhubMetricsAndQuote
          env ticker (Api.Response 200 (Some (Api.mkFinnhubMetricResponse m))) rq
        = ((d, Some e),
           [Api.HttpGet
              (Api.metricURL ticker (Api.Getenv (Api.FINNHUB_API_KEY env)));
            Api.HttpGet
              (Api.quoteURL ticker (Api.Getenv (Api.FINNHUB_API_KEY env)))])
        /\ Api.PE_Ratio d
           = (if neq (Api.PeExclExtraTTM m) 0%float
              then Api.PeExclExtraTTM m else Api.PeRatio m)
        /\ Api.DividendYield d
           = (if neq (Api.DividendYieldAnnually m) 0%float
              then Api.DividendYieldAnnually m else Api.DividendYieldAlt m)
        /\ Api.MarketCapitalization d = Api.MarketCap m
        /\ blanked (applyFinnhub stock d (Some e)))
  /\ (forall rm q,
        Api.failed rm = true ->
        exists d e,
          Api.GetFinnhubMetricsAndQuote
            env ticker rm (Api.Response 200 (Some q))
          = ((d, Some e),
             [Api.HttpGet
                (Api.metricURL ticker (Api.Getenv (Api.FINNHUB_API_KEY env)));
              Api.HttpGet
                (Api.quoteURL ticker (Api.Getenv (Api.FINNHUB_API_KEY env)))])
          /\ Api.CurrentPrice d = Api.QuoteCurrentPrice q
          /\ Api.LatestTradingDay d
             = (if negb (Api.Timestamp q =? 0)
                then Unix (Api.Timestamp q) else zeroTime)
          /\ blanked (applyFinnhub stock d (Some e))).
Proof.
  apply String.eqb_neq in Hkey.
  unfold Api.GetFinnhubMetricsAndQuote. rewrite Hkey.
  split.
  - intros m rq Hrq.
    destruct rq as [| status | status [q |]]; cbn in Hrq |- *.
    1, 2: do 2 eexists; repeat split.
    + unfold Api.StatusOK in *. destruct (status =? 200); [discriminate Hrq |].
      cbn. do 2 eexists; repeat split.
    + unfold Api.StatusOK. destruct (status =? 200); cbn;
        do 2 eexists; repeat split.
  - intros rm q Hrm.
    destruct rm as [| status | status [m |]]; cbn in Hrm |- *.
    1, 2: do 2 eexists; repeat split.
    + unfold Api.StatusOK in *. destruct (status =? 200); [discriminate Hrm |].
      cbn. do 2 eexists; repeat split.
    + unfold Api.StatusOK. destruct (status =? 200); cbn;
        do 2 eexists; repeat split.
Qed.

(** The amended C3 where the metrics arrive and the quote request fails. *)
Lemma C3_partial_data_returned_then_blanked_witness :
  exists d e,
    callFinnhub quoteDownWorld 0 "AAA" = ((d, Some e),
       [Api.HttpGet (Api.metricURL "AAA" "k2");
        Api.HttpGet (Api.quoteURL "AAA" "k2")])
    /\ Api.PE_Ratio d = 15%float
    /\ blanked (applyFinnhub (stockOf "AAA" "Buy") d (Some e)).
Proof.
  assert (Hkey : Api.Getenv (Api.FINNHUB_API_KEY keys) <> EmptyString)
    by discriminate.
  destruct (proj1 (C3_partial_data_returned_then_blanked
                     keys "AAA" (stockOf "AAA" "Buy") Hkey)
                  (Api.mkFinnhubMetric 15%float 14%float 0%float 2%float
                                       900%float)
                  Api.GetFailed eq_refl)
    as (d & e & Hcall & Hpe & _ & _ & Hblank).
  exists d, e. split; [exact Hcall |]. split; [| exact Hblank].
  rewrite Hpe. reflexivity.
Defined.

(** C3 as stated fails: the metrics endpoint answers with a P/E of 15, a
    dividend yield of 2 and a market capitalization of 900, the quote request
    fails, and the merged record has all three absent. *)
Lemma C3_quote_failure_blanks_the_metrics :
  Api.PE_Ratio (fst (fst (callFinnhub quoteDownWorld 0 "AAA"))) = 15%float
  /\ Api.DividendYield (fst (fst (callFinnhub quoteDownWorld 0 "AAA")))
     = 2%float
  /\ Api.MarketCapitalization (fst (fst (callFinnhub quoteDownWorld 0 "AAA")))
     = 900%float
  /\ PERatio (fst (enrichStock quoteDownWorld 0 (stockOf "AAA" "Buy")))
     = NullFloat64.null
  /\ DividendYield (fst (enrichStock quoteDownWorld 0 (stockOf "AAA" "Buy")))
     = NullFloat64.null
  /\ MarketCapitalization
       (fst (enrichStock quoteDownWorld 0 (stockOf "AAA" "Buy")))
     = NullFloat64.null.
Proof. repeat split; reflexivity. Qed.

(** ** The Alpha Vantage step *)

Ltac break_match :=
  repeat match goal with
         | |- context [match ?x with _ => _ end] => destruct x
         end.

(** No path of the Alpha Vantage client assigns the field Alpha. *)
Lemma alpha_field_never_assigned
      (parse : string -> option Time) (env : Api.Env) (ticker : string)
      (resp : Api.HttpResult (list (string * Api.JSON))) :
  Api.AVAlpha
    (fst (fst (Api.GetAlphaAndLatestTradingDayFromAlphaVantage
                 parse env ticker resp))) = 0%float.
Proof.
  unfold Api.GetAlphaAndLatestTradingDayFromAlphaVantage, Api.readGlobalQuote.
  break_match; reflexivity.
Qed.

Lemma applyScore_keeps_alpha (t : Time) (stock : Stock) :
  Alpha (applyScore t stock) = Alpha stock.
Proof. reflexivity. Qed.

(** The score, the time stamp and the fields that the Finnhub step wrote do
    not depend on what the Alpha Vantage step wrote. *)
Lemma applyScore_applyAlphaVantage (t : Time) (stock : Stock)
      (d : Api.AlphaVantageData) (e : option error) (a : NullFloat64.t) :
  set_Alpha a (applyScore t (applyAlphaVantage stock d e))
  = set_Alpha a (applyScore t stock).
Proof. destruct e; reflexivity. Qed.

(** C10: for every ticker whose Client B fetch returns no error, the value
    the client returns in Alpha is 0, and the merged record has alpha present
    with value exactly 0.0. *)
Theorem C10_successful_alpha_fetch_stores_zero
        (w : World) (i : nat) (stock : Stock)
        (Hok : snd (fst (callAlphaVantage w i (Ticker stock))) = None) :
  Api.AVAlpha (fst (fst (callAlphaVantage w i (Ticker stock)))) = 0%float
  /\ Alpha (fst (enrichStock w i stock)) = NullFloat64.mk 0%float true.
Proof.
  split; [apply alpha_field_never_assigned |].
  rewrite enrichStock_fst, applyScore_keeps_alpha, Hok.
  unfold applyAlphaVantage, callAlphaVantage.
  rewrite alpha_field_never_assigned. reflexivity.
Qed.

(** C10 on an answer of Alpha Vantage that carries a Global Quote. *)
Lemma C10_successful_alpha_fetch_stores_zero_witness :
  Alpha (fst (enrichStock calmWorld 0 (stockOf "AAA" "Buy")))
  = NullFloat64.mk 0%float true.
Proof.
  apply (C10_successful_alpha_fetch_stores_zero
           calmWorld 0%nat (stockOf "AAA" "Buy") eq_refl).
Defined.

(** C8: the Client B merge step changes the alpha field of the record and
    nothing else; every field but alpha of the record that a turn of the loop
    produces is the same whatever Alpha Vantage answers; latestTradingDay is
    the one the Finnhub step wrote; and where Finnhub reports no trading time
    and Alpha Vantage reports a trading day, latestTradingDay is absent. *)
Theorem C8_client_b_changes_only_alpha :
  (forall stock d e,
      applyAlphaVantage stock d e
      = set_Alpha (Alpha (applyAlphaVantage stock d e)) stock)
  /\ (forall w i stock r a,
        set_Alpha a (fst (enrichStock (withAlphaVantage i r w) i stock))
        = set_Alpha a (fst (enrichStock w i stock)))
  /\ (forall w i stock,
        LatestTradingDay (fst (enrichStock w i stock))
        = LatestTradingDay
            (applyFinnhub stock
               (fst (fst (callFinnhub w i (Ticker stock))))
               (snd (fst (callFinnhub w i (Ticker stock))))))
  /\ Api.AVLatestTradingDay
       (fst (fst (callAlphaVantage noFinnhubDayWorld 0 "AAA")))
     = Unix 1704153600
  /\ snd (fst (callAlphaVantage noFinnhubDayWorld 0 "AAA")) = None
  /\ snd (fst (callFinnhub noFinnhubDayWorld 0 "AAA")) = None
  /\ LatestTradingDay
       (fst (enrichStock noFinnhubDayWorld 0 (stockOf "AAA" "Buy")))
     = NullTime.null.
Proof.
  split; [| split; [| split]].
  - intros stock d e. destruct stock, e; reflexivity.
  - intros w i stock r a. rewrite !enrichStock_fst.
    rewrite !applyScore_applyAlphaVantage. reflexivity.
  - intros w i stock. rewrite enrichStock_fst.
    destruct (snd (fst (callAlphaVantage w i (Ticker stock)))); reflexivity.
  - repeat split; reflexivity.
Qed.

(** ** UpsertStocks *)

(** The loop over the batch inside an open transaction: either every
    statement succeeds, and the transaction sees all of them, or the loop
    stops with an error; the committed contents are not touched. *)
Lemma execAll_spec (S : Database.Server) (stocks : list Stock) :
  forall (c : Database.Conn S) (t : Database.Table S),
    Database.pending c = Some t ->
    match Database.upsertAll t stocks with
    | Some t' =>
      Database.execAll c stocks
      = ((Database.mkConn (Database.committed c) (Some t'), None),
         map Database.OpExec stocks)
    | None =>
      exists c' ops,
        Database.execAll c stocks = ((c', Some (ErrSql "exec")), ops)
        /\ Database.committed c' = Database.committed c
    end.
Proof.
  induction stocks as [| s rest IH]; intros c t Hp.
  - destruct c as [cm pd]. cbn in *. subst pd. reflexivity.
  - cbn [Database.upsertAll Database.execAll]. unfold Database.ExecContext.
    rewrite Hp.
    destruct (Database.execUpsert S t s) as [t1 |].
    + specialize (IH (Database.mkConn (Database.committed c) (Some t1))
                     t1 eq_refl).
      destruct (Database.upsertAll t1 rest) as [t' |].
      * rewrite IH. reflexivity.
      * destruct IH as (c' & ops & E & Hc). rewrite E.
        exists c', (Database.OpExec s :: ops). split; [reflexivity | exact Hc].
    + exists c, [Database.OpExec s]. split; reflexivity.
Qed.

Lemma execAll_no_commit (S : Database.Server) (stocks : list Stock) :
  forall c : Database.Conn S,
    ~ In Database.OpCommit (snd (Database.execAll c stocks)).
Proof.
  induction stocks as [| s rest IH]; intros c; cbn.
  - intros [].
  - destruct (Database.ExecContext c s) as [c' |]; cbn.
    + specialize (IH c').
      destruct (Database.execAll c' rest) as [r ops]. cbn in *.
      intros [H | H]; [discriminate H | exact (IH H)].
    + intros [H | []]. discriminate H.
Qed.

Lemma execAll_first_failure (S : Database.Server) (done : list Stock)
      (s : Stock) (rest : list Stock) :
  forall (c : Database.Conn S) (t t1 : Database.Table S),
    Database.pending c = Some t ->
    Database.upsertAll t done = Some t1 ->
    Database.execUpsert S t1 s = None ->
    Database.execAll c (done ++ s :: rest)%list
    = ((Database.mkConn (Database.committed c) (Some t1),
        Some (ErrSql "exec")),
       map Database.OpExec (done ++ [s])%list).
Proof.
  induction done as [| d done IH]; intros c t t1 Hp Hdone Hfail.
  - cbn in Hdone. injection Hdone as <-.
    cbn [app Database.execAll map]. unfold Database.ExecContext.
    rewrite Hp, Hfail. destruct c as [cm pd]. cbn in *. subst pd.
    reflexivity.
  - cbn [Database.upsertAll] in Hdone.
    destruct (Database.execUpsert S t d) as [t0 |] eqn:Ed; [| discriminate].
    cbn [app Database.execAll map]. unfold Database.ExecContext.
    rewrite Hp, Ed.
    rewrite (IH (Database.mkConn (Database.committed c) (Some t0)) t0 t1
                eq_refl Hdone Hfail).
    reflexivity.
Qed.

(** UpsertStocks on a batch that is not empty, its loop apart. *)
Lemma UpsertStocks_nonempty (S : Database.Server) (f : Database.Faults)
      (c : Database.Conn S) (stocks : list Stock) :
  stocks <> [] ->
  Database.UpsertStocks f c stocks
  = if Database.begin_fails f
    then ((c, Some (ErrSql "begin")), [Database.OpBeginTx])
    else if Database.prepare_fails f
    then ((Database.Rollback (Database.BeginTx c), Some (ErrSql "prepare")),
          [Database.OpBeginTx; Database.OpPrepare; Database.OpRollback])
    else
      let '((c1, err), ops) :=
        Database.execAll (Database.BeginTx c) stocks in
      match err with
      | Some e =>
        ((Database.Rollback c1, Some e),
         ([Database.OpBeginTx; Database.OpPrepare] ++ ops
          ++ [Database.OpStmtClose; Database.OpRollback])%list)
      | None =>
        if Database.commit_fails f
        then ((Database.Rollback (Database.Rollback c1),
               Some (ErrSql "commit")),
              ([Database.OpBeginTx; Database.OpPrepare] ++ ops
               ++ [Database.OpCommit; Database.OpStmtClose;
                   Database.OpRollback])%list)
        else ((Database.Rollback (Database.Commit c1), None),
              ([Database.OpBeginTx; Database.OpPrepare] ++ ops
               ++ [Database.OpCommit; Database.OpStmtClose;
                   Database.OpRollback])%list)
      end.
Proof.
  intros H. destruct stocks as [| s rest]; [| reflexivity].
  exfalso. apply H. reflexivity.
Qed.

Lemma UpsertStocks_ok (S : Database.Server) (f : Database.Faults)
      (c : Database.Conn S) (stocks : list Stock) :
  snd (fst (Database.UpsertStocks f c stocks)) = None ->
  Database.upsertAll (Database.committed c) stocks
  = Some (Database.committed (fst (fst (Database.UpsertStocks f c stocks)))).
Proof.
  destruct stocks as [| s rest]; [reflexivity |].
  unfold Database.UpsertStocks.
  destruct (Database.begin_fails f); [discriminate |].
  destruct (Database.prepare_fails f); [discriminate |].
  pose proof (execAll_spec S (s :: rest) (Database.BeginTx c)
                           (Database.committed c) eq_refl) as Hexec.
  destruct (Database.upsertAll (Database.committed c) (s :: rest)) as [t' |].
  - rewrite Hexec.
    destruct (Database.commit_fails f); [discriminate | reflexivity].
  - destruct Hexec as (c' & ops & E & Hc). rewrite E. discriminate.
Qed.

(** What UpsertStocks leaves committed: the contents before the call, or
    those after the statements of the whole batch. *)
Lemma UpsertStocks_committed (S : Database.Server) (f : Database.Faults)
      (c : Database.Conn S) (stocks : list Stock) :
  Database.committed (fst (fst (Database.UpsertStocks f c stocks)))
  = Database.committed c
  \/ Database.upsertAll (Database.committed c) stocks
     = Some (Database.committed
               (fst (fst (Database.UpsertStocks f c stocks)))).
Proof.
  destruct stocks as [| s rest]; [left; reflexivity |].
  unfold Database.UpsertStocks.
  destruct (Database.begin_fails f); [left; reflexivity |].
  destruct (Database.prepare_fails f); [left; reflexivity |].
  pose proof (execAll_spec S (s :: rest) (Database.BeginTx c)
                           (Database.committed c) eq_refl) as Hexec.
  destruct (Database.upsertAll (Database.committed c) (s :: rest)) as [t' |].
  - rewrite Hexec.
    destruct (Database.commit_fails f); [left | right]; reflexivity.
  - destruct Hexec as (c' & ops & E & Hc). rewrite E. left. exact Hc.
Qed.

(** When neither the driver nor a statement fails, UpsertStocks returns no
    error and leaves committed the contents after all the statements. *)
Lemma UpsertStocks_no_failure (S : Database.Server) (f : Database.Faults)
      (c : Database.Conn S) (stocks : list Stock) (t : Database.Table S) :
  Database.begin_fails f = false ->
  Database.prepare_fails f = false ->
  Database.commit_fails f = false ->
  Database.upsertAll (Database.committed c) stocks = Some t ->
  snd (fst (Database.UpsertStocks f c stocks)) = None
  /\ Database.committed (fst (fst (Database.UpsertStocks f c stocks))) = t.
Proof.
  intros Hb Hp Hc Hall.
  destruct stocks as [| s rest].
  - cbn in Hall. injection Hall as <-. split; reflexivity.
  - rewrite UpsertStocks_nonempty by discriminate. rewrite Hb, Hp.
    pose proof (execAll_spec S (s :: rest) (Database.BeginTx c)
                             (Database.committed c) eq_refl) as Hexec.
    rewrite Hall in Hexec. rewrite Hexec, Hc. split; reflexivity.
Qed.

(** When UpsertStocks returns an error, either the transaction could not be
    begun and nothing else was called, or no transaction is left open and
    the last call is the rollback. *)
Lemma UpsertStocks_rolls_back (S : Database.Server) (f : Database.Faults)
      (c : Database.Conn S) (stocks : list Stock) (e : error) :
  snd (fst (Database.UpsertStocks f c stocks)) = Some e ->
  (Database.begin_fails f = true
   /\ Database.UpsertStocks f c stocks
      = ((c, Some (ErrSql "begin")), [Database.OpBeginTx]))
  \/ (Database.begin_fails f = false
      /\ Database.pending (fst (fst (Database.UpsertStocks f c stocks))) = None
      /\ exists calls,
          snd (Database.UpsertStocks f c stocks)
          = (Database.OpBeginTx :: calls ++ [Database.OpRollback])%list).
Proof.
  destruct stocks as [| s rest]; [discriminate |].
  rewrite UpsertStocks_nonempty by discriminate.
  destruct (Database.begin_fails f); [intros _; left; split; reflexivity |].
  intros H. right. split; [reflexivity |]. revert H.
  destruct (Database.prepare_fails f).
  { intros _. split; [reflexivity |]. exists [Database.OpPrepare].
    reflexivity. }
  destruct (Database.execAll (Database.BeginTx c) (s :: rest))
    as [[c1 [e1 |]] ops].
  - intros _. split; [reflexivity |].
    exists (Database.OpPrepare :: ops ++ [Database.OpStmtClose])%list.
    cbn. rewrite <- app_assoc. reflexivity.
  - destruct (Database.commit_fails f); [| discriminate].
    intros _. split; [reflexivity |].
    exists (Database.OpPrepare
              :: ops ++ [Database.OpCommit; Database.OpStmtClose])%list.
    cbn. rewrite <- app_assoc. reflexivity.
Qed.

(** The loop stops at the first record whose statement fails: the statements
    of the records before it have been executed, those of the records after
    it are not, and the transaction is rolled back. *)
Lemma UpsertStocks_first_failure (S : Database.Server) (f : Database.Faults)
      (c : Database.Conn S) (done : list Stock) (s : Stock)
      (rest : list Stock) (t : Database.Table S) :
  Database.begin_fails f = false ->
  Database.prepare_fails f = false ->
  Database.upsertAll (Database.committed c) done = Some t ->
  Database.execUpsert S t s = None ->
  Database.UpsertStocks f c (done ++ s :: rest)%list
  = ((Database.mkConn (Database.committed c) None, Some (ErrSql "exec")),
     ([Database.OpBeginTx; Database.OpPrepare]
      ++ map Database.OpExec (done ++ [s])
      ++ [Database.OpStmtClose; Database.OpRollback])%list).
Proof.
  intros Hb Hp Hdone Hfail.
  rewrite UpsertStocks_nonempty by (destruct done; discriminate).
  rewrite Hb, Hp.
  rewrite (execAll_first_failure S done s rest (Database.BeginTx c)
                                 (Database.committed c) t eq_refl Hdone Hfail).
  reflexivity.
Qed.

(** The committed contents after UpsertStocks, its error and its calls on
    the driver, by what the statements of the batch do from the committed
    contents. *)
Lemma UpsertStocks_atomic
        (S : Database.Server) (f : Database.Faults) (c : Database.Conn S)
        (stocks : list Stock) :
  (forall e,
      snd (fst (Database.UpsertStocks f c stocks)) = Some e ->
      Database.committed (fst (fst (Database.UpsertStocks f c stocks)))
      = Database.committed c)
  /\ (snd (fst (Database.UpsertStocks f c stocks)) = None ->
      Database.upsertAll (Database.committed c) stocks
      = Some (Database.committed
                (fst (fst (Database.UpsertStocks f c stocks)))))
  /\ (Database.upsertAll (Database.committed c) stocks = None ->
      isNil (snd (fst (Database.UpsertStocks f c stocks))) = false)
  /\ (In Database.OpCommit (snd (Database.UpsertStocks f c stocks)) ->
      exists t, Database.upsertAll (Database.committed c) stocks = Some t)
  /\ (snd (fst (Database.UpsertStocks f c stocks)) = None ->
      stocks <> [] ->
      snd (Database.UpsertStocks f c stocks)
      = ([Database.OpBeginTx; Database.OpPrepare]
         ++ map Database.OpExec stocks
         ++ [Database.OpCommit; Database.OpStmtClose; Database.OpRollback])%list
      /\ Database.pending (fst (fst (Database.UpsertStocks f c stocks)))
         = None).
Proof.
  destruct stocks as [| s rest].
  - cbn. repeat split; try discriminate; try contradiction.
  - remember (s :: rest) as stocks eqn:Es.
    assert (Hupsert :
              Database.UpsertStocks f c stocks
              = if Database.begin_fails f
                then ((c, Some (ErrSql "begin")), [Database.OpBeginTx])
                else if Database.prepare_fails f
                then ((Database.Rollback (Database.BeginTx c),
                       Some (ErrSql "prepare")),
                      [Database.OpBeginTx; Database.OpPrepare;
                       Database.OpRollback])
                else
                  let '((c1, err), ops) :=
                    Database.execAll (Database.BeginTx c) stocks in
                  match err with
                  | Some e =>
                    ((Database.Rollback c1, Some e),
                     ([Database.OpBeginTx; Database.OpPrepare] ++ ops
                      ++ [Database.OpStmtClose; Database.OpRollback])%list)
                  | None =>
                    if Database.commit_fails f
                    then ((Database.Rollback (Database.Rollback c1),
                           Some (ErrSql "commit")),
                          ([Database.OpBeginTx; Database.OpPrepare] ++ ops
                           ++ [Database.OpCommit; Database.OpStmtClose;
                               Database.OpRollback])%list)
                    else ((Database.Rollback (Database.Commit c1), None),
                          ([Database.OpBeginTx; Database.OpPrepare] ++ ops
                           ++ [Database.OpCommit; Database.OpStmtClose;
                               Database.OpRollback])%list)
                  end)
      by (subst stocks; reflexivity).
    rewrite Hupsert. clear Hupsert Es s rest.
    destruct (Database.begin_fails f).
    { cbn. repeat split; try discriminate; try reflexivity.
      intros [H | []]. discriminate H. }
    destruct (Database.prepare_fails f).
    { cbn. repeat split; try discriminate; try reflexivity.
      intros [H | [H | [H | []]]]; discriminate H. }
    pose proof (execAll_spec S stocks (Database.BeginTx c)
                             (Database.committed c) eq_refl) as Hexec.
    pose proof (execAll_no_commit S stocks (Database.BeginTx c)) as Hnc.
    destruct (Database.upsertAll (Database.committed c) stocks) as [t' |].
    + rewrite Hexec. cbn [fst snd].
      destruct (Database.commit_fails f); cbn.
      * repeat split; try discriminate; try reflexivity.
        intros _. exists t'. reflexivity.
      * repeat split; try discriminate; try reflexivity.
        intros _. exists t'. reflexivity.
    + destruct Hexec as (c' & ops & E & Hc). rewrite E in Hnc |- *. cbn in *.
      repeat split; try discriminate; try reflexivity.
      * intros e _. exact Hc.
      * intros [H | [H | H]]; try discriminate H.
        apply in_app_or in H. destruct H as [H | H]; [contradiction |].
        destruct H as [H | [H | []]]; discriminate H.
Qed.

(** C9: UpsertStocks is all-or-nothing.  If it returns an error the committed
    contents are those before the call; if it returns no error they are the
    contents after the statements of all the records, in order; if the
    statement of any single record fails it returns an error; it commits only
    after every statement succeeded; when it returns no error on a batch
    that is not empty, it has begun one transaction, executed the statement
    once per record and committed, and no transaction is left open.  When
    neither the driver nor a statement fails it does return no error, with
    the whole batch committed.  When it returns an error, either the
    transaction could not be begun, or the last call it makes is the rollback
    and no transaction is left open.  And the loop stops at the first record
    whose statement fails: the records before it were executed in the
    transaction, the rollback follows and the error is returned. *)
Theorem C9_upsert_is_all_or_nothing
        (S : Database.Server) (f : Database.Faults) (c : Database.Conn S)
        (stocks : list Stock) :
  (forall e,
      snd (fst (Database.UpsertStocks f c stocks)) = Some e ->
      Database.committed (fst (fst (Database.UpsertStocks f c stocks)))
      = Database.committed c)
  /\ (snd (fst (Database.UpsertStocks f c stocks)) = None ->
      Database.upsertAll (Database.committed c) stocks
      = Some (Database.committed
                (fst (fst (Database.UpsertStocks f c stocks)))))
  /\ (Database.upsertAll (Database.committed c) stocks = None ->
      isNil (snd (fst (Database.UpsertStocks f c stocks))) = false)
  /\ (In Database.OpCommit (snd (Database.UpsertStocks f c stocks)) ->
      exists t, Database.upsertAll (Database.committed c) stocks = Some t)
  /\ (snd (fst (Database.UpsertStocks f c stocks)) = None ->
      stocks <> [] ->
      snd (Database.UpsertStocks f c stocks)
      = ([Database.OpBeginTx; Database.OpPrepare]
         ++ map Database.OpExec stocks
         ++ [Database.OpCommit; Database.OpStmtClose; Database.OpRollback])%list
      /\ Database.pending (fst (fst (Database.UpsertStocks f c stocks)))
         = None)
  /\ (Database.begin_fails f = false ->
      Database.prepare_fails f = false ->
      Database.commit_fails f = false ->
      forall t,
        Database.upsertAll (Database.committed c) stocks = Some t ->
        snd (fst (Database.UpsertStocks f c stocks)) = None
        /\ Database.committed (fst (fst (Database.UpsertStocks f c stocks)))
           = t)
  /\ (forall e,
        snd (fst (Database.UpsertStocks f c stocks)) = Some e ->
        (Database.begin_fails f = true
         /\ Database.UpsertStocks f c stocks
            = ((c, Some (ErrSql "begin")), [Database.OpBeginTx]))
        \/ (Database.begin_fails f = false
            /\ Database.pending
                 (fst (fst (Database.UpsertStocks f c stocks))) = None
            /\ exists calls,
                snd (Database.UpsertStocks f c stocks)
                = (Database.OpBeginTx :: calls
                   ++ [Database.OpRollback])%list))
  /\ (forall done s rest t,
        stocks = (done ++ s :: rest)%list ->
        Database.begin_fails f = false ->
        Database.prepare_fails f = false ->
        Database.upsertAll (Database.committed c) done = Some t ->
        Database.execUpsert S t s = None ->
        Database.UpsertStocks f c stocks
        = ((Database.mkConn (Database.committed c) None,
            Some (ErrSql "exec")),
           ([Database.OpBeginTx; Database.OpPrepare]
            ++ map Database.OpExec (done ++ [s])
            ++ [Database.OpStmtClose; Database.OpRollback])%list)).
Proof.
  destruct (UpsertStocks_atomic S f c stocks) as (H1 & H2 & H3 & H4 & H5).
  split; [exact H1 |]. split; [exact H2 |]. split; [exact H3 |].
  split; [exact H4 |]. split; [exact H5 |].
  split; [| split].
  - intros Hb Hp Hc t Hall.
    exact (UpsertStocks_no_failure S f c stocks t Hb Hp Hc Hall).
  - intros e He. exact (UpsertStocks_rolls_back S f c stocks e He).
  - intros done s rest t -> Hb Hp Hdone Hfail.
    exact (UpsertStocks_first_failure S f c done s rest t Hb Hp Hdone Hfail).
Qed.

(** C9 on the list server: a batch whose second ticker is longer than the
    column allows leaves the table as it was and returns an error, after the
    statement of the first record and that of the second were executed and
    the transaction rolled back; a batch of two fitting tickers is committed
    whole. *)
Lemma C9_upsert_is_all_or_nothing_witness :
  Database.UpsertStocks
    Database.noFaults emptyConn
    [stockOf "AAA" "Buy"; stockOf "MUCHTOOLONGTICKER" "Buy";
     stockOf "BBB" "Hold"]
  = ((emptyConn, Some (ErrSql "exec")),
     [Database.OpBeginTx; Database.OpPrepare;
      Database.OpExec (stockOf "AAA" "Buy");
      Database.OpExec (stockOf "MUCHTOOLONGTICKER" "Buy");
      Database.OpStmtClose; Database.OpRollback])
  /\ snd (fst (Database.UpsertStocks Database.noFaults emptyConn twoItems))
     = None
  /\ map Ticker
         (Database.committed
            (fst (fst (Database.UpsertStocks
                         Database.noFaults emptyConn twoItems))))
     = ["AAA"; "BBB"]
  /\ snd (Database.UpsertStocks Database.noFaults emptyConn twoItems)
     = [Database.OpBeginTx; Database.OpPrepare;
        Database.OpExec (stockOf "AAA" "Buy");
        Database.OpExec (stockOf "BBB" "Hold");
        Database.OpCommit; Database.OpStmtClose; Database.OpRollback].
Proof.
  pose proof (C9_upsert_is_all_or_nothing
                Database.listServer Database.noFaults emptyConn
                [stockOf "AAA" "Buy"; stockOf "MUCHTOOLONGTICKER" "Buy";
                 stockOf "BBB" "Hold"])
    as (_ & _ & _ & _ & _ & _ & _ & Hfirst).
  pose proof (C9_upsert_is_all_or_nothing
                Database.listServer Database.noFaults emptyConn twoItems)
    as (_ & _ & _ & _ & Htrace & Hok & _).
  split.
  - exact (Hfirst [stockOf "AAA" "Buy"] (stockOf "MUCHTOOLONGTICKER" "Buy")
                  [stockOf "BBB" "Hold"] _ eq_refl eq_refl eq_refl eq_refl
                  eq_refl).
  - destruct (Hok eq_refl eq_refl eq_refl _ eq_refl) as [Herr Hcommitted].
    split; [exact Herr |]. split; [rewrite Hcommitted; reflexivity |].
    apply Htrace; [exact Herr | discriminate].
Defined.

(** ** The cycle *)

Lemma upsertCalls_app (a b : list Event) :
  upsertCalls (a ++ b)%list = (upsertCalls a ++ upsertCalls b)%list.
Proof.
  induction a as [| e a IH]; [reflexivity |].
  destruct e; cbn; rewrite ?IH; reflexivity.
Qed.

Lemma upsertCalls_Did (fx : list Api.Effect) : upsertCalls (map Did fx) = [].
Proof. induction fx; [reflexivity | exact IHfx]. Qed.

Lemma upsertCalls_Db (ops : list Database.DbOp) : upsertCalls (map Db ops) = [].
Proof. induction ops; [reflexivity | exact IHops]. Qed.

Lemma filter_Did (p : Event -> bool) (fx : list Api.Effect) :
  (forall e, p (Did e) = false) -> filter p (map Did fx) = [].
Proof.
  intros H. induction fx as [| e fx IH]; [reflexivity |].
  cbn. rewrite H. exact IH.
Qed.

(** C4: in a cycle whose rating source fetch returns an error, the cycle
    calls the rating source client and nothing else: no call of Client A, no
    call of Client B, no call of UpsertStocks and no database operation; the
    connection, and so the stored state, is the one before the cycle. *)
Theorem C4_rating_failure_aborts_cycle
        (S : Database.Server) (w : World) (c : Database.Conn S) (e : error)
        (Hfails :
           snd (fst (Api.GetRecommendationsFromKarenai (env w) (karenai w)))
           = Some e) :
  fst (fetchAndEnrichStocks w c) = c
  /\ snd (fetchAndEnrichStocks w c)
     = CallKarenai
       :: map Did
            (snd (Api.GetRecommendationsFromKarenai (env w) (karenai w)))
  /\ filter isClientACall (snd (fetchAndEnrichStocks w c)) = []
  /\ filter isClientBCall (snd (fetchAndEnrichStocks w c)) = []
  /\ upsertCalls (snd (fetchAndEnrichStocks w c)) = []
  /\ filter isDbOp (snd (fetchAndEnrichStocks w c)) = [].
Proof.
  unfold fetchAndEnrichStocks.
  destruct (Api.GetRecommendationsFromKarenai (env w) (karenai w))
    as [[items err] fx].
  cbn in Hfails. subst err. cbn [fst snd].
  repeat split; cbn; try (apply filter_Did; reflexivity).
  apply upsertCalls_Did.
Qed.

(** C4 in the world where the rating source answers 503, on an empty table:
    the cycle only calls the rating source client, which makes its request. *)
Lemma C4_rating_failure_aborts_cycle_witness :
  fst (fetchAndEnrichStocks ratingDownWorld emptyConn) = emptyConn
  /\ snd (fetchAndEnrichStocks ratingDownWorld emptyConn)
     = [CallKarenai; Did (Api.HttpGet Api.KARENAI_API_URL)].
Proof.
  destruct (C4_rating_failure_aborts_cycle
              Database.listServer ratingDownWorld emptyConn (ErrStatus 503)
              eq_refl) as (H1 & H2 & _).
  split; [exact H1 | exact H2].
Defined.

Lemma enrichLoop_cons (w : World) (i : nat) (stock : Stock)
      (rest : list Stock) :
  enrichLoop w i (stock :: rest)
  = (fst (enrichStock w i stock) :: fst (enrichLoop w (S i) rest),
     (snd (enrichStock w i stock) ++ snd (enrichLoop w (S i) rest))%list).
Proof.
  cbn [enrichLoop].
  destruct (enrichStock w i stock) as [stock' evs].
  destruct (enrichLoop w (S i) rest) as [rest' evs'].
  reflexivity.
Qed.

Lemma enrichLoop_length (w : World) (stocks : list Stock) :
  forall i, length (fst (enrichLoop w i stocks)) = length stocks.
Proof.
  induction stocks as [| stock rest IH]; intros i; [reflexivity |].
  rewrite enrichLoop_cons. cbn. rewrite IH. reflexivity.
Qed.

Lemma enrichLoop_nth (w : World) (stocks : list Stock) :
  forall i j,
    nth_error (fst (enrichLoop w i stocks)) j
    = option_map (fun s => fst (enrichStock w (i + j) s)) (nth_error stocks j).
Proof.
  induction stocks as [| stock rest IH]; intros i j.
  - destruct j; reflexivity.
  - rewrite enrichLoop_cons. destruct j as [| j]; cbn.
    + rewrite Nat.add_0_r. reflexivity.
    + rewrite IH. rewrite <- plus_n_Sm. reflexivity.
Qed.

Lemma enrichLoop_upsertCalls (w : World) (stocks : list Stock) :
  forall i, upsertCalls (snd (enrichLoop w i stocks)) = [].
Proof.
  induction stocks as [| stock rest IH]; intros i; [reflexivity |].
  rewrite enrichLoop_cons. cbn [snd].
  rewrite upsertCalls_app, IH, enrichStock_snd. cbn.
  rewrite upsertCalls_app, upsertCalls_Did. cbn.
  rewrite upsertCalls_Did. reflexivity.
Qed.

Lemma enrichLoop_calls (w : World) (stocks : list Stock) :
  forall i j s,
    nth_error stocks j = Some s ->
    In (CallFinnhub (Ticker s)) (snd (enrichLoop w i stocks))
    /\ In (CallAlphaVantage (Ticker s)) (snd (enrichLoop w i stocks)).
Proof.
  induction stocks as [| stock rest IH]; intros i j s H.
  - destruct j; discriminate H.
  - rewrite enrichLoop_cons. cbn [snd]. destruct j as [| j]; cbn in H.
    + injection H as ->. rewrite enrichStock_snd.
      split; apply in_or_app; left.
      * left. reflexivity.
      * right. apply in_or_app. right. left. reflexivity.
    + destruct (IH (S i) j s H) as [HA HB].
      split; apply in_or_app; right; assumption.
Qed.

Lemma enrichStock_keeps_ticker (w : World) (i : nat) (stock : Stock) :
  Ticker (fst (enrichStock w i stock)) = Ticker stock.
Proof.
  rewrite enrichStock_fst.
  destruct (snd (fst (callAlphaVantage w i (Ticker stock))));
    destruct (snd (fst (callFinnhub w i (Ticker stock))));
    try reflexivity;
    unfold applyFinnhub;
    destruct (negb (IsZero (Api.LatestTradingDay
                              (fst (fst (callFinnhub w i (Ticker stock)))))));
    reflexivity.
Qed.

(** A turn of the loop reads the answers of its own turn only. *)
Lemma enrichStock_other_turn (w : World) (x j : nat)
      (r : Api.HttpResult (list (string * Api.JSON))) (stock : Stock) :
  j <> x -> enrichStock (withAlphaVantage x r w) j stock = enrichStock w j stock.
Proof.
  intros H. apply Nat.eqb_neq in H.
  unfold enrichStock, callAlphaVantage, callFinnhub, withAlphaVantage.
  cbn. rewrite H. reflexivity.
Qed.

Lemma enrichStock_failed_turn (w : World) (x : nat)
      (r : Api.HttpResult (list (string * Api.JSON))) (stock : Stock)
      (e : error) :
  snd (fst (callAlphaVantage (withAlphaVantage x r w) x (Ticker stock)))
  = Some e ->
  fst (enrichStock (withAlphaVantage x r w) x stock)
  = set_Alpha NullFloat64.null (fst (enrichStock w x stock)).
Proof.
  intros H. rewrite !enrichStock_fst, H.
  rewrite applyScore_applyAlphaVantage. reflexivity.
Qed.

Lemma cycle_events (S : Database.Server) (w : World) (c : Database.Conn S)
      (items : list Stock) (fx : list Api.Effect) :
  Api.GetRecommendationsFromKarenai (env w) (karenai w) = ((items, None), fx) ->
  snd (fetchAndEnrichStocks w c)
  = (CallKarenai :: map Did fx ++ snd (enrichLoop w 0 items)
     ++ CallUpsertStocks (fst (enrichLoop w 0 items))
     :: map Db (snd (Database.UpsertStocks
                       (faults w) c (fst (enrichLoop w 0 items)))))%list.
Proof.
  intros H. unfold fetchAndEnrichStocks. rewrite H.
  destruct (enrichLoop w 0 items) as [batch evs]. cbn [fst snd].
  destruct (Database.UpsertStocks (faults w) c batch) as [[c' err] ops].
  reflexivity.
Qed.

Lemma cycle_upsertCalls (S : Database.Server) (w : World)
      (c : Database.Conn S) (items : list Stock) (fx : list Api.Effect) :
  Api.GetRecommendationsFromKarenai (env w) (karenai w) = ((items, None), fx) ->
  upsertCalls (snd (fetchAndEnrichStocks w c)) = [fst (enrichLoop w 0 items)].
Proof.
  intros H. rewrite (cycle_events S w c items fx H). cbn.
  rewrite upsertCalls_app, upsertCalls_Did. cbn.
  rewrite upsertCalls_app, enrichLoop_upsertCalls. cbn.
  rewrite upsertCalls_Db. reflexivity.
Qed.

Lemma cycle_fst (S : Database.Server) (w : World) (c : Database.Conn S)
      (items : list Stock) (fx : list Api.Effect) :
  Api.GetRecommendationsFromKarenai (env w) (karenai w) = ((items, None), fx) ->
  fst (fetchAndEnrichStocks w c)
  = fst (fst (Database.UpsertStocks (faults w) c (fst (enrichLoop w 0 items)))).
Proof.
  intros H. unfold fetchAndEnrichStocks. rewrite H.
  destruct (enrichLoop w 0 items) as [batch evs]. cbn [fst snd].
  destruct (Database.UpsertStocks (faults w) c batch) as [[c' err] ops].
  reflexivity.
Qed.

(** C5: let the Client B fetch of the ticker X at position x of a cycle fail,
    where in the otherwise same cycle it gets another answer.  Both cycles
    hand exactly one batch to UpsertStocks; in the failing cycle the batch
    still holds one record per ticker of the rating source, in order; the
    record of every other ticker Y is the same in both batches; the record of
    X is the same but for its alpha, which is absent; and both clients are
    called for every ticker, those after X included.  The connection that the
    failing cycle leaves is the one that UpsertStocks leaves on that batch:
    when neither the driver nor a statement fails, the contents committed
    after the cycle are those after the statements of all the records of the
    batch, that of X and those of the others, and whatever fails they are
    those or the contents before the cycle. *)
Theorem C5_client_b_failure_is_per_ticker
        (S : Database.Server) (w : World) (c : Database.Conn S)
        (x : nat) (r : Api.HttpResult (list (string * Api.JSON)))
        (items : list Stock) (fx : list Api.Effect) (X : Stock) (e : error)
        (Hrating : Api.GetRecommendationsFromKarenai (env w) (karenai w)
                   = ((items, None), fx))
        (HX : nth_error items x = Some X)
        (Hfails : snd (fst (callAlphaVantage (withAlphaVantage x r w) x
                                             (Ticker X))) = Some e) :
  exists batch batch',
    upsertCalls (snd (fetchAndEnrichStocks w c)) = [batch]
    /\ upsertCalls (snd (fetchAndEnrichStocks (withAlphaVantage x r w) c))
       = [batch']
    /\ length batch' = length items
    /\ (forall j, j <> x -> nth_error batch' j = nth_error batch j)
    /\ (exists X0,
          nth_error batch x = Some X0
          /\ nth_error batch' x = Some (set_Alpha NullFloat64.null X0))
    /\ (forall j s,
          nth_error items j = Some s ->
          In (CallFinnhub (Ticker s))
             (snd (fetchAndEnrichStocks (withAlphaVantage x r w) c))
          /\ In (CallAlphaVantage (Ticker s))
                (snd (fetchAndEnrichStocks (withAlphaVantage x r w) c))
          /\ exists s', nth_error batch' j = Some s' /\ Ticker s' = Ticker s)
    /\ fst (fetchAndEnrichStocks (withAlphaVantage x r w) c)
       = fst (fst (Database.UpsertStocks (faults w) c batch'))
    /\ (Database.begin_fails (faults w) = false ->
        Database.prepare_fails (faults w) = false ->
        Database.commit_fails (faults w) = false ->
        forall t,
          Database.upsertAll (Database.committed c) batch' = Some t ->
          Database.committed
            (fst (fetchAndEnrichStocks (withAlphaVantage x r w) c)) = t)
    /\ (Database.committed
          (fst (fetchAndEnrichStocks (withAlphaVantage x r w) c))
        = Database.committed c
        \/ Database.upsertAll (Database.committed c) batch'
           = Some (Database.committed
                     (fst (fetchAndEnrichStocks (withAlphaVantage x r w) c)))).
Proof.
  assert (Hrating' :
            Api.GetRecommendationsFromKarenai
              (env (withAlphaVantage x r w)) (karenai (withAlphaVantage x r w))
            = ((items, None), fx)) by exact Hrating.
  pose proof (cycle_fst S (withAlphaVantage x r w) c items fx Hrating')
    as Hconn.
  change (faults (withAlphaVantage x r w)) with (faults w) in Hconn.
  exists (fst (enrichLoop w 0 items)),
         (fst (enrichLoop (withAlphaVantage x r w) 0 items)).
  split; [exact (cycle_upsertCalls S w c items fx Hrating) |].
  split; [exact (cycle_upsertCalls S _ c items fx Hrating') |].
  split; [apply enrichLoop_length |].
  split; [| split; [| split; [| split; [| split]]]].
  - intros j Hj. rewrite !enrichLoop_nth. cbn.
    destruct (nth_error items j) as [s |]; [| reflexivity].
    cbn. rewrite (enrichStock_other_turn w x j r s Hj). reflexivity.
  - exists (fst (enrichStock w x X)).
    rewrite !enrichLoop_nth, HX. cbn.
    rewrite (enrichStock_failed_turn w x r X e Hfails). split; reflexivity.
  - intros j s Hs.
    rewrite (cycle_events S _ c items fx Hrating').
    destruct (enrichLoop_calls (withAlphaVantage x r w) items 0 j s Hs)
      as [HA HB].
    split; [| split].
    + right. apply in_or_app. right. apply in_or_app. left. exact HA.
    + right. apply in_or_app. right. apply in_or_app. left. exact HB.
    + rewrite enrichLoop_nth, Hs. cbn. eexists. split; [reflexivity |].
      apply enrichStock_keeps_ticker.
  - exact Hconn.
  - intros Hb Hp Hc t Hall. rewrite Hconn.
    exact (proj2 (UpsertStocks_no_failure S (faults w) c _ t Hb Hp Hc Hall)).
  - rewrite Hconn. apply UpsertStocks_committed.
Qed.

(** C5 on the two tickers AAA and BBB, Alpha Vantage answering the call for
    AAA with its rate-limit note: the batch still has the two records, that
    of BBB is untouched and that of AAA has an absent alpha, and after the
    cycle the table, empty before it, holds the two rows, that of AAA with an
    absent alpha and that of BBB with its alpha. *)
Lemma C5_client_b_failure_is_per_ticker_witness :
  (exists batch batch',
      upsertCalls (snd (fetchAndEnrichStocks calmWorld emptyConn)) = [batch]
      /\ upsertCalls
           (snd (fetchAndEnrichStocks (withAlphaVantage 0 alphaNote calmWorld)
                                      emptyConn)) = [batch']
      /\ length batch' = 2%nat
      /\ nth_error batch' 1 = nth_error batch 1
      /\ option_map Alpha (nth_error batch' 0) = Some NullFloat64.null
      /\ option_map Alpha (nth_error batch' 1)
         = Some (NullFloat64.mk 0%float true))
  /\ map (fun row => (Ticker row, Alpha row))
         (Database.committed
            (fst (fetchAndEnrichStocks (withAlphaVantage 0 alphaNote calmWorld)
                                       emptyConn)))
     = [("AAA", NullFloat64.null); ("BBB", NullFloat64.mk 0%float true)].
Proof.
  destruct (C5_client_b_failure_is_per_ticker
              Database.listServer calmWorld emptyConn 0%nat alphaNote
              twoItems [Api.HttpGet Api.KARENAI_API_URL]
              (stockOf "AAA" "Buy") (ErrProviderNote "rate limit")
              eq_refl eq_refl eq_refl)
    as (batch & batch' & Hb & Hb' & Hlen & Hother & (X0 & _ & HX0) & _
        & _ & Hstored & _).
  split.
  - exists batch, batch'.
    split; [exact Hb |]. split; [exact Hb' |]. split; [exact Hlen |].
    split; [apply Hother; discriminate |].
    split; [rewrite HX0; reflexivity |].
    rewrite (Hother 1%nat) by discriminate.
    rewrite (cycle_upsertCalls _ calmWorld emptyConn twoItems
                               [Api.HttpGet Api.KARENAI_API_URL] eq_refl)
      in Hb.
    injection Hb as <-. vm_compute. reflexivity.
  - specialize (Hstored eq_refl eq_refl eq_refl).
    assert (Eb : batch'
                 = fst (enrichLoop (withAlphaVantage 0 alphaNote calmWorld)
                                   0 twoItems)).
    { rewrite (cycle_upsertCalls _ (withAlphaVantage 0 alphaNote calmWorld)
                                 emptyConn twoItems
                                 [Api.HttpGet Api.KARENAI_API_URL] eq_refl)
        in Hb'.
      injection Hb' as Hb'. symmetry. exact Hb'. }
    destruct (Database.upsertAll (Database.committed emptyConn) batch')
      as [t |] eqn:E.
    + rewrite (Hstored t eq_refl). rewrite Eb in E. vm_compute in E.
      injection E as <-. reflexivity.
    + rewrite Eb in E. vm_compute in E. discriminate E.
Defined.

(** * Further properties of the code *)

(** ** The clients *)

(** X1: each of the three clients, when its key is unset or empty, returns
    the error that names its variable without sleeping and without sending a
    request; the two fundamentals clients return their zero data with it. *)
Theorem clients_fail_fast_without_key
        (env : Api.Env) (parse : string -> option Time) (ticker : string)
        (rk : Api.HttpResult Api.karenaiResponse)
        (rm : Api.HttpResult Api.FinnhubMetricResponse)
        (rq : Api.HttpResult Api.FinnhubQuoteResponse)
        (ra : Api.HttpResult (list (string * Api.JSON))) :
  (Api.Getenv (Api.KARENAI_API_KEY env) = EmptyString ->
   Api.GetRecommendationsFromKarenai env rk
   = (([], Some (ErrMissingKey "KARENAI_API_KEY")), []))
  /\ (Api.Getenv (Api.FINNHUB_API_KEY env) = EmptyString ->
      Api.GetFinnhubMetricsAndQuote env ticker rm rq
      = ((Api.mkFinnhubData 0%float 0%float 0%float 0%float zeroTime
                            (Some (ErrMissingKey "FINNHUB_API_KEY")),
          Some (ErrMissingKey "FINNHUB_API_KEY")), []))
  /\ (Api.Getenv (Api.ALPHA_VANTAGE_API_KEY env) = EmptyString ->
      Api.GetAlphaAndLatestTradingDayFromAlphaVantage parse env ticker ra
      = ((Api.mkAlphaVantageData
            0%float zeroTime (Some (ErrMissingKey "ALPHA_VANTAGE_API_KEY")),
          Some (ErrMissingKey "ALPHA_VANTAGE_API_KEY")), [])).
Proof.
  unfold Api.GetRecommendationsFromKarenai, Api.GetFinnhubMetricsAndQuote,
    Api.GetAlphaAndLatestTradingDayFromAlphaVantage.
  repeat split; intros H; rewrite H; reflexivity.
Qed.

(** X1 with no variable set. *)
Lemma clients_fail_fast_without_key_witness :
  snd (Api.GetAlphaAndLatestTradingDayFromAlphaVantage
         oneDay (Api.mkEnv None None None) "AAA" alphaOK) = []
  /\ snd (Api.GetFinnhubMetricsAndQuote
            (Api.mkEnv None None None) "AAA" metricsOK quoteOK) = []
  /\ snd (Api.GetRecommendationsFromKarenai
            (Api.mkEnv None None None) (karenai calmWorld)) = [].
Proof.
  destruct (clients_fail_fast_without_key
              (Api.mkEnv None None None) oneDay "AAA"
              (karenai calmWorld) metricsOK quoteOK alphaOK)
    as (Hk & Hf & Ha).
  rewrite (Hk eq_refl), (Hf eq_refl), (Ha eq_refl). repeat split.
Defined.

(** X2: the Finnhub client returns no error exactly when its key is set and
    both endpoints answer 200 with a body that decodes; with the key set it
    calls [http.Get] twice, for the metrics first and then for the quote,
    whatever the first call met. *)
Theorem finnhub_error_iff
        (env : Api.Env) (ticker : string)
        (rm : Api.HttpResult Api.FinnhubMetricResponse)
        (rq : Api.HttpResult Api.FinnhubQuoteResponse) :
  (snd (fst (Api.GetFinnhubMetricsAndQuote env ticker rm rq)) = None
   <-> (Api.Getenv (Api.FINNHUB_API_KEY env) <> EmptyString
        /\ Api.failed rm = false /\ Api.failed rq = false))
  /\ (Api.Getenv (Api.FINNHUB_API_KEY env) <> EmptyString ->
      snd (Api.GetFinnhubMetricsAndQuote env ticker rm rq)
      = [Api.HttpGet
           (Api.metricURL ticker (Api.Getenv (Api.FINNHUB_API_KEY env)));
         Api.HttpGet
           (Api.quoteURL ticker (Api.Getenv (Api.FINNHUB_API_KEY env)))]).
Proof.
  unfold Api.GetFinnhubMetricsAndQuote.
  destruct (Api.Getenv (Api.FINNHUB_API_KEY env) =? EmptyString)%string eqn:Ek.
  - apply String.eqb_eq in Ek. split.
    + cbn. split; [discriminate | intros [H _]; contradiction].
    + intros H. contradiction.
  - apply String.eqb_neq in Ek. split; [| reflexivity].
    cbn [fst snd].
    destruct rm as [| sm | sm [m |]], rq as [| sq | sq [q |]];
      cbn; unfold Api.StatusOK;
      try destruct (sm =? 200); try destruct (sq =? 200); cbn;
      (split; [intros H; try discriminate H; auto | intros (_ & H1 & H2);
               try discriminate H1; try discriminate H2; reflexivity]).
Qed.

(** X2 on two good answers. *)
Lemma finnhub_error_iff_witness :
  snd (fst (callFinnhub calmWorld 0 "AAA")) = None
  /\ snd (callFinnhub calmWorld 0 "AAA")
     = [Api.HttpGet (Api.metricURL "AAA" "k2");
        Api.HttpGet (Api.quoteURL "AAA" "k2")].
Proof.
  destruct (finnhub_error_iff keys "AAA" metricsOK quoteOK) as [Hiff Hfx].
  assert (Hk : Api.Getenv (Api.FINNHUB_API_KEY keys) <> EmptyString)
    by discriminate.
  split; [apply Hiff; repeat split; exact Hk | exact (Hfx Hk)].
Defined.

(** X3: when both endpoints of Finnhub answer, the P/E that the client
    returns is the preferred field unless that is zero, and then the alternate
    one, so that it is zero only when both fields are; the same holds of the
    dividend yield; the market capitalization and the price are the fields of
    the payloads. *)
Theorem finnhub_fallback_fields
        (env : Api.Env) (ticker : string) (m : Api.FinnhubMetric)
        (q : Api.FinnhubQuoteResponse)
        (Hkey : Api.Getenv (Api.FINNHUB_API_KEY env) <> EmptyString) :
  exists d fx,
    Api.GetFinnhubMetricsAndQuote
      env ticker (Api.Response 200 (Some (Api.mkFinnhubMetricResponse m)))
      (Api.Response 200 (Some q)) = ((d, None), fx)
    /\ (neq (Api.PeExclExtraTTM m) 0%float = true ->
        Api.PE_Ratio d = Api.PeExclExtraTTM m)
    /\ (neq (Api.PeExclExtraTTM m) 0%float = false ->
        Api.PE_Ratio d = Api.PeRatio m)
    /\ (PrimFloat.eqb (Api.PE_Ratio d) 0%float = true ->
        PrimFloat.eqb (Api.PeExclExtraTTM m) 0%float = true
        /\ PrimFloat.eqb (Api.PeRatio m) 0%float = true)
    /\ (neq (Api.DividendYieldAnnually m) 0%float = true ->
        Api.DividendYield d = Api.DividendYieldAnnually m)
    /\ (neq (Api.DividendYieldAnnually m) 0%float = false ->
        Api.DividendYield d = Api.DividendYieldAlt m)
    /\ (PrimFloat.eqb (Api.DividendYield d) 0%float = true ->
        PrimFloat.eqb (Api.DividendYieldAnnually m) 0%float = true
        /\ PrimFloat.eqb (Api.DividendYieldAlt m) 0%float = true)
    /\ Api.MarketCapitalization d = Api.MarketCap m
    /\ Api.CurrentPrice d = Api.QuoteCurrentPrice q.
Proof.
  apply String.eqb_neq in Hkey.
  unfold Api.GetFinnhubMetricsAndQuote. rewrite Hkey.
  do 2 eexists. split; [reflexivity |]. cbn. unfold neq.
  destruct (PrimFloat.eqb (Api.PeExclExtraTTM m) 0) eqn:Ep;
    destruct (PrimFloat.eqb (Api.DividendYieldAnnually m) 0) eqn:Ed; cbn;
    repeat split; intros; try reflexivity; try discriminate; try assumption;
    congruence.
Qed.

(** X3 on a payload whose annual dividend yield is zero and whose preferred
    P/E is not. *)
Lemma finnhub_fallback_fields_witness :
  Api.PE_Ratio (fst (fst (callFinnhub calmWorld 0 "AAA"))) = 15%float
  /\ Api.DividendYield (fst (fst (callFinnhub calmWorld 0 "AAA"))) = 2%float.
Proof.
  assert (Hk : Api.Getenv (Api.FINNHUB_API_KEY keys) <> EmptyString)
    by discriminate.
  destruct (finnhub_fallback_fields
              keys "AAA"
              (Api.mkFinnhubMetric 15%float 14%float 0%float 2%float 900%float)
              (Api.mkFinnhubQuoteResponse 100%float 1700000000) Hk)
    as (d & fx & Hcall & Hpe & _ & _ & _ & Hdy & _).
  change (callFinnhub calmWorld 0 "AAA") with
    (Api.GetFinnhubMetricsAndQuote
       keys "AAA"
       (Api.Response 200
          (Some (Api.mkFinnhubMetricResponse
                   (Api.mkFinnhubMetric 15%float 14%float 0%float 2%float
                                        900%float))))
       (Api.Response 200
          (Some (Api.mkFinnhubQuoteResponse 100%float 1700000000)))).
  rewrite Hcall. cbn [fst].
  split; [exact (Hpe eq_refl) | exact (Hdy eq_refl)].
Defined.

(** [time.Unix] of an [int64] gives the zero time for one time stamp only. *)
Lemma Unix_IsZero (ts : Z) :
  - 2 ^ 63 <= ts < 2 ^ 63 ->
  IsZero (Unix ts) = (ts =? - unixToInternal).
Proof.
  intros Hr. unfold IsZero, Unix. cbn [sec nsec]. rewrite andb_true_r.
  assert (Hw : wrap64 (ts + unixToInternal) = 0 <-> ts = - unixToInternal).
  { unfold wrap64, unixToInternal.
    destruct (Z_lt_dec (ts + 62135596800 + 2 ^ 63) (2 ^ 64)) as [Hlt | Hge].
    - rewrite Z.mod_small by lia. lia.
    - replace (ts + 62135596800 + 2 ^ 63)
        with (ts + 62135596800 + 2 ^ 63 - 2 ^ 64 + 1 * 2 ^ 64) by lia.
      rewrite Z.mod_add by lia. rewrite Z.mod_small by lia. lia. }
  destruct (Z.eqb_spec (wrap64 (ts + unixToInternal)) 0) as [E | E],
           (Z.eqb_spec ts (- unixToInternal)) as [E' | E'];
    try reflexivity; exfalso; tauto.
Qed.

(** X4: when both endpoints of Finnhub answer, the merged record has
    latestTradingDay present, holding [time.Unix] of the time stamp of the
    quote, exactly when that time stamp is neither 0 nor -62135596800, the
    one whose time is the zero time; otherwise it is absent. *)
Theorem latest_trading_day_presence
        (env : Api.Env) (ticker : string) (stock : Stock)
        (m : Api.FinnhubMetricResponse) (q : Api.FinnhubQuoteResponse)
        (Hkey : Api.Getenv (Api.FINNHUB_API_KEY env) <> EmptyString)
        (Hint64 : - 2 ^ 63 <= Api.Timestamp q < 2 ^ 63) :
  LatestTradingDay
    (applyFinnhub
       stock
       (fst (fst (Api.GetFinnhubMetricsAndQuote
                    env ticker (Api.Response 200 (Some m))
                    (Api.Response 200 (Some q)))))
       (snd (fst (Api.GetFinnhubMetricsAndQuote
                    env ticker (Api.Response 200 (Some m))
                    (Api.Response 200 (Some q))))))
  = if (Api.Timestamp q =? 0) || (Api.Timestamp q =? - 62135596800)
    then NullTime.null
    else NullTime.mk (Unix (Api.Timestamp q)) true.
Proof.
  apply String.eqb_neq in Hkey.
  unfold Api.GetFinnhubMetricsAndQuote. rewrite Hkey. cbn.
  destruct (Api.Timestamp q =? 0) eqn:E0; cbn; [reflexivity |].
  rewrite (Unix_IsZero _ Hint64).
  change (- unixToInternal) with (- 62135596800).
  destruct (Api.Timestamp q =? - 62135596800); reflexivity.
Qed.

(** X4 on a time stamp of 2023 and on the time stamp of the zero time. *)
Lemma latest_trading_day_presence_witness :
  LatestTradingDay
    (applyFinnhub (stockOf "AAA" "Buy")
                  (fst (fst (callFinnhub calmWorld 0 "AAA")))
                  (snd (fst (callFinnhub calmWorld 0 "AAA"))))
  = NullTime.mk (Unix 1700000000) true
  /\ LatestTradingDay
       (applyFinnhub
          (stockOf "AAA" "Buy")
          (fst (fst (Api.GetFinnhubMetricsAndQuote
                       keys "AAA" metricsOK
                       (Api.Response 200
                          (Some (Api.mkFinnhubQuoteResponse
                                   100%float (- 62135596800)))))))
          None)
     = NullTime.null.
Proof.
  assert (Hk : Api.Getenv (Api.FINNHUB_API_KEY keys) <> EmptyString)
    by discriminate.
  split.
  - apply (latest_trading_day_presence
             keys "AAA" (stockOf "AAA" "Buy")
             (Api.mkFinnhubMetricResponse
                (Api.mkFinnhubMetric 15%float 14%float 0%float 2%float
                                     900%float))
             (Api.mkFinnhubQuoteResponse 100%float 1700000000) Hk).
    cbn. lia.
  - apply (latest_trading_day_presence
             keys "AAA" (stockOf "AAA" "Buy")
             (Api.mkFinnhubMetricResponse
                (Api.mkFinnhubMetric 15%float 14%float 0%float 2%float
                                     900%float))
             (Api.mkFinnhubQuoteResponse 100%float (- 62135596800)) Hk).
    cbn. lia.
Defined.

(** X5: the Alpha Vantage client returns no error exactly when its key is
    set, the answer is a 200 whose body decodes to an object with no string
    under "Error Message", none under "Note", and an object under "Global
    Quote" whose "07. latest trading day", if it is a string that is not
    empty, is a date that parses; a Global Quote without that field is no
    error.  With the key set the client sleeps 15 seconds and then calls
    [http.Get] once, whatever the call meets. *)
Theorem alpha_vantage_error_iff
        (parse : string -> option Time) (env : Api.Env) (ticker : string)
        (resp : Api.HttpResult (list (string * Api.JSON))) :
  (snd (fst (Api.GetAlphaAndLatestTradingDayFromAlphaVantage
               parse env ticker resp)) = None
   <-> (Api.Getenv (Api.ALPHA_VANTAGE_API_KEY env) <> EmptyString
        /\ exists m gq,
            resp = Api.Response 200 (Some m)
            /\ Api.asString (Api.index m "Error Message") = None
            /\ Api.asString (Api.index m "Note") = None
            /\ Api.asMap (Api.index m "Global Quote") = Some gq
            /\ (forall day,
                   Api.asString (Api.index gq "07. latest trading day")
                   = Some day ->
                   day <> EmptyString -> parse day <> None)))
  /\ (Api.Getenv (Api.ALPHA_VANTAGE_API_KEY env) <> EmptyString ->
      snd (Api.GetAlphaAndLatestTradingDayFromAlphaVantage
             parse env ticker resp)
      = [Api.Sleep 15;
         Api.HttpGet
           (Api.alphaURL ticker
                         (Api.Getenv (Api.ALPHA_VANTAGE_API_KEY env)))]).
Proof.
  unfold Api.GetAlphaAndLatestTradingDayFromAlphaVantage.
  destruct (Api.Getenv (Api.ALPHA_VANTAGE_API_KEY env) =? EmptyString)%string
    eqn:Ek.
  - apply String.eqb_eq in Ek. split.
    + cbn. split; [discriminate | intros [H _]; contradiction].
    + intros H. contradiction.
  - apply String.eqb_neq in Ek. split; [| reflexivity].
    cbn [fst snd].
    destruct resp as [| st | st [m |]]; cbn.
    1, 2: split; [discriminate | intros (_ & m & gq & H & _); discriminate H].
    + unfold Api.StatusOK. destruct (st =? 200) eqn:Es; cbn.
      2: { apply Z.eqb_neq in Es.
           split; [discriminate |].
           intros (_ & m' & gq & H & _). injection H as H _. contradiction. }
      apply Z.eqb_eq in Es. subst st. unfold Api.readGlobalQuote.
      destruct (Api.asString (Api.index m "Error Message")) as [msg |] eqn:Em.
      { cbn. split; [discriminate |].
        intros (_ & m' & gq & H & H1 & _). injection H as <-. congruence. }
      destruct (Api.asString (Api.index m "Note")) as [note |] eqn:En.
      { cbn. split; [discriminate |].
        intros (_ & m' & gq & H & _ & H2 & _). injection H as <-. congruence. }
      destruct (Api.asMap (Api.index m "Global Quote")) as [gq |] eqn:Eg.
      2: { cbn. split; [discriminate |].
           intros (_ & m' & gq & H & _ & _ & H3 & _).
           injection H as <-. congruence. }
      destruct (Api.asString (Api.index gq "07. latest trading day"))
        as [day |] eqn:Ed.
      2: { cbn. split; [| reflexivity]. intros _. split; [exact Ek |].
           exists m, gq. repeat split; try assumption.
           intros day H. rewrite Ed in H. discriminate H. }
      destruct (day =? EmptyString)%string eqn:Ee; cbn.
      { apply String.eqb_eq in Ee. split; [| reflexivity].
        intros _. split; [exact Ek |].
        exists m, gq. repeat split; try assumption.
        intros day' H Hne. rewrite Ed in H. injection H as <-.
        contradiction. }
      apply String.eqb_neq in Ee.
      destruct (parse day) as [t |] eqn:Ep; cbn.
      * split; [| reflexivity]. intros _. split; [exact Ek |].
        exists m, gq. repeat split; try assumption.
        intros day' H _. rewrite Ed in H. injection H as <-. congruence.
      * split; [discriminate |].
        intros (_ & m' & gq' & H & _ & _ & H3 & H4).
        injection H as <-. rewrite Eg in H3. injection H3 as <-.
        exfalso. exact (H4 day Ed Ee Ep).
    + unfold Api.StatusOK. destruct (st =? 200); cbn;
        (split; [discriminate | intros (_ & m & gq & H & _); discriminate H]).
Qed.

(** X5 on a Global Quote with a trading day, and on one with no field. *)
Lemma alpha_vantage_error_iff_witness :
  snd (fst (callAlphaVantage calmWorld 0 "AAA")) = None
  /\ snd (fst (Api.GetAlphaAndLatestTradingDayFromAlphaVantage
                 (fun _ => None) keys "AAA"
                 (Api.Response 200 (Some [("Global Quote", Api.JObject [])]))))
     = None
  /\ snd (callAlphaVantage calmWorld 0 "AAA")
     = [Api.Sleep 15; Api.HttpGet (Api.alphaURL "AAA" "k3")].
Proof.
  assert (Hk : Api.Getenv (Api.ALPHA_VANTAGE_API_KEY keys) <> EmptyString)
    by discriminate.
  split; [| split].
  - apply (proj1 (alpha_vantage_error_iff oneDay keys "AAA" alphaOK)).
    split; [exact Hk |]. do 2 eexists.
    split; [reflexivity |]. repeat split. intros day _ _. discriminate.
  - apply (proj1 (alpha_vantage_error_iff
                    (fun _ => None) keys "AAA"
                    (Api.Response 200
                                  (Some [("Global Quote", Api.JObject [])])))).
    split; [exact Hk |]. do 2 eexists.
    split; [reflexivity |]. repeat split. intros day H. discriminate H.
  - exact (proj2 (alpha_vantage_error_iff oneDay keys "AAA" alphaOK) Hk).
Defined.

(** X6: whenever the Alpha Vantage client returns an error, the data it
    returns with it holds the zero time and a zero alpha: a failure never
    carries a trading day. *)
Theorem alpha_vantage_error_carries_no_data
        (parse : string -> option Time) (env : Api.Env) (ticker : string)
        (resp : Api.HttpResult (list (string * Api.JSON))) (e : error)
        (Herr : snd (fst (Api.GetAlphaAndLatestTradingDayFromAlphaVantage
                            parse env ticker resp)) = Some e) :
  Api.AVLatestTradingDay
    (fst (fst (Api.GetAlphaAndLatestTradingDayFromAlphaVantage
                 parse env ticker resp))) = zeroTime
  /\ Api.AVAlpha
       (fst (fst (Api.GetAlphaAndLatestTradingDayFromAlphaVantage
                    parse env ticker resp))) = 0%float
  /\ Api.AVError
       (fst (fst (Api.GetAlphaAndLatestTradingDayFromAlphaVantage
                    parse env ticker resp))) = Some e.
Proof.
  revert Herr.
  unfold Api.GetAlphaAndLatestTradingDayFromAlphaVantage, Api.readGlobalQuote.
  break_match; cbn; intros H; try discriminate H;
    injection H as <-; repeat split.
Qed.

(** X6 on a date that does not parse. *)
Lemma alpha_vantage_error_carries_no_data_witness :
  Api.AVLatestTradingDay
    (fst (fst (Api.GetAlphaAndLatestTradingDayFromAlphaVantage
                 (fun _ => None) keys "AAA" alphaOK))) = zeroTime.
Proof.
  apply (alpha_vantage_error_carries_no_data
           (fun _ => None) keys "AAA" alphaOK (ErrParseDate "2024-01-02")
           eq_refl).
Defined.

(** ** The cycle, further *)

Lemma clientATickers_app (a b : list Event) :
  clientATickers (a ++ b)%list = (clientATickers a ++ clientATickers b)%list.
Proof.
  induction a as [| e a IH]; [reflexivity |].
  destruct e; cbn; rewrite ?IH; reflexivity.
Qed.

Lemma clientBTickers_app (a b : list Event) :
  clientBTickers (a ++ b)%list = (clientBTickers a ++ clientBTickers b)%list.
Proof.
  induction a as [| e a IH]; [reflexivity |].
  destruct e; cbn; rewrite ?IH; reflexivity.
Qed.

Lemma clientTickers_Did (fx : list Api.Effect) :
  clientATickers (map Did fx) = [] /\ clientBTickers (map Did fx) = [].
Proof. induction fx; [split; reflexivity | exact IHfx]. Qed.

Lemma clientTickers_Db (ops : list Database.DbOp) :
  clientATickers (map Db ops) = [] /\ clientBTickers (map Db ops) = [].
Proof. induction ops; [split; reflexivity | exact IHops]. Qed.

Lemma enrichLoop_tickers (w : World) (stocks : list Stock) :
  forall i,
    clientATickers (snd (enrichLoop w i stocks)) = map Ticker stocks
    /\ clientBTickers (snd (enrichLoop w i stocks)) = map Ticker stocks
    /\ map Ticker (fst (enrichLoop w i stocks)) = map Ticker stocks.
Proof.
  induction stocks as [| stock rest IH]; intros i; [repeat split |].
  rewrite enrichLoop_cons. cbn [fst snd map].
  destruct (IH (S i)) as (HA & HB & HT).
  rewrite clientATickers_app, clientBTickers_app, HA, HB, HT.
  rewrite enrichStock_snd, enrichStock_keeps_ticker. cbn.
  rewrite clientATickers_app, clientBTickers_app.
  destruct (clientTickers_Did (snd (callFinnhub w i (Ticker stock))))
    as [-> ->].
  cbn.
  destruct (clientTickers_Did (snd (callAlphaVantage w i (Ticker stock))))
    as [-> ->].
  repeat split.
Qed.

(** X7: in a cycle whose rating source fetch succeeds, Client A is called
    once per record and in the order of the records, and so is Client B; one
    batch goes to UpsertStocks, with the tickers of the records in their
    order; when the rating source returns no record, UpsertStocks is still
    called, with an empty batch, and nothing else happens. *)
Theorem cycle_calls_follow_the_records
        (S : Database.Server) (w : World) (c : Database.Conn S)
        (items : list Stock) (fx : list Api.Effect)
        (Hrating : Api.GetRecommendationsFromKarenai (env w) (karenai w)
                   = ((items, None), fx)) :
  clientATickers (snd (fetchAndEnrichStocks w c)) = map Ticker items
  /\ clientBTickers (snd (fetchAndEnrichStocks w c)) = map Ticker items
  /\ (exists batch,
         upsertCalls (snd (fetchAndEnrichStocks w c)) = [batch]
         /\ map Ticker batch = map Ticker items)
  /\ (items = [] ->
      fetchAndEnrichStocks w c
      = (c, (CallKarenai :: map Did fx ++ [CallUpsertStocks []])%list)).
Proof.
  destruct (enrichLoop_tickers w items 0) as (HA & HB & HT).
  split; [| split; [| split]].
  - rewrite (cycle_events S w c items fx Hrating). cbn.
    rewrite clientATickers_app, (proj1 (clientTickers_Did fx)). cbn.
    rewrite clientATickers_app, HA. cbn.
    rewrite (proj1 (clientTickers_Db _)). apply app_nil_r.
  - rewrite (cycle_events S w c items fx Hrating). cbn.
    rewrite clientBTickers_app, (proj2 (clientTickers_Did fx)). cbn.
    rewrite clientBTickers_app, HB. cbn.
    rewrite (proj2 (clientTickers_Db _)). apply app_nil_r.
  - exists (fst (enrichLoop w 0 items)).
    split; [exact (cycle_upsertCalls S w c items fx Hrating) | exact HT].
  - intros ->. unfold fetchAndEnrichStocks. rewrite Hrating. reflexivity.
Qed.

(** X7 on the two records AAA and BBB. *)
Lemma cycle_calls_follow_the_records_witness :
  clientATickers (snd (fetchAndEnrichStocks calmWorld emptyConn))
  = ["AAA"; "BBB"]
  /\ clientBTickers (snd (fetchAndEnrichStocks calmWorld emptyConn))
     = ["AAA"; "BBB"].
Proof.
  destruct (cycle_calls_follow_the_records
              Database.listServer calmWorld emptyConn twoItems
              [Api.HttpGet Api.KARENAI_API_URL] eq_refl)
    as (HA & HB & _).
  split; [exact HA | exact HB].
Defined.

(** X8: a turn of the loop leaves the identifier, the ticker, the company,
    the brokerage, the action, the ratings, the targets and the creation time
    of the record as the rating source gave them, sets the update time to the
    clock of the turn, and stores as score, present, the score of the record
    as it is stored. *)
Theorem enrichStock_frame_and_score (w : World) (i : nat) (stock : Stock) :
  ID (fst (enrichStock w i stock)) = ID stock
  /\ Ticker (fst (enrichStock w i stock)) = Ticker stock
  /\ Company (fst (enrichStock w i stock)) = Company stock
  /\ Brokerage (fst (enrichStock w i stock)) = Brokerage stock
  /\ Action (fst (enrichStock w i stock)) = Action stock
  /\ RatingFrom (fst (enrichStock w i stock)) = RatingFrom stock
  /\ RatingTo (fst (enrichStock w i stock)) = RatingTo stock
  /\ TargetFrom (fst (enrichStock w i stock)) = TargetFrom stock
  /\ TargetTo (fst (enrichStock w i stock)) = TargetTo stock
  /\ CreatedAt (fst (enrichStock w i stock)) = CreatedAt stock
  /\ UpdatedAt (fst (enrichStock w i stock)) = now w i
  /\ RecommendationScore (fst (enrichStock w i stock))
     = NullFloat64.mk
         (CalculateRecommendationScore (fst (enrichStock w i stock))) true.
Proof.
  rewrite enrichStock_fst.
  destruct (snd (fst (callAlphaVantage w i (Ticker stock))));
    destruct (snd (fst (callFinnhub w i (Ticker stock))));
    unfold applyFinnhub;
    try destruct (negb (IsZero (Api.LatestTradingDay
                                  (fst (fst (callFinnhub w i (Ticker stock)))))));
    repeat split.
Qed.

(** X9: when the Client A fetch of a ticker returns an error, the score
    stored for it is 5 if the action is "Buy" or "Strong Buy" and 0 otherwise:
    with the price at 0 the target never earns its 3 points. *)
Theorem client_a_failure_score
        (w : World) (i : nat) (stock : Stock) (e : error)
        (Hfails : snd (fst (callFinnhub w i (Ticker stock))) = Some e) :
  RecommendationScore (fst (enrichStock w i stock))
  = NullFloat64.mk (if action_is_buy stock then 5%float else 0%float) true.
Proof.
  rewrite enrichStock_fst, Hfails.
  unfold applyScore, CalculateRecommendationScore, action_is_buy.
  destruct (snd (fst (callAlphaVantage w i (Ticker stock)))); cbn;
    destruct ((Action stock =? "Buy")%string
              || (Action stock =? "Strong Buy")%string);
    reflexivity.
Qed.

(** X9 on a Buy whose target is above any price, Finnhub answering 500. *)
Lemma client_a_failure_score_witness :
  RecommendationScore
    (fst (enrichStock
            (mkWorld keys (karenai calmWorld)
                     (fun _ => Api.Response 500 None) (fun _ => quoteOK)
                     (fun _ => alphaOK) oneDay (now calmWorld)
                     Database.noFaults)
            0 (stockOf "AAA" "Buy")))
  = NullFloat64.mk 5%float true.
Proof.
  apply (client_a_failure_score
           (mkWorld keys (karenai calmWorld)
                    (fun _ => Api.Response 500 None) (fun _ => quoteOK)
                    (fun _ => alphaOK) oneDay (now calmWorld)
                    Database.noFaults)
           0%nat (stockOf "AAA" "Buy") (ErrStatus 500) eq_refl).
Defined.

Lemma sleptSeconds_app (a b : list Event) :
  sleptSeconds (a ++ b)%list = sleptSeconds a + sleptSeconds b.
Proof.
  induction a as [| e a IH]; [reflexivity |].
  destruct e as [| | | | [url | seconds] |]; cbn; rewrite ?IH; lia.
Qed.

Lemma httpCalls_app (a b : list Event) :
  httpCalls (a ++ b)%list = (httpCalls a ++ httpCalls b)%list.
Proof.
  induction a as [| e a IH]; [reflexivity |].
  destruct e as [| | | | [url | seconds] |]; cbn; rewrite ?IH; reflexivity.
Qed.

Lemma trace_Db (ops : list Database.DbOp) :
  sleptSeconds (map Db ops) = 0 /\ httpCalls (map Db ops) = [].
Proof. induction ops; [split; reflexivity | exact IHops]. Qed.

Lemma httpCalls_Did_gets (urls : list string) :
  httpCalls (map Did (map Api.HttpGet urls)) = urls
  /\ sleptSeconds (map Did (map Api.HttpGet urls)) = 0.
Proof.
  induction urls as [| u urls [IH1 IH2]]; [split; reflexivity |].
  cbn. rewrite IH1, IH2. split; reflexivity.
Qed.

(** The cost of one turn when the two keys are set. *)
Lemma enrichStock_cost (w : World) (i : nat) (stock : Stock) :
  Api.Getenv (Api.FINNHUB_API_KEY (env w)) <> EmptyString ->
  Api.Getenv (Api.ALPHA_VANTAGE_API_KEY (env w)) <> EmptyString ->
  sleptSeconds (snd (enrichStock w i stock)) = 15
  /\ length (httpCalls (snd (enrichStock w i stock))) = 3%nat.
Proof.
  intros Hf Ha. apply String.eqb_neq in Hf, Ha.
  rewrite enrichStock_snd.
  unfold callFinnhub, callAlphaVantage, Api.GetFinnhubMetricsAndQuote,
    Api.GetAlphaAndLatestTradingDayFromAlphaVantage.
  rewrite Hf, Ha. split; reflexivity.
Qed.

Lemma enrichLoop_cost (w : World) (stocks : list Stock) :
  Api.Getenv (Api.FINNHUB_API_KEY (env w)) <> EmptyString ->
  Api.Getenv (Api.ALPHA_VANTAGE_API_KEY (env w)) <> EmptyString ->
  forall i,
    sleptSeconds (snd (enrichLoop w i stocks)) = 15 * Z.of_nat (length stocks)
    /\ length (httpCalls (snd (enrichLoop w i stocks)))
       = (3 * length stocks)%nat.
Proof.
  intros Hf Ha.
  induction stocks as [| stock rest IH]; intros i; [split; reflexivity |].
  rewrite enrichLoop_cons. cbn [snd].
  rewrite sleptSeconds_app, httpCalls_app, length_app.
  destruct (enrichStock_cost w i stock Hf Ha) as [-> ->].
  destruct (IH (S i)) as [-> ->].
  cbn [length]. split; lia.
Qed.

(** X10: in a cycle whose rating source fetch succeeds on [n] records, with
    the keys of the two fundamentals clients set, the cycle sleeps 15 seconds
    per record, [15 * n] in all, and calls [http.Get] three times per record
    besides the one call of the rating source client. *)
Theorem cycle_sleeps_and_http_calls
        (S : Database.Server) (w : World) (c : Database.Conn S)
        (items : list Stock) (fx : list Api.Effect)
        (Hrating : Api.GetRecommendationsFromKarenai (env w) (karenai w)
                   = ((items, None), fx))
        (Hfinnhub : Api.Getenv (Api.FINNHUB_API_KEY (env w)) <> EmptyString)
        (Halpha : Api.Getenv (Api.ALPHA_VANTAGE_API_KEY (env w))
                  <> EmptyString) :
  sleptSeconds (snd (fetchAndEnrichStocks w c))
  = 15 * Z.of_nat (length items)
  /\ length (httpCalls (snd (fetchAndEnrichStocks w c)))
     = (1 + 3 * length items)%nat.
Proof.
  assert (Hfx : fx = [Api.HttpGet Api.KARENAI_API_URL]).
  { revert Hrating. unfold Api.GetRecommendationsFromKarenai.
    break_match; intros H; try discriminate H.
    injection H as _ <-. reflexivity. }
  subst fx.
  rewrite (cycle_events S w c items _ Hrating).
  destruct (enrichLoop_cost w items Hfinnhub Halpha 0) as [Hs Hr].
  cbn. rewrite sleptSeconds_app, httpCalls_app, length_app, Hs, Hr.
  cbn. destruct (trace_Db (snd (Database.UpsertStocks
                                  (faults w) c (fst (enrichLoop w 0 items)))))
    as [-> ->].
  cbn. split; lia.
Qed.

(** X10 on the two records AAA and BBB: 30 seconds and 7 calls. *)
Lemma cycle_sleeps_and_http_calls_witness :
  sleptSeconds (snd (fetchAndEnrichStocks calmWorld emptyConn)) = 30
  /\ length (httpCalls (snd (fetchAndEnrichStocks calmWorld emptyConn)))
     = 7%nat.
Proof.
  assert (Hf : Api.Getenv (Api.FINNHUB_API_KEY (env calmWorld)) <> EmptyString)
    by discriminate.
  assert (Ha : Api.Getenv (Api.ALPHA_VANTAGE_API_KEY (env calmWorld))
               <> EmptyString) by discriminate.
  exact (cycle_sleeps_and_http_calls
           Database.listServer calmWorld emptyConn twoItems
           [Api.HttpGet Api.KARENAI_API_URL] eq_refl Hf Ha).
Defined.

Lemma cycle_rating_down (S : Database.Server) (w : World)
      (c : Database.Conn S) (e : error) :
  snd (fst (Api.GetRecommendationsFromKarenai (env w) (karenai w))) = Some e ->
  fetchAndEnrichStocks w c
  = (c, CallKarenai
        :: map Did (snd (Api.GetRecommendationsFromKarenai (env w) (karenai w)))).
Proof.
  intros H. unfold fetchAndEnrichStocks.
  destruct (Api.GetRecommendationsFromKarenai (env w) (karenai w))
    as [[items err] fx].
  cbn in H. subst err. reflexivity.
Qed.

(** X11: whatever a cycle meets, the committed contents after it are either
    those before it or those after the statements of the whole batch that the
    cycle handed to UpsertStocks: a cycle never leaves part of a batch
    stored. *)
Theorem cycle_stores_whole_batch_or_nothing
        (S : Database.Server) (w : World) (c : Database.Conn S) :
  Database.committed (fst (fetchAndEnrichStocks w c)) = Database.committed c
  \/ exists batch,
      upsertCalls (snd (fetchAndEnrichStocks w c)) = [batch]
      /\ Database.upsertAll (Database.committed c) batch
         = Some (Database.committed (fst (fetchAndEnrichStocks w c))).
Proof.
  destruct (Api.GetRecommendationsFromKarenai (env w) (karenai w))
    as [[items [e |]] fx] eqn:Hrating.
  - left. rewrite (cycle_rating_down S w c e); [reflexivity |].
    rewrite Hrating. reflexivity.
  - rewrite (cycle_fst S w c items fx Hrating).
    destruct (UpsertStocks_committed S (faults w) c (fst (enrichLoop w 0 items)))
      as [H | H]; [left; exact H | right].
    exists (fst (enrichLoop w 0 items)).
    split; [exact (cycle_upsertCalls S w c items fx Hrating) | exact H].
Qed.





(** ** The read methods and the handlers *)

Lemma isValidSortColumn_In (key : string) :
  Database.isValidSortColumn key = true -> In key Database.validSortColumns.
Proof.
  unfold Database.isValidSortColumn. intros H.
  apply existsb_exists in H. destruct H as (x & Hin & Heq).
  apply String.eqb_eq in Heq. subst x. exact Hin.
Qed.

(** X13: whatever the options, the text of the statement that GetAllStocks
    builds is one of a fixed family: the column list, the two-placeholder
    filter when the search is not empty, an ORDER BY on a column of the
    allow-list ("ticker" when the requested one is not in it) in the direction
    ASC or DESC, and LIMIT and OFFSET placeholders numbered after those of the
    filter.  The search text goes into the arguments only, between two
    percent signs, and the arguments are as many as the placeholders. *)
Theorem all_stocks_statement_is_allow_listed
        (opts : Database.StockQueryOptions) :
  exists col ord,
    In col Database.validSortColumns
    /\ (col = Database.SortBy opts \/ col = "ticker")
    /\ (ord = "DESC" /\ Database.SortBy opts <> EmptyString
        /\ Database.Order opts = "desc"
        \/ ord = "ASC"
           /\ (Database.SortBy opts = EmptyString
               \/ Database.Order opts <> "desc"))
    /\ Database.allStocksStatement opts
       = if negb (Database.Search opts =? EmptyString)%string
         then (Database.selectColumns
                 ++ " WHERE ticker ILIKE $1 OR company ILIKE $2 ORDER BY "
                 ++ col ++ " " ++ ord ++ " LIMIT $3 OFFSET $4",
               [Database.ArgText ("%" ++ Database.Search opts ++ "%");
                Database.ArgText ("%" ++ Database.Search opts ++ "%");
                Database.ArgInt (Database.Limit opts);
                Database.ArgInt (Database.Offset opts)])
         else (Database.selectColumns
                 ++ " ORDER BY " ++ col ++ " " ++ ord
                 ++ " LIMIT $1 OFFSET $2",
               [Database.ArgInt (Database.Limit opts);
                Database.ArgInt (Database.Offset opts)]).
Proof.
  destruct opts as [search sortBy order limit offset].
  unfold Database.allStocksStatement.
  cbn [Database.Search Database.SortBy Database.Order Database.Limit
       Database.Offset].
  assert (Hord :
            forall col, In col Database.validSortColumns ->
              (col = sortBy \/ col = "ticker") ->
              sortBy <> EmptyString ->
              exists col' ord,
                In col' Database.validSortColumns
                /\ (col' = sortBy \/ col' = "ticker")
                /\ (ord = "DESC" /\ sortBy <> EmptyString /\ order = "desc"
                    \/ ord = "ASC"
                       /\ (sortBy = EmptyString \/ order <> "desc"))
                /\ col' = col
                /\ ord = (if (order =? "desc")%string then "DESC" else "ASC")).
  { intros col Hin Hcol Hne. exists col.
    destruct (order =? "desc")%string eqn:Eo.
    - apply String.eqb_eq in Eo. exists "DESC". repeat split; auto.
    - apply String.eqb_neq in Eo. exists "ASC". repeat split; auto. }
  destruct (sortBy =? EmptyString)%string eqn:Es; cbn [negb].
  - apply String.eqb_eq in Es. subst sortBy.
    exists "ticker", "ASC".
    split; [cbn; tauto |]. split; [right; reflexivity |].
    split; [right; split; [reflexivity | left; reflexivity] |].
    destruct (search =? EmptyString)%string; reflexivity.
  - apply String.eqb_neq in Es.
    destruct (Database.isValidSortColumn sortBy) eqn:Ev; cbn [negb].
    + pose proof (isValidSortColumn_In sortBy Ev) as Hin.
      destruct (Hord sortBy Hin (or_introl eq_refl) Es)
        as (col & ord & H1 & H2 & H3 & -> & ->).
      exists sortBy, (if (order =? "desc")%string then "DESC" else "ASC").
      split; [exact H1 |]. split; [exact H2 |]. split; [exact H3 |].
      cbn in Hin.
      repeat (destruct Hin as [<- | Hin];
              [destruct (search =? EmptyString)%string;
               destruct (order =? "desc")%string; reflexivity |]).
      contradiction.
    + assert (Hin : In "ticker" Database.validSortColumns) by (cbn; tauto).
      destruct (Hord "ticker" Hin (or_intror eq_refl) Es)
        as (col & ord & H1 & H2 & H3 & -> & ->).
      exists "ticker", (if (order =? "desc")%string then "DESC" else "ASC").
      split; [exact H1 |]. split; [exact H2 |]. split; [exact H3 |].
      destruct (search =? EmptyString)%string;
        destruct (order =? "desc")%string; reflexivity.
Qed.

Lemma GetStockCount_eq (rd : Database.Reader) (k : nat) (search : string) :
  Database.GetStockCount rd k search
  = (match Database.countRows rd k (Database.countStatement search) with
     | None => (0, Some (ErrSql "count"))
     | Some count => (count, None)
     end, [Database.countStatement search]).
Proof.
  unfold Database.GetStockCount, Database.countStatement, Database.likePattern.
  destruct (search =? EmptyString)%string; cbn;
    match goal with
    | |- context [Database.countRows rd k ?st] =>
      destruct (Database.countRows rd k st)
    end; reflexivity.
Qed.

Lemma fold_append_some (stocks l : list Stock) :
  fold_left Database.append stocks (Some l) = Some (l ++ stocks)%list.
Proof.
  revert l. induction stocks as [| s rest IH]; intros l; cbn.
  - rewrite app_nil_r. reflexivity.
  - rewrite IH, <- app_assoc. reflexivity.
Qed.

Lemma scanRows_all (stocks : list Stock) :
  forall acc,
    Database.scanRows acc (map Some stocks)
    = Some (fold_left Database.append stocks acc).
Proof.
  induction stocks as [| s rest IH]; intros acc; [reflexivity |].
  cbn. apply IH.
Qed.

Lemma scanRows_some (rows : list (option Stock)) :
  forall acc sl,
    Database.scanRows acc rows = Some sl ->
    exists stocks, rows = map Some stocks.
Proof.
  induction rows as [| [s |] rest IH]; intros acc sl H.
  - exists []. reflexivity.
  - cbn in H. destruct (IH _ _ H) as [stocks ->].
    exists (s :: stocks). reflexivity.
  - discriminate H.
Qed.

Lemma readRows_ok (stocks : list Stock) :
  Database.readRows (Database.Rows (map Some stocks) false)
  = (Database.sliceOf stocks, None).
Proof.
  unfold Database.readRows. rewrite scanRows_all.
  destruct stocks as [| s rest]; [reflexivity |].
  cbn [fold_left Database.append]. rewrite fold_append_some. reflexivity.
Qed.

Lemma readRows_spec (result : Database.RowsResult) :
  (forall e, snd (Database.readRows result) = Some e ->
             fst (Database.readRows result) = None)
  /\ (snd (Database.readRows result) = None ->
      exists stocks, result = Database.Rows (map Some stocks) false).
Proof.
  destruct result as [| rows iterationFailed]; cbn.
  - split; [reflexivity | discriminate].
  - destruct (Database.scanRows None rows) as [sl |] eqn:Es; cbn.
    + destruct iterationFailed; cbn.
      * split; [reflexivity | discriminate].
      * split; [discriminate |]. intros _.
        destruct (scanRows_some rows None sl Es) as [stocks ->].
        exists stocks. reflexivity.
    + split; [reflexivity | discriminate].
Qed.

(** X14: GetAllStocks sends the count statement first and the select
    statement second, with the same search pattern, and the outcome of the
    count has no part in its result.  It returns no error exactly when the
    query succeeds, every row scans and the iteration ends without error; it
    then returns the rows in their order, and the nil slice when there is no
    row; with an error it returns the nil slice, whatever rows were read
    before the failure. *)
Theorem get_all_stocks_all_or_nothing
        (rd : Database.Reader) (k : nat) (opts : Database.StockQueryOptions) :
  snd (Database.GetAllStocks rd k opts)
  = [Database.countStatement (Database.Search opts);
     Database.allStocksStatement opts]
  /\ fst (Database.GetAllStocks rd k opts)
     = Database.readRows
         (Database.selectRows rd (k + 1) (Database.allStocksStatement opts))
  /\ (forall e, snd (fst (Database.GetAllStocks rd k opts)) = Some e ->
                fst (fst (Database.GetAllStocks rd k opts)) = None)
  /\ (snd (fst (Database.GetAllStocks rd k opts)) = None <->
      exists stocks,
        Database.selectRows rd (k + 1) (Database.allStocksStatement opts)
        = Database.Rows (map Some stocks) false)
  /\ (forall stocks,
        Database.selectRows rd (k + 1) (Database.allStocksStatement opts)
        = Database.Rows (map Some stocks) false ->
        fst (Database.GetAllStocks rd k opts)
        = (Database.sliceOf stocks, None)).
Proof.
  assert (E : Database.GetAllStocks rd k opts
              = (Database.readRows
                   (Database.selectRows rd (k + 1)
                                        (Database.allStocksStatement opts)),
                 [Database.countStatement (Database.Search opts);
                  Database.allStocksStatement opts])).
  { unfold Database.GetAllStocks. rewrite GetStockCount_eq. reflexivity. }
  rewrite E. cbn [fst snd].
  destruct (readRows_spec
              (Database.selectRows rd (k + 1)
                                   (Database.allStocksStatement opts)))
    as [Herr Hok].
  split; [reflexivity |]. split; [reflexivity |]. split; [exact Herr |].
  split.
  - split; [exact Hok |]. intros [stocks ->]. rewrite readRows_ok. reflexivity.
  - intros stocks ->. apply readRows_ok.
Qed.

(** X14 on a server that answers with two rows while the count fails, and
    on one whose second row does not scan. *)
Lemma get_all_stocks_all_or_nothing_witness :
  fst (Database.GetAllStocks
         (Database.mkReader
            (fun _ _ => None)
            (fun _ _ => Database.Rows [Some zeroStock; Some zeroStock] false)
            (fun _ _ => Database.NoRows))
         0 (Database.mkOptions "ab" "alpha" "desc" 10 0))
  = (Some [zeroStock; zeroStock], None)
  /\ fst (fst (Database.GetAllStocks
                 (Database.mkReader
                    (fun _ _ => Some 2)
                    (fun _ _ => Database.Rows [Some zeroStock; None] false)
                    (fun _ _ => Database.NoRows))
                 0 (Database.mkOptions "ab" "alpha" "desc" 10 0)))
     = None.
Proof.
  split.
  - apply (proj2 (proj2 (proj2 (proj2
             (get_all_stocks_all_or_nothing
                (Database.mkReader
                   (fun _ _ => None)
                   (fun _ _ => Database.Rows [Some zeroStock; Some zeroStock]
                                             false)
                   (fun _ _ => Database.NoRows))
                0 (Database.mkOptions "ab" "alpha" "desc" 10 0)))))
           [zeroStock; zeroStock]).
    reflexivity.
  - apply (proj1 (proj2 (proj2
             (get_all_stocks_all_or_nothing
                (Database.mkReader
                   (fun _ _ => Some 2)
                   (fun _ _ => Database.Rows [Some zeroStock; None] false)
                   (fun _ _ => Database.NoRows))
                0 (Database.mkOptions "ab" "alpha" "desc" 10 0))))
           (ErrSql "scan")).
    reflexivity.
Defined.

Lemma lowerAscii_d (c : ascii) :
  lowerAscii c = "d"%char -> c = "d"%char \/ c = "D"%char.
Proof.
  destruct c as [[] [] [] [] [] [] [] []]; vm_compute; intros H;
    try discriminate H; auto.
Qed.

Lemma lowerAscii_e (c : ascii) :
  lowerAscii c = "e"%char -> c = "e"%char \/ c = "E"%char.
Proof.
  destruct c as [[] [] [] [] [] [] [] []]; vm_compute; intros H;
    try discriminate H; auto.
Qed.

Lemma lowerAscii_s (c : ascii) :
  lowerAscii c = "s"%char -> c = "s"%char \/ c = "S"%char.
Proof.
  destruct c as [[] [] [] [] [] [] [] []]; vm_compute; intros H;
    try discriminate H; auto.
Qed.

Lemma lowerAscii_c (c : ascii) :
  lowerAscii c = "c"%char -> c = "c"%char \/ c = "C"%char.
Proof.
  destruct c as [[] [] [] [] [] [] [] []]; vm_compute; intros H;
    try discriminate H; auto.
Qed.

(** The strings that the ASCII lowering takes to [desc]. *)
Lemma ToLower_desc (s : string) :
  ToLower s = "desc"
  <-> In s ["desc"; "desC"; "deSc"; "deSC"; "dEsc"; "dEsC"; "dESc"; "dESC";
            "Desc"; "DesC"; "DeSc"; "DeSC"; "DEsc"; "DEsC"; "DESc"; "DESC"].
Proof.
  split.
  - destruct s as [| a [| b [| c [| d [| e r]]]]]; cbn [ToLower]; intros H;
      try discriminate H.
    injection H as Ha Hb Hc Hd.
    apply lowerAscii_d in Ha. apply lowerAscii_e in Hb.
    apply lowerAscii_s in Hc. apply lowerAscii_c in Hd.
    destruct Ha as [-> | ->], Hb as [-> | ->], Hc as [-> | ->],
             Hd as [-> | ->]; cbn [In]; intuition reflexivity.
  - cbn [In]. intros H.
    repeat (destruct H as [<- | H]; [reflexivity |]). contradiction.
Qed.

Lemma Atoi_range (s : string) (n : Z) :
  Handlers.Atoi s = Some n -> - 2 ^ 63 <= n <= 2 ^ 63 - 1.
Proof.
  unfold Handlers.Atoi. destruct s as [| c r]; [discriminate |].
  destruct (isEmpty (if Ascii.eqb c "-" || Ascii.eqb c "+"
                     then r else String c r)); [discriminate |].
  destruct (Handlers.digitsValue
              0 (if Ascii.eqb c "-" || Ascii.eqb c "+" then r else String c r))
    as [v |]; [| discriminate].
  destruct ((- 2 ^ 63 <=? (if Ascii.eqb c "-" then - v else v))
            && ((if Ascii.eqb c "-" then - v else v) <=? 2 ^ 63 - 1)) eqn:E;
    [| discriminate].
  intros H. injection H as <-.
  apply andb_true_iff in E. destruct E as [E1 E2].
  apply Z.leb_le in E1, E2. lia.
Qed.

(** X15: whatever the parameters of a request, the options that GetStocks
    hands to the database have a limit of at least 1 and an offset of at least
    0, both within the range of an int: the limit is the parameter when that
    is a positive number and 10 otherwise, the offset is the parameter when
    that is a number that is not negative and 0 otherwise; the search and the
    sort column are passed as they are; the order is passed through
    [strings.ToLower], which on an order of ASCII bytes lowers the letters A
    to Z, so that of the ASCII orders exactly the spellings of "desc" in any
    case give a descending statement. *)
Theorem get_stocks_options_in_bounds
        (mapLower : string -> string) (r : Handlers.Request) :
  1 <= Database.Limit (Handlers.optionsOf mapLower r) <= 2 ^ 63 - 1
  /\ 0 <= Database.Offset (Handlers.optionsOf mapLower r) <= 2 ^ 63 - 1
  /\ Database.Limit (Handlers.optionsOf mapLower r)
     = match Handlers.Atoi (Handlers.limitStr r) with
       | Some n => if 0 <? n then n else 10
       | None => 10
       end
  /\ Database.Offset (Handlers.optionsOf mapLower r)
     = match Handlers.Atoi (Handlers.offsetStr r) with
       | Some n => if 0 <=? n then n else 0
       | None => 0
       end
  /\ Database.Search (Handlers.optionsOf mapLower r) = Handlers.searchQuery r
  /\ Database.SortBy (Handlers.optionsOf mapLower r) = Handlers.sortBy r
  /\ Database.Order (Handlers.optionsOf mapLower r)
     = (if Handlers.isASCII (Handlers.order r)
        then ToLower (Handlers.order r) else mapLower (Handlers.order r))
  /\ (Handlers.isASCII (Handlers.order r) = true ->
      (Database.Order (Handlers.optionsOf mapLower r) = "desc"
       <-> In (Handlers.order r)
              ["desc"; "desC"; "deSc"; "deSC"; "dEsc"; "dEsC"; "dESc"; "dESC";
               "Desc"; "DesC"; "DeSc"; "DeSC"; "DEsc"; "DEsC"; "DESc";
               "DESC"])).
Proof.
  unfold Handlers.optionsOf, Handlers.strings_ToLower.
  cbn [Database.Limit Database.Offset Database.Search Database.SortBy
       Database.Order].
  assert (Hdesc : ToLower (Handlers.order r) = "desc"
                  <-> In (Handlers.order r)
                         ["desc"; "desC"; "deSc"; "deSC"; "dEsc"; "dEsC";
                          "dESc"; "dESC"; "Desc"; "DesC"; "DeSc"; "DeSC";
                          "DEsc"; "DEsC"; "DESc"; "DESC"])
    by apply ToLower_desc.
  destruct (Handlers.Atoi (Handlers.limitStr r)) as [l |] eqn:El;
    destruct (Handlers.Atoi (Handlers.offsetStr r)) as [o |] eqn:Eo;
    try (pose proof (Atoi_range _ _ El)); try (pose proof (Atoi_range _ _ Eo));
    try destruct (Z.leb_spec l 0); try destruct (Z.ltb_spec 0 l);
    try destruct (Z.ltb_spec o 0); try destruct (Z.leb_spec 0 o);
    (do 6 (split; [try reflexivity; lia |]));
    (split; [reflexivity | intros Ha; rewrite Ha; exact Hdesc]).
Qed.

(** X16: GetStocks answers 200 exactly when the select succeeds with rows
    that all scan and the count that follows it succeeds, and 500 otherwise.
    On a 200 it has sent three statements, the count, the select and the same
    count again, and it writes the rows with the header X-Total-Count set to
    the decimal text of the second count, the body being the nil slice when
    there is no row. *)
Theorem get_stocks_response
        (mapLower : string -> string) (rd : Database.Reader)
        (r : Handlers.Request) :
  (Handlers.Status (fst (Handlers.GetStocks mapLower rd r)) = 200
   \/ Handlers.Status (fst (Handlers.GetStocks mapLower rd r)) = 500)
  /\ (Handlers.Status (fst (Handlers.GetStocks mapLower rd r)) = 200 <->
      exists stocks n,
        Database.selectRows
          rd 1 (Database.allStocksStatement (Handlers.optionsOf mapLower r))
        = Database.Rows (map Some stocks) false
        /\ Database.countRows
             rd 2 (Database.countStatement (Handlers.searchQuery r)) = Some n)
  /\ (forall stocks n,
        Database.selectRows
          rd 1 (Database.allStocksStatement (Handlers.optionsOf mapLower r))
        = Database.Rows (map Some stocks) false ->
        Database.countRows
          rd 2 (Database.countStatement (Handlers.searchQuery r)) = Some n ->
        Handlers.GetStocks mapLower rd r
        = (Handlers.mkResponse
             200 "application/json" (Some (Database.Itoa n))
             (Handlers.EncodedStocks (Database.sliceOf stocks)),
           [Database.countStatement (Handlers.searchQuery r);
            Database.allStocksStatement (Handlers.optionsOf mapLower r);
            Database.countStatement (Handlers.searchQuery r)])).
Proof.
  assert (E : Database.GetAllStocks rd 0 (Handlers.optionsOf mapLower r)
              = (Database.readRows
                   (Database.selectRows
                      rd 1 (Database.allStocksStatement (Handlers.optionsOf mapLower r))),
                 [Database.countStatement (Handlers.searchQuery r);
                  Database.allStocksStatement (Handlers.optionsOf mapLower r)])).
  { unfold Database.GetAllStocks. rewrite GetStockCount_eq. reflexivity. }
  unfold Handlers.GetStocks. rewrite E. clear E.
  destruct (readRows_spec
              (Database.selectRows
                 rd 1 (Database.allStocksStatement (Handlers.optionsOf mapLower r))))
    as [_ Hok].
  destruct (Database.readRows
              (Database.selectRows
                 rd 1 (Database.allStocksStatement (Handlers.optionsOf mapLower r))))
    as [sl [e |]] eqn:Er.
  - cbn. split; [right; reflexivity |]. split.
    + split; [discriminate |]. intros (stocks & n & Hs & _).
      rewrite Hs, readRows_ok in Er. discriminate Er.
    + intros stocks n Hs _. rewrite Hs, readRows_ok in Er. discriminate Er.
  - rewrite GetStockCount_eq. cbn [length].
    destruct (Hok eq_refl) as [stocks Hs].
    rewrite Hs, readRows_ok in Er. injection Er as <-.
    destruct (Database.countRows
                rd 2 (Database.countStatement (Handlers.searchQuery r)))
      as [n |] eqn:Ec; cbn.
    + split; [left; reflexivity |]. split.
      * split; [| reflexivity]. intros _. exists stocks, n. split; auto.
      * intros stocks' n' Hs' Hn'. injection Hn' as <-.
        rewrite Hs in Hs'. injection Hs' as Hs'.
        assert (stocks = stocks').
        { clear - Hs'. revert stocks' Hs'.
          induction stocks as [| a l IH]; intros [| b l'] H;
            try discriminate H; [reflexivity |].
          injection H as <- H. f_equal. apply IH, H. }
        subst stocks'. reflexivity.
    + split; [right; reflexivity |]. split.
      * split; [discriminate |]. intros (stocks' & n & _ & Hn).
        discriminate Hn.
      * intros stocks' n _ Hn. discriminate Hn.
Qed.

(** X16 on the server that answers with two rows and the count 2, and on one
    with no row. *)
Lemma get_stocks_response_witness :
  Handlers.TotalCount
    (fst (Handlers.GetStocks
            (fun s => s) Database.twoRows
            (Handlers.mkRequest "x" "-3" "ab" "pe_ratio" "DESC" EmptyString)))
  = Some "2"
  /\ Handlers.Written
       (fst (Handlers.GetStocks
               (fun s => s)
               (Database.mkReader (fun _ _ => Some 0)
                                  (fun _ _ => Database.Rows [] false)
                                  (fun _ _ => Database.NoRows))
               (Handlers.mkRequest "x" "-3" "ab" "pe_ratio" "DESC"
                                   EmptyString)))
     = Handlers.EncodedStocks None.
Proof.
  split.
  - rewrite (proj2 (proj2 (get_stocks_response
                             (fun s => s) Database.twoRows
                             (Handlers.mkRequest "x" "-3" "ab" "pe_ratio"
                                                 "DESC" EmptyString)))
                   [zeroStock; zeroStock] 2 eq_refl eq_refl).
    reflexivity.
  - rewrite (proj2 (proj2 (get_stocks_response
                             (fun s => s)
                             (Database.mkReader
                                (fun _ _ => Some 0)
                                (fun _ _ => Database.Rows [] false)
                                (fun _ _ => Database.NoRows))
                             (Handlers.mkRequest "x" "-3" "ab" "pe_ratio"
                                                 "DESC" EmptyString)))
                   [] 0 eq_refl eq_refl).
    reflexivity.
Defined.

(** X17: GetStockByID answers 400 to an empty id without sending a
    statement; to any other id it sends the one select by id, with the id as
    its argument, and answers 200 with the row when there is one and 404
    when there is none and also when the query fails for another reason. *)
Theorem get_stock_by_id_response
        (rd : Database.Reader) (r : Handlers.Request) :
  (Handlers.id r = EmptyString ->
   Handlers.Status (fst (Handlers.GetStockByID rd r)) = 400
   /\ snd (Handlers.GetStockByID rd r) = [])
  /\ (Handlers.id r <> EmptyString ->
      snd (Handlers.GetStockByID rd r)
      = [(Database.byIDQuery, [Database.ArgText (Handlers.id r)])]
      /\ (forall s,
             Database.selectRow
               rd 0 (Database.byIDQuery, [Database.ArgText (Handlers.id r)])
             = Database.Row s ->
             fst (Handlers.GetStockByID rd r)
             = Handlers.mkResponse 200 "application/json" None
                                   (Handlers.EncodedStock s))
      /\ ((forall s,
              Database.selectRow
                rd 0 (Database.byIDQuery, [Database.ArgText (Handlers.id r)])
              <> Database.Row s) ->
          Handlers.Status (fst (Handlers.GetStockByID rd r)) = 404)).
Proof.
  unfold Handlers.GetStockByID, Database.GetStockByID.
  split.
  - intros ->. cbn. split; reflexivity.
  - intros Hne. apply String.eqb_neq in Hne. rewrite Hne.
    destruct (Database.selectRow
                rd 0 (Database.byIDQuery, [Database.ArgText (Handlers.id r)]))
      as [| | s]; cbn; (split; [reflexivity |]); split;
      try (intros s' H; try discriminate H);
      try (intros H; reflexivity).
    + injection H as <-. reflexivity.
    + intros H. exfalso. exact (H s eq_refl).
Qed.

(** X17 on an id that the server does not find because its query fails. *)
Lemma get_stock_by_id_response_witness :
  Handlers.Status
    (fst (Handlers.GetStockByID
            (Database.mkReader (fun _ _ => None)
                               (fun _ _ => Database.QueryFailed)
                               (fun _ _ => Database.RowFailed))
            (Handlers.mkRequest EmptyString EmptyString EmptyString
                                EmptyString EmptyString "42"))) = 404
  /\ Handlers.Status
       (fst (Handlers.GetStockByID
               Database.twoRows
               (Handlers.mkRequest EmptyString EmptyString EmptyString
                                   EmptyString EmptyString EmptyString)))
     = 400.
Proof.
  split.
  - apply (proj2 (get_stock_by_id_response
                    (Database.mkReader (fun _ _ => None)
                                       (fun _ _ => Database.QueryFailed)
                                       (fun _ _ => Database.RowFailed))
                    (Handlers.mkRequest EmptyString EmptyString EmptyString
                                        EmptyString EmptyString "42"))).
    + discriminate.
    + intros s. discriminate.
  - apply (proj1 (get_stock_by_id_response
                    Database.twoRows
                    (Handlers.mkRequest EmptyString EmptyString EmptyString
                                        EmptyString EmptyString EmptyString))).
    reflexivity.
Defined.

(** X18: GetRecommendedStocks sends the one statement that orders by
    recommendation_score, descending with nulls last, with a limit of at
    least 1 as its argument: the parameter when that is a positive number and
    5 otherwise.  It answers 200 with the rows, in the order of the server,
    when they all scan, and 500 otherwise. *)
Theorem get_recommended_stocks_response
        (rd : Database.Reader) (r : Handlers.Request) :
  1 <= Handlers.recommendedLimit r <= 2 ^ 63 - 1
  /\ Handlers.recommendedLimit r
     = match Handlers.Atoi (Handlers.limitStr r) with
       | Some n => if 0 <? n then n else 5
       | None => 5
       end
  /\ snd (Handlers.GetRecommendedStocks rd r)
     = [(Database.recommendedQuery,
         [Database.ArgInt (Handlers.recommendedLimit r)])]
  /\ (forall stocks,
        Database.selectRows
          rd 0 (Database.recommendedQuery,
                [Database.ArgInt (Handlers.recommendedLimit r)])
        = Database.Rows (map Some stocks) false ->
        fst (Handlers.GetRecommendedStocks rd r)
        = Handlers.mkResponse 200 "application/json" None
            (Handlers.EncodedStocks (Database.sliceOf stocks)))
  /\ ((forall stocks,
          Database.selectRows
            rd 0 (Database.recommendedQuery,
                  [Database.ArgInt (Handlers.recommendedLimit r)])
          <> Database.Rows (map Some stocks) false) ->
      Handlers.Status (fst (Handlers.GetRecommendedStocks rd r)) = 500).
Proof.
  split; [| split].
  - unfold Handlers.recommendedLimit.
    destruct (Handlers.Atoi (Handlers.limitStr r)) as [l |] eqn:El;
      [| lia].
    pose proof (Atoi_range _ _ El). destruct (Z.leb_spec l 0); lia.
  - unfold Handlers.recommendedLimit.
    destruct (Handlers.Atoi (Handlers.limitStr r)) as [l |]; [| reflexivity].
    destruct (Z.leb_spec l 0), (Z.ltb_spec 0 l); try reflexivity; lia.
  - unfold Handlers.GetRecommendedStocks, Database.GetRecommendedStocks.
    destruct (readRows_spec
                (Database.selectRows
                   rd 0 (Database.recommendedQuery,
                         [Database.ArgInt (Handlers.recommendedLimit r)])))
      as [_ Hok].
    destruct (Database.readRows
                (Database.selectRows
                   rd 0 (Database.recommendedQuery,
                         [Database.ArgInt (Handlers.recommendedLimit r)])))
      as [sl [e |]] eqn:Er; cbv beta iota zeta; cbn [fst snd].
    + split; [reflexivity |]. split; [| reflexivity].
      intros stocks Hs. rewrite Hs, readRows_ok in Er. discriminate Er.
    + split; [reflexivity |]. destruct (Hok eq_refl) as [stocks Hs].
      split.
      * intros stocks' Hs'. rewrite Hs', readRows_ok in Er.
        injection Er as <-. reflexivity.
      * intros H. exfalso. exact (H stocks Hs).
Qed.

(** X18 on a request with no limit and the server with two rows. *)
Lemma get_recommended_stocks_response_witness :
  Handlers.GetRecommendedStocks
    Database.twoRows
    (Handlers.mkRequest EmptyString EmptyString EmptyString EmptyString
                        EmptyString EmptyString)
  = (Handlers.mkResponse 200 "application/json" None
                         (Handlers.EncodedStocks (Some [zeroStock; zeroStock])),
     [(Database.recommendedQuery, [Database.ArgInt 5])]).
Proof.
  destruct (get_recommended_stocks_response
              Database.twoRows
              (Handlers.mkRequest EmptyString EmptyString EmptyString
                                  EmptyString EmptyString EmptyString))
    as (_ & _ & Hsent & Hok & _).
  rewrite (surjective_pairing (Handlers.GetRecommendedStocks _ _)).
  rewrite Hsent, (Hok [zeroStock; zeroStock] eq_refl). reflexivity.
Defined.

(** ** NullTime and JSON *)

Lemma lastByte_cons (c : ascii) (r : string) :
  r <> EmptyString -> lastByte (String c r) = lastByte r.
Proof. destruct r; [contradiction | reflexivity]. Qed.

(** A string that [trimLeft] empties does not end with a plain byte. *)
Lemma trimLeft_empty_last (n : nat) :
  forall s q,
    (String.length s <= n)%nat ->
    trimLeft s = EmptyString -> lastByte s = Some q -> plainByte q = false.
Proof.
  induction n as [| n IH]; intros s q Hlen Ht Hl.
  - destruct s; [discriminate Hl | cbn in Hlen; lia].
  - destruct s as [| c r]; [discriminate Hl |].
    cbn [String.length] in Hlen. cbn [trimLeft] in Ht.
    destruct (isAsciiSpace c) eqn:Ec.
    + destruct r as [| d r1].
      * injection Hl as <-. unfold plainByte. rewrite Ec. reflexivity.
      * apply (IH (String d r1) q); [lia | exact Ht | exact Hl].
    + destruct r as [| d r1]; [discriminate Ht |].
      cbv zeta in Ht.
      destruct ((N_of_ascii c =? 194)
                && ((N_of_ascii d =? 133) || (N_of_ascii d =? 160)))%N eqn:E2.
      * destruct r1 as [| e r2].
        -- cbn in Hl. injection Hl as <-. unfold plainByte.
           apply andb_true_iff in E2. destruct E2 as [_ E2].
           apply orb_true_iff in E2.
           destruct E2 as [E2 | E2]; apply N.eqb_eq in E2; rewrite E2;
             apply andb_false_r.
        -- apply (IH (String e r2) q); [cbn in *; lia | exact Ht | exact Hl].
      * destruct r1 as [| e r2]; [discriminate Ht |].
        destruct ((N_of_ascii c =? 225) && (N_of_ascii d =? 154)
                  && (N_of_ascii e =? 128)
                  || (N_of_ascii c =? 226) && (N_of_ascii d =? 128)
                     && ((128 <=? N_of_ascii e) && (N_of_ascii e <=? 138)
                         || (N_of_ascii e =? 168) || (N_of_ascii e =? 169)
                         || (N_of_ascii e =? 175))
                  || (N_of_ascii c =? 226) && (N_of_ascii d =? 129)
                     && (N_of_ascii e =? 159)
                  || (N_of_ascii c =? 227) && (N_of_ascii d =? 128)
                     && (N_of_ascii e =? 128))%N eqn:E3;
          [| discriminate Ht].
        destruct r2 as [| g r3].
        -- cbn in Hl. injection Hl as <-. unfold plainByte.
           assert (Hge : (128 <= N_of_ascii e)%N).
           { repeat (apply orb_true_iff in E3; destruct E3 as [E3 | E3]);
               repeat (apply andb_true_iff in E3; destruct E3 as [? E3]);
               repeat match goal with
                      | H : (_ || _)%bool = true |- _ =>
                        apply orb_true_iff in H; destruct H as [H | H]
                      | H : (_ && _)%bool = true |- _ =>
                        apply andb_true_iff in H; destruct H as [? H]
                      | H : (_ =? _)%N = true |- _ => apply N.eqb_eq in H
                      | H : (_ <=? _)%N = true |- _ => apply N.leb_le in H
                      end; lia. }
           apply N.ltb_ge in Hge. rewrite Hge. apply andb_false_r.
        -- apply (IH (String g r3) q); [cbn in *; lia | exact Ht | exact Hl].
Qed.

Lemma trimRight_plain_end (s : string) (q : ascii) :
  lastByte s = Some q -> plainByte q = true -> trimRight s = s.
Proof.
  intros Hl Hq. induction s as [| c r IH]; [reflexivity |].
  cbn [trimRight].
  destruct (isEmpty (trimLeft (String c r))) eqn:Ee.
  - exfalso.
    assert (Ht : trimLeft (String c r) = EmptyString)
      by (destruct (trimLeft (String c r)); [reflexivity | discriminate Ee]).
    pose proof (trimLeft_empty_last _ _ q (Nat.le_refl _) Ht Hl). congruence.
  - destruct r as [| d r1]; [reflexivity |].
    rewrite IH; [reflexivity |]. exact Hl.
Qed.

Lemma lastByte_snoc (body : string) (q : ascii) :
  lastByte (body ++ String q EmptyString) = Some q.
Proof.
  induction body as [| c r IH]; [reflexivity |].
  cbn [append]. rewrite lastByte_cons; [exact IH |].
  destruct r; discriminate.
Qed.

Lemma dropLast_snoc (body : string) (q : ascii) :
  dropLast (body ++ String q EmptyString) = body.
Proof.
  induction body as [| c r IH]; [reflexivity |].
  cbn [append dropLast]. rewrite IH.
  destruct r; reflexivity.
Qed.

Lemma TrimSpace_quoted (body : string) :
  TrimSpace (quoted body) = quoted body.
Proof.
  unfold TrimSpace, quoted. rewrite trimLeft_plain by reflexivity.
  apply (trimRight_plain_end _ dquote); [| reflexivity].
  rewrite lastByte_cons; [apply lastByte_snoc |].
  destruct body; discriminate.
Qed.

Lemma stripQuotes_quoted (body : string) : stripQuotes (quoted body) = body.
Proof.
  unfold stripQuotes, quoted.
  assert (Hl : lastByte (String dquote (body ++ String dquote EmptyString))
               = Some dquote).
  { rewrite lastByte_cons; [apply lastByte_snoc |].
    destruct body; discriminate. }
  rewrite Hl.
  assert (Hlen : (1 <? String.length
                         (String dquote (body ++ String dquote EmptyString)))%nat
                 = true).
  { apply Nat.ltb_lt. cbn [String.length].
    destruct body; cbn; lia. }
  rewrite Hlen. cbn. apply dropLast_snoc.
Qed.

(** X19: on a JSON string, NullTime's UnmarshalJSON gives an absent value
    with no error when the string is empty; otherwise it reads the text
    between the quotes in the RFC 3339 layout and, when that fails, in the
    layout of a day; when both fail it returns an error and the receiver is
    absent with the time it held.  The text is read as it stands between the
    quotes. *)
Theorem nulltime_unmarshal_json_string
        (lib : TimePkg.t) (nt : NullTime.t) (body : string) :
  NullTime_UnmarshalJSON lib nt (quoted body)
  = if (body =? EmptyString)%string
    then (NullTime.mk (NullTime.Time nt) false, None)
    else
      match TimePkg.ParseRFC3339 lib body with
      | Some t => (NullTime.mk t true, None)
      | None =>
        match TimePkg.ParseDate lib body with
        | Some t => (NullTime.mk t true, None)
        | None =>
          (NullTime.mk (NullTime.Time nt) false, Some (ErrParseDate body))
        end
      end.
Proof.
  unfold NullTime_UnmarshalJSON. rewrite TrimSpace_quoted.
  destruct body as [| c r]; [reflexivity |].
  rewrite stripQuotes_quoted.
  replace ((quoted (String c r) =? "null")%string
           || (quoted (String c r) =? EmptyString)%string
           || (quoted (String c r) =? lit_empty)%string) with false;
    [reflexivity |].
  symmetry.
  assert (H1 : (quoted (String c r) =? "null")%string = false)
    by (apply String.eqb_neq; discriminate).
  assert (H2 : (quoted (String c r) =? EmptyString)%string = false)
    by (apply String.eqb_neq; discriminate).
  assert (H3 : (quoted (String c r) =? lit_empty)%string = false).
  { apply String.eqb_neq. unfold lit_empty, quoted. cbn [append].
    intros H. injection H as _ H. destruct r; discriminate H. }
  rewrite H1, H2, H3. reflexivity.
Qed.

(** X20: NullTime's UnmarshalJSON never leaves a present value together with
    an error, keeps the time the receiver held whenever it leaves it absent,
    and takes [null], the empty text and the empty JSON string to an absent
    value with no error; MarshalJSON writes an absent value as [null], so an
    absent value is read back absent. *)
Theorem nulltime_unmarshal_invariants
        (lib : TimePkg.t) (nt : NullTime.t) (data : string) :
  (NullTime.Valid (fst (NullTime_UnmarshalJSON lib nt data)) = true ->
   snd (NullTime_UnmarshalJSON lib nt data) = None)
  /\ (NullTime.Valid (fst (NullTime_UnmarshalJSON lib nt data)) = false ->
      NullTime.Time (fst (NullTime_UnmarshalJSON lib nt data))
      = NullTime.Time nt)
  /\ (In data ["null"; EmptyString; lit_empty; " null "] ->
      NullTime_UnmarshalJSON lib nt data
      = (NullTime.mk (NullTime.Time nt) false, None))
  /\ (forall absent old bytes,
        NullTime.Valid absent = false ->
        NullTime_MarshalJSON lib absent = inl bytes ->
        NullTime_UnmarshalJSON lib old bytes
        = (NullTime.mk (NullTime.Time old) false, None)).
Proof.
  split; [| split; [| split]].
  - unfold NullTime_UnmarshalJSON. break_match; cbn; congruence.
  - unfold NullTime_UnmarshalJSON. break_match; cbn; congruence.
  - intros H. cbn [In] in H.
    repeat (destruct H as [<- | H]; [reflexivity |]). contradiction.
  - intros absent old bytes Ha Hm. unfold NullTime_MarshalJSON in Hm.
    rewrite Ha in Hm. cbn in Hm. injection Hm as <-. reflexivity.
Qed.

(** X20 on a day in quotes, on a text that is no date and on the marshalled
    absent value. *)
Lemma nulltime_unmarshal_invariants_witness :
  NullTime_UnmarshalJSON oneLayoutEach (NewNullTime (Unix 5)) "null"
  = (NullTime.mk (Unix 5) false, None)
  /\ NullTime.Time
       (fst (NullTime_UnmarshalJSON oneLayoutEach (NewNullTime (Unix 5))
                                    (quoted "N/A"))) = Unix 5
  /\ snd (NullTime_UnmarshalJSON oneLayoutEach NullTime.null
                                 (quoted "2024-01-02")) = None.
Proof.
  split; [| split].
  - apply (proj2 (proj2 (proj2 (nulltime_unmarshal_invariants
                                  oneLayoutEach (NewNullTime (Unix 5)) "null")))
                 NullTime.null (NewNullTime (Unix 5)) "null");
      reflexivity.
  - apply (proj1 (proj2 (nulltime_unmarshal_invariants
                           oneLayoutEach (NewNullTime (Unix 5))
                           (quoted "N/A")))).
    reflexivity.
  - apply (proj1 (nulltime_unmarshal_invariants
                    oneLayoutEach NullTime.null (quoted "2024-01-02"))).
    reflexivity.
Defined.

(** ** NullFloat64 on JSON strings *)

Lemma ToLower_app (a b : string) :
  ToLower (a ++ b) = ToLower a ++ ToLower b.
Proof.
  induction a as [| c r IH]; [reflexivity |].
  cbn. rewrite IH. reflexivity.
Qed.

Lemma append_snoc_eqb (a b : string) (q : ascii) :
  (a ++ String q EmptyString =? b ++ String q EmptyString)%string
  = (a =? b)%string.
Proof.
  destruct (String.eqb_spec a b) as [-> | Hne].
  - apply String.eqb_refl.
  - apply String.eqb_neq. intros H. apply Hne. clear Hne.
    revert b H. induction a as [| c r IH]; intros [| d t] H.
    + reflexivity.
    + cbn in H. injection H as _ H. destruct t; discriminate H.
    + cbn in H. injection H as _ H. destruct r; discriminate H.
    + cbn in H. injection H as -> H. f_equal. apply IH, H.
Qed.

Lemma quoted_eqb (a b : string) :
  (quoted a =? quoted b)%string = (a =? b)%string.
Proof.
  unfold quoted. cbn [String.eqb]. rewrite Ascii.eqb_refl.
  apply append_snoc_eqb.
Qed.

Lemma ToLower_quoted (body : string) :
  ToLower (quoted body) = quoted (ToLower body).
Proof. unfold quoted. cbn [ToLower]. rewrite ToLower_app. reflexivity. Qed.

(** X21: on a JSON string, NullFloat64's UnmarshalJSON gives an absent value
    with no error exactly when the text between the quotes is empty or is
    "n/a" in any mix of cases; on every other JSON string, a number in quotes
    included, it returns an error and the receiver is absent; in both cases
    the receiver keeps the number it held. *)
Theorem nullfloat64_unmarshal_json_string
        (lib : Strconv.t) (nf : NullFloat64.t) (body : string) :
  UnmarshalJSON lib nf (quoted body)
  = (NullFloat64.mk (NullFloat64.Float64 nf) false,
     if (body =? EmptyString)%string || (ToLower body =? "n/a")%string
     then None else Some ErrDecode).
Proof.
  unfold UnmarshalJSON. rewrite TrimSpace_quoted.
  assert (Hn : isNullSpelling (quoted body)
               = (body =? EmptyString)%string || (ToLower body =? "n/a")%string).
  { unfold isNullSpelling.
    assert (H1 : (quoted body =? "null")%string = false)
      by (apply String.eqb_neq; discriminate).
    assert (H2 : (quoted body =? EmptyString)%string = false)
      by (apply String.eqb_neq; discriminate).
    rewrite H1, H2, ToLower_quoted. unfold lit_empty, lit_na.
    rewrite !quoted_eqb. reflexivity. }
  rewrite Hn.
  destruct ((body =? EmptyString)%string || (ToLower body =? "n/a")%string);
    reflexivity.
Qed.

(** ** The statement of UpsertStocks on the table *)

Section SqlServer.
Variables (now : Time) (newID : list Stock -> N)
          (rejects : list Stock -> Stock -> bool)
          (asColumns : Stock -> Stock).

(** A ticker that the VARCHAR column accepts is stored as it is. *)
Hypothesis asColumns_ticker : forall s, Ticker (asColumns s) = Ticker s.

Lemma upsertAt_tickers (id : N) (s : Stock) (t : list Stock) :
  (In (Ticker s) (map Ticker t) ->
   map Ticker (Database.upsertAt now id t s) = map Ticker t)
  /\ (~ In (Ticker s) (map Ticker t) ->
      map Ticker (Database.upsertAt now id t s)
      = (map Ticker t ++ [Ticker s])%list).
Proof.
  induction t as [| row rest [IH1 IH2]]; cbn [Database.upsertAt map].
  - split; [intros [] | reflexivity].
  - destruct (String.eqb_spec (Ticker row) (Ticker s)) as [E | E].
    + split.
      * intros _. cbn. rewrite E. reflexivity.
      * intros H. exfalso. apply H. left. exact E.
    + split.
      * intros [H | H]; [contradiction |]. cbn. rewrite (IH1 H). reflexivity.
      * intros H. cbn. rewrite IH2; [reflexivity |].
        intros H'. apply H. right. exact H'.
Qed.

Lemma upsertAt_unique (id : N) (s : Stock) (t : list Stock) :
  NoDup (map Ticker t) ->
  NoDup (map Ticker (Database.upsertAt now id t s))
  /\ (forall tk, In tk (map Ticker (Database.upsertAt now id t s))
                 <-> In tk (map Ticker t) \/ tk = Ticker s).
Proof.
  intros Hnd. destruct (upsertAt_tickers id s t) as [H1 H2].
  destruct (in_dec string_dec (Ticker s) (map Ticker t)) as [Hin | Hnin].
  - rewrite (H1 Hin). split; [exact Hnd |].
    intros tk. split; [auto | intros [H | ->]; assumption].
  - rewrite (H2 Hnin). split.
    + apply NoDup_app; [exact Hnd | constructor; [intros [] | constructor] |].
      intros a Ha [<- | []]. contradiction.
    + intros tk. rewrite in_app_iff. cbn. split.
      * intros [H | [H | []]]; [left; exact H | right; symmetry; exact H].
      * intros [H | H]; [left; exact H | right; left; symmetry; exact H].
Qed.

Lemma upsertAll_unique (stocks : list Stock) :
  forall t t',
    NoDup (map Ticker t) ->
    Database.upsertAll
      (S := Database.sqlServer now newID rejects asColumns) t stocks
    = Some t' ->
    NoDup (map Ticker t')
    /\ (forall tk, In tk (map Ticker t')
                   <-> In tk (map Ticker t) \/ In tk (map Ticker stocks)).
Proof.
  induction stocks as [| s rest IH]; intros t t' Hnd H.
  - cbn in H. injection H as <-. split; [exact Hnd |].
    intros tk. cbn. tauto.
  - cbn in H. destruct (rejects t s); [discriminate H |].
    destruct (upsertAt_unique (newID t) (asColumns s) t Hnd) as [Hnd1 Hin1].
    destruct (IH _ _ Hnd1 H) as [Hnd' Hin'].
    split; [exact Hnd' |].
    intros tk. rewrite Hin', Hin1, asColumns_ticker. cbn. split.
    + intros [[K | K] | K];
        [left; exact K | right; left; symmetry; exact K | right; right; exact K].
    + intros [K | [K | K]];
        [left; left; exact K | left; right; symmetry; exact K | right; exact K].
Qed.

Lemma findRow_upsertAt (id : N) (s : Stock) (tk : string) (t : list Stock) :
  Database.findRow tk (Database.upsertAt now id t s)
  = if (Ticker s =? tk)%string
    then Some (Database.storedRow
                 now
                 (match Database.findRow tk t with
                  | Some r => ID r | None => id end)
                 (match Database.findRow tk t with
                  | Some r => CreatedAt r | None => now end)
                 s)
    else Database.findRow tk t.
Proof.
  unfold Database.findRow.
  induction t as [| row rest IH]; cbn [Database.upsertAt find].
  - cbn. destruct (Ticker s =? tk)%string; reflexivity.
  - destruct (String.eqb_spec (Ticker row) (Ticker s)) as [E | E].
    + cbn [find Database.storedRow Ticker].
      destruct (String.eqb_spec (Ticker s) tk) as [E' | E'].
      * rewrite E, E', String.eqb_refl. reflexivity.
      * rewrite E. apply String.eqb_neq in E'. rewrite E'. reflexivity.
    + cbn [find].
      destruct (String.eqb_spec (Ticker row) tk) as [E' | E'].
      * destruct (String.eqb_spec (Ticker s) tk) as [E'' | E''];
          [congruence | reflexivity].
      * exact IH.
Qed.

Lemma upsertAll_other (stocks : list Stock) (tk : string) :
  forall t t',
    Database.upsertAll
      (S := Database.sqlServer now newID rejects asColumns) t stocks
    = Some t' ->
    ~ In tk (map Ticker stocks) ->
    Database.findRow tk t' = Database.findRow tk t.
Proof.
  induction stocks as [| s rest IH]; intros t t' H Hnin.
  - cbn in H. injection H as <-. reflexivity.
  - cbn in H. destruct (rejects t s); [discriminate H |].
    rewrite (IH _ _ H); [| intros Hin; apply Hnin; right; exact Hin].
    rewrite findRow_upsertAt, asColumns_ticker.
    destruct (String.eqb_spec (Ticker s) tk) as [E | E]; [| reflexivity].
    exfalso. apply Hnin. left. exact E.
Qed.

Lemma upsertAll_last (pre : list Stock) (s : Stock) (post : list Stock) :
  ~ In (Ticker s) (map Ticker post) ->
  forall t t',
    Database.upsertAll (S := Database.sqlServer now newID rejects asColumns)
                       t (pre ++ s :: post) = Some t' ->
    exists id created,
      Database.findRow (Ticker s) t'
      = Some (Database.storedRow now id created (asColumns s))
      /\ (forall r, Database.findRow (Ticker s) t = Some r ->
                    id = ID r /\ created = CreatedAt r)
      /\ (Database.findRow (Ticker s) t = None -> created = now).
Proof.
  intros Hpost. induction pre as [| p pre IH]; intros t t' H.
  - cbn in H. destruct (rejects t s); [discriminate H |].
    rewrite (upsertAll_other post (Ticker s) _ _ H Hpost).
    rewrite findRow_upsertAt, asColumns_ticker, String.eqb_refl.
    do 2 eexists. split; [reflexivity |].
    destruct (Database.findRow (Ticker s) t) as [r |].
    + split; [intros r' Hr; injection Hr as <-; split; reflexivity
             | discriminate].
    + split; [discriminate | reflexivity].
  - cbn in H. destruct (rejects t p); [discriminate H |].
    destruct (IH _ _ H) as (id & created & Hfind & Hold & Hnew).
    exists id, created. split; [exact Hfind |].
    rewrite findRow_upsertAt, asColumns_ticker in Hold, Hnew.
    destruct (Ticker p =? Ticker s)%string.
    + destruct (Database.findRow (Ticker s) t) as [r |].
      * split; [| discriminate]. intros r' Hr. injection Hr as <-.
        exact (Hold _ eq_refl).
      * split; [discriminate |]. intros _.
        exact (proj2 (Hold _ eq_refl)).
    + split; [exact Hold | exact Hnew].
Qed.

(** X22: on a table whose tickers are distinct, a call of UpsertStocks that
    returns no error leaves a table whose tickers are distinct, and they are
    the tickers the table had together with those of the batch: a ticker
    that is submitted again, in a later call or twice in one batch, gets no
    second row. *)
Theorem upsert_keeps_one_row_per_ticker
        (f : Database.Faults)
        (c : Database.Conn (Database.sqlServer now newID rejects asColumns))
        (stocks : list Stock)
        (Hunique : NoDup (map Ticker (Database.committed c)))
        (Hok : snd (fst (Database.UpsertStocks f c stocks)) = None) :
  NoDup (map Ticker
             (Database.committed (fst (fst (Database.UpsertStocks f c stocks)))))
  /\ (forall tk,
         In tk (map Ticker
                    (Database.committed
                       (fst (fst (Database.UpsertStocks f c stocks)))))
         <-> In tk (map Ticker (Database.committed c))
             \/ In tk (map Ticker stocks)).
Proof.
  exact (upsertAll_unique stocks _ _ Hunique (UpsertStocks_ok _ f c stocks Hok)).
Qed.

(** X23: after a call of UpsertStocks that returns no error, the row of a
    ticker that is not in the batch is the one it was; the row of a ticker of
    the batch holds the arguments of the last record of the batch with that
    ticker, as the columns hold them, and is updated at the time of the
    transaction; it keeps the identifier and the creation time of the row the
    table had for that ticker, and is created at the time of the transaction
    when the table had none. *)
Theorem upsert_overwrites_and_keeps_identity
        (f : Database.Faults)
        (c : Database.Conn (Database.sqlServer now newID rejects asColumns))
        (stocks : list Stock)
        (Hok : snd (fst (Database.UpsertStocks f c stocks)) = None) :
  (forall tk,
      ~ In tk (map Ticker stocks) ->
      Database.findRow
        tk (Database.committed (fst (fst (Database.UpsertStocks f c stocks))))
      = Database.findRow tk (Database.committed c))
  /\ (forall pre s post,
         stocks = (pre ++ s :: post)%list ->
         ~ In (Ticker s) (map Ticker post) ->
         exists id created,
           Database.findRow
             (Ticker s)
             (Database.committed (fst (fst (Database.UpsertStocks f c stocks))))
           = Some (Database.storedRow now id created (asColumns s))
           /\ (forall r,
                  Database.findRow (Ticker s) (Database.committed c) = Some r ->
                  id = ID r /\ created = CreatedAt r)
           /\ (Database.findRow (Ticker s) (Database.committed c) = None ->
               created = now)).
Proof.
  pose proof (UpsertStocks_ok _ f c stocks Hok) as Hall.
  split.
  - intros tk Hnin. exact (upsertAll_other stocks tk _ _ Hall Hnin).
  - intros pre s post E Hpost. subst stocks.
    exact (upsertAll_last pre s post Hpost _ _ Hall).
Qed.

End SqlServer.

(** X22 on a table that holds AAA and a batch of AAA, BBB and AAA again. *)
Lemma upsert_keeps_one_row_per_ticker_witness :
  NoDup
    (map Ticker
         (Database.committed
            (fst (fst (Database.UpsertStocks
                         Database.noFaults Database.tableWithAAA
                         [stockOf "AAA" "Buy"; stockOf "BBB" "Hold";
                          stockOf "AAA" "Sell"])))))
  /\ In "BBB"
        (map Ticker
             (Database.committed
                (fst (fst (Database.UpsertStocks
                             Database.noFaults Database.tableWithAAA
                             [stockOf "AAA" "Buy"; stockOf "BBB" "Hold";
                              stockOf "AAA" "Sell"]))))).
Proof.
  assert (Hnd : NoDup ["AAA"]) by (constructor; [intros [] | constructor]).
  destruct (upsert_keeps_one_row_per_ticker
              (Unix 1704200000) (fun t => N.of_nat (length t) + 100)%N
              (fun _ _ => false) (fun s => s) (fun s => eq_refl)
              Database.noFaults Database.tableWithAAA
              [stockOf "AAA" "Buy"; stockOf "BBB" "Hold";
               stockOf "AAA" "Sell"]
              Hnd eq_refl) as [Hn Hi].
  split; [exact Hn |]. apply Hi. right. cbn. tauto.
Defined.

(** X23 on the same table and batch, at the time 1704200000. *)
Lemma upsert_overwrites_and_keeps_identity_witness :
  exists id created,
    Database.findRow
      "AAA"
      (Database.committed
         (fst (fst (Database.UpsertStocks
                      Database.noFaults Database.tableWithAAA
                      [stockOf "AAA" "Buy"; stockOf "BBB" "Hold";
                       stockOf "AAA" "Sell"]))))
    = Some (Database.storedRow (Unix 1704200000) id created
                               (stockOf "AAA" "Sell"))
    /\ id = 7%N /\ created = Unix 5.
Proof.
  destruct (proj2 (upsert_overwrites_and_keeps_identity
                     (Unix 1704200000) (fun t => N.of_nat (length t) + 100)%N
                     (fun _ _ => false) (fun s => s) (fun s => eq_refl)
                     Database.noFaults Database.tableWithAAA
                     [stockOf "AAA" "Buy"; stockOf "BBB" "Hold";
                      stockOf "AAA" "Sell"]
                     eq_refl)
                  [stockOf "AAA" "Buy"; stockOf "BBB" "Hold"]
                  (stockOf "AAA" "Sell") [] eq_refl (fun H => H))
    as (id & created & Hfind & Hold & _).
  exists id, created. split; [exact Hfind |].
  exact (Hold (Database.storedRow
                 (Unix 5) 7%N (Unix 5)
                 (mkStock 0%N "AAA" EmptyString EmptyString "Hold" EmptyString
                          EmptyString NullFloat64.null NullFloat64.null
                          0%float NullFloat64.null NullFloat64.null
                          NullFloat64.null NullFloat64.null NullTime.null
                          NullFloat64.null zeroTime zeroTime))
              eq_refl).
Defined.

(** ** Isolation of the turns *)

(** X24: the record that a cycle stores for the ticker at position [j]
    depends on the answers and on the clock of turn [j] only: two cycles that
    get the same answer from the rating source and, at turn [j], the same
    answers from Finnhub and from Alpha Vantage and the same clock, whatever
    happens at the other turns and whatever the database holds, put the same
    record at position [j] of their batches. *)
Theorem turn_depends_on_its_own_answers
        (S S' : Database.Server) (w w' : World)
        (c : Database.Conn S) (c' : Database.Conn S')
        (items : list Stock) (fx : list Api.Effect) (j : nat)
        (Hrating : Api.GetRecommendationsFromKarenai (env w) (karenai w)
                   = ((items, None), fx))
        (Henv : env w' = env w) (Hkarenai : karenai w' = karenai w)
        (Hparse : time_Parse w' = time_Parse w)
        (Hmetrics : finnhubMetrics w' j = finnhubMetrics w j)
        (Hquote : finnhubQuote w' j = finnhubQuote w j)
        (Halpha : alphaVantage w' j = alphaVantage w j)
        (Hnow : now w' j = now w j) :
  exists batch batch',
    upsertCalls (snd (fetchAndEnrichStocks w c)) = [batch]
    /\ upsertCalls (snd (fetchAndEnrichStocks w' c')) = [batch']
    /\ length batch' = length batch
    /\ nth_error batch' j = nth_error batch j.
Proof.
  assert (Hrating' : Api.GetRecommendationsFromKarenai (env w') (karenai w')
                     = ((items, None), fx))
    by (rewrite Henv, Hkarenai; exact Hrating).
  exists (fst (enrichLoop w 0 items)), (fst (enrichLoop w' 0 items)).
  split; [exact (cycle_upsertCalls S w c items fx Hrating) |].
  split; [exact (cycle_upsertCalls S' w' c' items fx Hrating') |].
  split; [rewrite !enrichLoop_length; reflexivity |].
  rewrite !enrichLoop_nth. cbn [Nat.add].
  destruct (nth_error items j) as [s |]; [| reflexivity].
  cbn [option_map]. rewrite !enrichStock_fst.
  unfold callFinnhub, callAlphaVantage.
  rewrite Henv, Hparse, Hmetrics, Hquote, Halpha, Hnow. reflexivity.
Qed.

(** X24 on the records AAA and BBB, Finnhub failing for AAA in one of the
    two cycles: the record of BBB is the same in both. *)
Lemma turn_depends_on_its_own_answers_witness :
  exists batch batch',
    upsertCalls (snd (fetchAndEnrichStocks calmWorld emptyConn)) = [batch]
    /\ upsertCalls
         (snd (fetchAndEnrichStocks
                 (mkWorld keys (karenai calmWorld)
                          (fun i => if Nat.eqb i 0 then Api.GetFailed
                                    else metricsOK)
                          (fun _ => quoteOK) (fun _ => alphaOK) oneDay
                          (now calmWorld) Database.noFaults)
                 emptyConn)) = [batch']
    /\ length batch' = length batch
    /\ nth_error batch' 1 = nth_error batch 1.
Proof.
  exact (turn_depends_on_its_own_answers
           Database.listServer Database.listServer calmWorld
           (mkWorld keys (karenai calmWorld)
                    (fun i => if Nat.eqb i 0 then Api.GetFailed else metricsOK)
                    (fun _ => quoteOK) (fun _ => alphaOK) oneDay
                    (now calmWorld) Database.noFaults)
           emptyConn emptyConn twoItems [Api.HttpGet Api.KARENAI_API_URL]
           1%nat eq_refl eq_refl eq_refl eq_refl eq_refl eq_refl eq_refl
           eq_refl).
Defined.
